(** * product-scraperjs: a shallow embedding of the scraper core

    The development follows the layout of the JavaScript sources:
    [lib/is.js] and the JavaScript built-ins the code relies on ([Js]),
    [lib/extract.js] and [lib/url.js] ([Extract]), [lib/constructor.js]
    ([Constructor]), [lib/filter.js] ([Filter]), [lib/fuse-product.js]
    ([FuseProduct]) and [lib/search.js] ([Search]).

    Conventions.
    - A JavaScript string is a [string]: a sequence of code units, here
      restricted to code units below 256.
    - A JavaScript number is a binary64 [float]: page numbers, which the
      caller supplies and the loop increments, Fuse.js scores and the
      thresholds compared with them.  Lengths and indices of strings and
      arrays, which are integers far below 2^53, are [Z].
    - A function that may throw returns a [result]; an [async] function is a
      state transformer over [Store] that may also fail to return, which is
      the [None] of a fuel-indexed loop.
    - External collaborators (the network, [URL], Fuse.js) and the
      conversion of a number to a string are parameters. *)

From Stdlib Require Import ZArith List String Ascii Bool Lia.
From Stdlib Require Import Floats DecimalString.
Import ListNotations.

Local Open Scope string_scope.
Local Open Scope Z_scope.

(* Decimal literals such as 0.19 denote the nearest binary64 number, as
   they do in JavaScript. *)
#[local] Set Warnings "-inexact-float".

(** ** JavaScript built-ins used by the sources *)
Module Js.

(** [ToBoolean] on a string: only the empty string is falsy. *)
Definition truthy_string (s : string) : bool := negb (String.eqb s "").

(** [a || b] on strings. *)
Definition or_string (a b : string) : string :=
  if truthy_string a then a else b.

(** [a !== b] on strings. *)
Definition strict_ne (a b : string) : bool := negb (String.eqb a b).

(** The class [\s] of a regular expression, which is also what
    [String.prototype.trim] strips: TAB, LF, VT, FF, CR, SPACE and NBSP
    are its members below 256. *)
Definition isSpace (c : ascii) : bool :=
  let n := N_of_ascii c in
  ((9 <=? n) && (n <=? 13) || (n =? 32) || (n =? 160))%N.

Fixpoint trimStart (s : string) : string :=
  match s with
  | String c s' => if isSpace c then trimStart s' else s
  | EmptyString => EmptyString
  end.

(** Drops the trailing white space: a white-space character is kept only
    when something is kept after it. *)
Fixpoint trimEnd (s : string) : string :=
  match s with
  | String c s' =>
      match trimEnd s' with
      | EmptyString => if isSpace c then EmptyString else String c EmptyString
      | t => String c t
      end
  | EmptyString => EmptyString
  end.

Definition trim (s : string) : string := trimEnd (trimStart s).

(** [String.prototype.toLowerCase] on code units below 256: the letters
    A-Z and the accented capitals U+00C0-U+00DE (U+00D7 excepted) move up
    by 32. *)
Definition lowerChar (c : ascii) : ascii :=
  let n := N_of_ascii c in
  if ((65 <=? n) && (n <=? 90)
      || (192 <=? n) && (n <=? 222) && negb (n =? 215))%N
  then ascii_of_N (n + 32) else c.

Fixpoint toLowerCase (s : string) : string :=
  match s with
  | String c s' => String (lowerChar c) (toLowerCase s')
  | EmptyString => EmptyString
  end.

Definition startsWith (s p : string) : bool := String.prefix p s.

Definition includes (s p : string) : bool :=
  match String.index 0 p s with Some _ => true | None => false end.

(** [s.substring(0, e)]: a negative [e] counts as 0, one beyond the
    length as the length. *)
Definition substring0 (s : string) (e : Z) : string :=
  String.substring 0 (Z.to_nat e) s.

Definition length (s : string) : Z := Z.of_nat (String.length s).

(** The decimal digits of an integer, which is what [String(n)] gives for
    an integral number of absolute value below 2^53. *)
Definition integerToString (n : Z) : string :=
  NilEmpty.string_of_int (Z.to_int n).

(** [a[i]] used as an operand of string [+]: a missing entry is
    [undefined] and concatenates as the text "undefined". *)
Definition indexForConcat (a : list string) (i : nat) : string :=
  nth i a "undefined".

(** [a[i] = v]: assignment inside the array replaces the entry; an
    assignment past the end extends the array, the hole before [i] (if
    any) reading as the default [d]. *)
Fixpoint arraySet {A : Type} (d : A) (a : list A) (i : nat) (v : A) : list A :=
  match i, a with
  | O, [] => [v]
  | O, _ :: a' => v :: a'
  | S i', [] => d :: arraySet d [] i' v
  | S i', x :: a' => x :: arraySet d a' i' v
  end.

(** [Array(n).fill(v)]. *)
Definition arrayFill {A : Type} (n : nat) (v : A) : list A := repeat v n.

(** [s.replace(/\s/, r)]: only the first white-space character. *)
Fixpoint replaceFirstSpace (s r : string) : string :=
  match s with
  | String c s' => if isSpace c then r ++ s' else String c (replaceFirstSpace s' r)
  | EmptyString => EmptyString
  end.

(** [s.replace(/\s/g, r)]: every white-space character. *)
Fixpoint replaceAllSpaces (s r : string) : string :=
  match s with
  | String c s' =>
      if isSpace c then r ++ replaceAllSpaces s' r
      else String c (replaceAllSpaces s' r)
  | EmptyString => EmptyString
  end.

End Js.

(** ** Exceptions, the store and asynchronous functions *)

(** An [Error] is identified by its message. *)
Definition Error := string.

Inductive result (A : Type) : Type :=
| Ok (a : A)
| Throw (e : Error).
Arguments Ok {A} a.
Arguments Throw {A} e.

(** ** [lib/fuse-product.js]: the options object shared by all calls *)

(** The options object handed to [new Fuse(names, options)]. *)
Record FuseOptions : Type := {
  isCaseSensitive : bool;
  includeScore : bool;
  includeMatches : bool;
  minMatchCharLength : Z;
  shouldSort : bool;
  findAllMatches : bool;
  threshold : float;
  ignoreLocation : bool;
  useExtendedSearch : bool;
  fieldNormWeight : float
}.

(** The module-level constant [FUSE_DEFAULT_OPTIONS] as it is when the
    module is loaded. *)
Definition FUSE_DEFAULT_OPTIONS : FuseOptions := {|
  isCaseSensitive := false;
  includeScore := true;
  includeMatches := false;
  minMatchCharLength := 1;
  shouldSort := true;
  findAllMatches := false;
  threshold := 1.0%float;
  ignoreLocation := true;
  useExtendedSearch := true;
  fieldNormWeight := 0%float
|}.

(** [options.fieldNormWeight = w] on the object [options] refers to. *)
Definition set_fieldNormWeight (o : FuseOptions) (w : float) : FuseOptions := {|
  isCaseSensitive := isCaseSensitive o;
  includeScore := includeScore o;
  includeMatches := includeMatches o;
  minMatchCharLength := minMatchCharLength o;
  shouldSort := shouldSort o;
  findAllMatches := findAllMatches o;
  threshold := threshold o;
  ignoreLocation := ignoreLocation o;
  useExtendedSearch := useExtendedSearch o;
  fieldNormWeight := w
|}.

(** The mutable state outside a call: the object [FUSE_DEFAULT_OPTIONS]
    refers to, and (as an observation, the code does not keep it) the URLs
    handed to [fetch] so far, oldest first. *)
Record Store : Type := {
  fetched : list string;
  fuseDefaults : FuseOptions
}.

Definition initialStore : Store :=
  {| fetched := []; fuseDefaults := FUSE_DEFAULT_OPTIONS |}.

(** An [async] function: from a store to its settled promise and the store
    it leaves, or [None] when it never settles within the given fuel. *)
Definition Async (A : Type) : Type := Store -> option (result A * Store).

Definition ret {A : Type} (a : A) : Async A := fun st => Some (Ok a, st).

Definition throw {A : Type} (e : Error) : Async A := fun st => Some (Throw e, st).

Definition diverge {A : Type} : Async A := fun _ => None.

(** [await m] followed by [k]: a rejection of [m] is the rejection of the
    whole. *)
Definition bind {A B : Type} (m : Async A) (k : A -> Async B) : Async B :=
  fun st =>
    match m st with
    | Some (Ok a, st') => k a st'
    | Some (Throw e, st') => Some (Throw e, st')
    | None => None
    end.

Notation "x <- m ;; k" := (bind m (fun x => k))
  (at level 61, m at next level, right associativity).

(** A synchronous call that may throw, inside an [async] function. *)
Definition liftResult {A : Type} (r : result A) : Async A :=
  fun st => Some (r, st).

(** Sequencing of synchronous calls that may throw. *)
Definition andThen {A B : Type} (r : result A) (k : A -> result B) : result B :=
  match r with
  | Ok a => k a
  | Throw e => Throw e
  end.

Notation "x <~ r ;; k" := (andThen r (fun x => k))
  (at level 61, r at next level, right associativity).

(** ** The parsed document *)

(** What the code reads of a selected element: its text and attributes. *)
Record Element : Type := {
  text : string;
  attribs : list (string * string)
}.

(** A [CheerioAPI] is used only as [$(selector)], written [dom selector]
    here: the selected elements in document order. *)
Definition CheerioAPI : Type := string -> list Element.

(** [el.attr(name)]; [None] is [undefined]. *)
Fixpoint attr (l : list (string * string)) (name : string) : option string :=
  match l with
  | [] => None
  | (k, v) :: l' => if String.eqb k name then Some v else attr l' name
  end.

(** ** The scraper instance ([this]) *)

Record ProductPageSelectors : Type := {
  pps_id : string; pps_name : string; pps_images : string; pps_description : string
}.

Record ProductListSelectors : Type := {
  names : string; links : string; images : string; descriptions : string
}.

Record Placeholders : Type := { image : string; description : string }.

Record Paginations : Type := { catalog : list string; search : list string }.

(** [fuseOptionsBrand] and [fuseOptionsBrandless]. *)
Record Thresholds : Type := {
  firstScore : float;
  firstScoreWarning : float;
  difference : float
}.

(** The configuration after the constructor merged it over the defaults:
    an unconfigured selector, placeholder or base URL is the empty
    string. *)
Record ProductScraper : Type := {
  baseUrl : string;
  brands : list string;
  productPageSelectors : ProductPageSelectors;
  productListSelectors : ProductListSelectors;
  placeholders : Placeholders;
  paginations : Paginations;
  fuseOptionsBrand : Thresholds;
  fuseOptionsBrandless : Thresholds
}.

(** The network and the parser behind [fetchCheerioAPI]: the document
    [fetch], [response.text()] and [cheerio.load] give for a URL, or
    [None] when one of them throws. A site answers the same URL with the
    same document throughout a run. *)
Definition Web : Type := string -> option CheerioAPI.

(** The platform class [URL]: [origin u] is [protocol + "//" + host] of
    [new URL(u)], and [resolve u base] is [new URL(u, base).toString()];
    [None] when the constructor throws. *)
Record UrlApi : Type := {
  origin : string -> option string;
  resolve : string -> string -> option string
}.

(** ** Values the pagination loop accumulates *)

(** What [iterateOverPagination] asks of the values a callback returns:
    lodash's [_.isEqual] on two of them, and their [ToBoolean]. *)
Class JsValue (T : Type) : Type := {
  isEqual : T -> T -> bool;
  toBoolean : T -> bool
}.

(** Strings (names, URLs, descriptions): equal character by character,
    falsy exactly when empty. *)
#[export] Instance JsValue_string : JsValue string := {|
  isEqual := String.eqb;
  toBoolean := Js.truthy_string
|}.

(** The argument of [searchProduct] and [fuseSearchProduct]; [None] is an
    absent ([undefined]) property. *)
Record BasicInfo : Type := {
  name : string;
  brand : option string;
  url : option string
}.

(** [ToBoolean] on an optional string property. *)
Definition truthy_property (p : option string) : bool :=
  match p with
  | Some s => Js.truthy_string s
  | None => false
  end.

(** The objects [{ name, brand, url }] that
    [extractProductsBasicInfoFromList] builds. *)
Record ProductCardData : Type := {
  card_name : string;
  card_brand : string;
  card_url : string
}.

(** Objects are compared property by property and are always truthy. *)
#[export] Instance JsValue_card : JsValue ProductCardData := {|
  isEqual a b :=
    String.eqb (card_name a) (card_name b)
    && String.eqb (card_brand a) (card_brand b)
    && String.eqb (card_url a) (card_url b);
  toBoolean _ := true
|}.

(** ** [lib/is.js]: run-time type checks *)
Module Is.

#[local] Set Warnings "-register-all".

(** A JavaScript value, as far as [typeof], [Array.isArray] and the
    comparison with [undefined] tell values apart. *)
Inductive JsAny : Type :=
| JsUndefined
| JsNull
| JsBoolean (b : bool)
| JsNumber (n : float)
| JsString (s : string)
| JsArray (items : list JsAny)
| JsObject (fields : list (string * JsAny))
| JsFunction.

(** [typeof val]. *)
Definition typeOf (val : JsAny) : string :=
  match val with
  | JsUndefined => "undefined"
  | JsNull => "object"
  | JsBoolean _ => "boolean"
  | JsNumber _ => "number"
  | JsString _ => "string"
  | JsArray _ => "object"
  | JsObject _ => "object"
  | JsFunction => "function"
  end.

(** [val != undefined]: the loose comparison holds [null] equal to
    [undefined]. *)
Definition defined (val : JsAny) : bool :=
  match val with
  | JsUndefined | JsNull => false
  | _ => true
  end.

Definition string (val : JsAny) : bool := String.eqb (typeOf val) "string".

Definition number (val : JsAny) : bool := String.eqb (typeOf val) "number".

(** [typeof val === 'object' && val !== null]. *)
Definition object (val : JsAny) : bool :=
  String.eqb (typeOf val) "object"
  && match val with JsNull => false | _ => true end.

Definition boolean (val : JsAny) : bool := String.eqb (typeOf val) "boolean".

(** [Array.isArray(val)]. *)
Definition array (val : JsAny) : bool :=
  match val with JsArray _ => true | _ => false end.

Definition fn (val : JsAny) : bool := String.eqb (typeOf val) "function".

Definition typeChecker (typeName : String.string) : result (JsAny -> bool) :=
  if String.eqb typeName "string" then Ok string
  else if String.eqb typeName "number" then Ok number
  else if String.eqb typeName "object" then Ok object
  else if String.eqb typeName "boolean" then Ok boolean
  else if String.eqb typeName "array" then Ok array
  else if String.eqb typeName "fn" || String.eqb typeName "function" then Ok fn
  else Throw ("Type " ++ typeName ++ " does not exist").

Section WithDisplay.
(** The conversion of a value to text inside a template literal. *)
Variable display : JsAny -> String.string.

Definition invalidTypeError (valName typeName : String.string) (val : JsAny)
  : Error :=
  "Expected type " ++ typeName ++ " for " ++ valName ++ " but received "
  ++ display val ++ " of type "
  ++ match val with JsNull => "null" | _ => typeOf val end.

Definition invalidType (valName typeName : String.string) (val : JsAny)
    (isOptional : bool) : result unit :=
  if isOptional && negb (defined val) then Ok tt
  else
    check <~ typeChecker typeName ;;
    if negb (check val) then Throw (invalidTypeError valName typeName val)
    else Ok tt.

End WithDisplay.

End Is.

(** [this.productPageOptions], the options of the extraction from a
    product page. *)
Record ProductPageOptions : Type := {
  idFormat : string;
  idMatchIndex : Z;
  hasDescriptionLabel : bool
}.

(** What [searchProductCardData] returns: [{ imageUrls, description }]. *)
Record ProductCardContent : Type := {
  content_imageUrls : list string;
  content_description : string
}.

(** ** [lib/is.js], [lib/url.js] and [lib/extract.js] *)
Module Extract.

(** [is.emptySelection(elements, selector)]. *)
Definition emptySelection (els : list Element) (selector : string) : result unit :=
  if (List.length els =? 0)%nat
  then Throw ("Selector " ++ selector ++ " do not match any element")
  else Ok tt.

Definition extractTextContents (dom : CheerioAPI) (selector : string)
  : result (list string) :=
  let els := dom selector in
  match emptySelection els selector with
  | Throw e => Throw e
  | Ok _ => Ok (map (fun el => Js.trim (text el)) els)
  end.

(** [Array.from(els, f)] with an [f] that may throw: the first element
    without the attribute ends the conversion. *)
Fixpoint attrValues (els : list Element) (selector attrName : string)
  : result (list string) :=
  match els with
  | [] => Ok []
  | el :: els' =>
      match attr (attribs el) attrName with
      | None =>
          Throw ("Element selected by " ++ selector
                 ++ " does not have an attribute " ++ attrName)
      | Some attrVal =>
          match attrValues els' selector attrName with
          | Throw e => Throw e
          | Ok vals => Ok (attrVal :: vals)
          end
      end
  end.

Definition extractAttrValues (dom : CheerioAPI) (selector attrName : string)
  : result (list string) :=
  let els := dom selector in
  match emptySelection els selector with
  | Throw e => Throw e
  | Ok _ => attrValues els selector attrName
  end.

Section WithUrl.
Variable URL : UrlApi.

(** [getBaseUrl] of [lib/url.js]. *)
Definition getBaseUrl (url : string) : result string :=
  match origin URL url with
  | Some base => Ok base
  | None => Throw (url ++ " is not a valid URL")
  end.

(** The [urls.map] of [convertToAbsolute]. *)
Fixpoint resolveAll (urls : list string) (validatedBaseUrl baseUrl : string)
  : result (list string) :=
  match urls with
  | [] => Ok []
  | url :: urls' =>
      match resolve URL url validatedBaseUrl with
      | None => Throw (url ++ " and " ++ baseUrl ++ " do not represent a valid URL")
      | Some abs =>
          match resolveAll urls' validatedBaseUrl baseUrl with
          | Throw e => Throw e
          | Ok rest => Ok (abs :: rest)
          end
      end
  end.

Definition convertToAbsolute (urls : list string) (baseUrl : string)
  : result (list string) :=
  match getBaseUrl baseUrl with
  | Throw e => Throw e
  | Ok validatedBaseUrl => resolveAll urls validatedBaseUrl baseUrl
  end.

Definition extractUrls (dom : CheerioAPI) (selector attrName baseUrl : string)
  : result (list string) :=
  match extractAttrValues dom selector attrName with
  | Throw e => Throw e
  | Ok urls =>
      if Js.truthy_string baseUrl then convertToAbsolute urls baseUrl else Ok urls
  end.

Variable this : ProductScraper.

Definition extractProductNamesFromList (dom : CheerioAPI) : result (list string) :=
  extractTextContents dom (names (productListSelectors this)).

Definition extractProductPageUrlsFromList (dom : CheerioAPI) : result (list string) :=
  extractUrls dom (links (productListSelectors this)) "href" (baseUrl this).

Definition extractProductImageUrlsFromList (dom : CheerioAPI) : result (list string) :=
  extractUrls dom (images (productListSelectors this)) "src" (baseUrl this).

Definition extractProductDescriptionsFromList (dom : CheerioAPI)
  : result (list string) :=
  extractTextContents dom (descriptions (productListSelectors this)).

(** The two [for ... of this.config.brands] loops of [recognizeBrand]. *)
Fixpoint firstBrand (test : string -> string -> bool) (lower : string)
    (bs : list string) : option string :=
  match bs with
  | [] => None
  | brand :: bs' =>
      if test lower (Js.toLowerCase brand) then Some brand
      else firstBrand test lower bs'
  end.

Definition recognizeBrand (productName : string) : string :=
  let productNameLowerCase := Js.toLowerCase productName in
  match firstBrand Js.startsWith productNameLowerCase (brands this) with
  | Some brand => brand
  | None =>
      match firstBrand Js.includes productNameLowerCase (brands this) with
      | Some brand => brand
      | None => ""
      end
  end.

(** [names.map((name, i) => ({ name, brand, url: urls[i] }))]; the
    caller has checked that [urls] is as long as [names]. *)
Fixpoint zipBasicInfo (names urls : list string) : list ProductCardData :=
  match names, urls with
  | name :: names', url :: urls' =>
      {| card_name := name; card_brand := recognizeBrand name; card_url := url |}
      :: zipBasicInfo names' urls'
  | _, _ => []
  end.

Definition extractProductsBasicInfoFromList (dom : CheerioAPI)
  : result (list ProductCardData) :=
  names <~ extractProductNamesFromList dom ;;
  urls <~ extractProductPageUrlsFromList dom ;;
  if negb (List.length names =? List.length urls)%nat
  then Throw "Invalid selection: links number and names number are not equal"
  else Ok (zipBasicInfo names urls).

(** *** Extraction from a product page *)

Variable productPageOptions : ProductPageOptions.

(** The longest prefix of [s] whose characters satisfy [p], and what
    follows it. *)
Fixpoint span (p : ascii -> bool) (s : string) : string * string :=
  match s with
  | String c s' =>
      if p c then let (run, rest) := span p s' in (String c run, rest)
      else (EmptyString, s)
  | EmptyString => (EmptyString, EmptyString)
  end.

(** [description.replace(/\S+\s+/, '')]. The first match starts at the
    first character that is not white space and takes the word there and
    the white space after it; when that word runs to the end of the string
    nothing matches and the string is returned as it is. *)
Definition removeFirstWord (description : string) : string :=
  let (leading, fromWord) := span Js.isSpace description in
  let (word, afterWord) := span (fun c => negb (Js.isSpace c)) fromWord in
  let (gap, tail) := span Js.isSpace afterWord in
  match word, gap with
  | String _ _, String _ _ => leading ++ tail
  | _, _ => description
  end.

(** The line feed that joins the texts. *)
Definition lineFeed : string := String (ascii_of_nat 10) EmptyString.

Definition extractProductDescription (dom : CheerioAPI) : result string :=
  texts <~ extractTextContents dom (pps_description (productPageSelectors this)) ;;
  let description := String.concat lineFeed texts in
  Ok (if hasDescriptionLabel productPageOptions
      then removeFirstWord description else description).

Definition extractProductImageUrls (dom : CheerioAPI) : result (list string) :=
  extractUrls dom (pps_images (productPageSelectors this)) "src" (baseUrl this).

End WithUrl.

End Extract.

(** ** [lib/constructor.js] *)
Module Constructor.

Record Pagination : Type := {
  url : string;
  first : option float;
  last : option float
}.

(** The value of [pageNum] after [i] executions of [pageNum++]. *)
Fixpoint pageAfter (pageNum : float) (i : nat) : float :=
  match i with
  | O => pageNum
  | S i' => pageAfter (pageNum + 1)%float i'
  end.

Section WithWeb.
Variable web : Web.

(** [String(x)] of a number, which [url + pageNum] applies to the page
    number. *)
Variable numberToString : float -> string.

(** The store once [url] has been handed to [fetch]. *)
Definition recordFetch (st : Store) (url : string) : Store :=
  {| fetched := fetched st ++ [url]; fuseDefaults := fuseDefaults st |}.

Definition fetchCheerioAPI (url : string) : Async CheerioAPI :=
  fun st =>
    let st' := recordFetch st url in
    match web url with
    | Some dom => Some (Ok dom, st')
    | None =>
        Some (Throw (url ++ " is not a valid URL or is currently unavailable"),
              st')
    end.

Context {T : Type} `{JsValue T}.

(** [acc.find(val => _.isEqual(val, data[0]))] used as the condition of
    the [if]: [find] gives the first element of [acc] that is deeply
    equal to [data[0]] (none is when [data] is empty and [data[0]] is
    [undefined]), and the [if] takes its [ToBoolean]. *)
Definition pageReoccurs (acc data : list T) : bool :=
  match nth_error data 0 with
  | None => false
  | Some data0 =>
      match List.find (fun val => isEqual val data0) acc with
      | Some found => toBoolean found
      | None => false
      end
  end.

(** [last == undefined ? true : pageNum <= last]; [<=] is false when one
    side is NaN. *)
Definition inRange (last : option float) (pageNum : float) : bool :=
  match last with
  | None => true
  | Some l => PrimFloat.leb pageNum l
  end.

(** The [while] loop of [iterateOverPagination]; one unit of fuel is
    one execution of its body. *)
Fixpoint paginationLoop (fuel : nat) (url : string) (startPageNum : float)
    (last : option float) (callback : CheerioAPI -> result (list T))
    (pageNum : float) (acc : list T) {struct fuel} : Async (list T) :=
  if inRange last pageNum then
    match fuel with
    | O => diverge
    | S fuel' =>
        dom <- fetchCheerioAPI (url ++ numberToString pageNum) ;;
        match callback dom with
        | Ok data =>
            if pageReoccurs acc data then ret acc
            else paginationLoop fuel' url startPageNum last callback
                   (pageNum + 1)%float (acc ++ data)
        | Throw e =>
            if PrimFloat.eqb pageNum startPageNum then throw e else ret acc
        end
    end
  else ret acc.

Definition iterateOverPagination (fuel : nat) (pagination : Pagination)
    (callback : CheerioAPI -> result (list T)) : Async (list T) :=
  let startPageNum :=
    match first pagination with None => 1%float | Some f => f end in
  paginationLoop fuel (url pagination) startPageNum (last pagination)
    callback startPageNum [].

(** *** Vocabulary for runs of the loop *)

Section Runs.
Variable pagination : Pagination.
Variable callback : CheerioAPI -> result (list T).

Definition startPage : float :=
  match first pagination with None => 1%float | Some f => f end.

(** Page [pageNum] is fetched and the callback returns [data] on it. *)
Definition served (pageNum : float) (data : list T) : Prop :=
  exists dom,
    web (url pagination ++ numberToString pageNum) = Some dom
    /\ callback dom = Ok data.

(** Page [pageNum] is fetched and the callback throws [e] on it. *)
Definition extractorFails (pageNum : float) (e : Error) : Prop :=
  exists dom,
    web (url pagination ++ numberToString pageNum) = Some dom
    /\ callback dom = Throw e.

(** The fetch of page [pageNum] fails. *)
Definition unreachable (pageNum : float) : Prop :=
  web (url pagination ++ numberToString pageNum) = None.

(** [Reaches pageNum pages]: the loop arrives at its test with page number
    [pageNum], having appended the results [pages] of all the pages before
    it, in order; the accumulator is then [concat pages]. *)
Inductive Reaches : float -> list (list T) -> Prop :=
| Reaches_start : Reaches startPage []
| Reaches_next (pageNum : float) (pages : list (list T)) (data : list T) :
    Reaches pageNum pages ->
    inRange (last pagination) pageNum = true ->
    served pageNum data ->
    pageReoccurs (List.concat pages) data = false ->
    Reaches (pageNum + 1)%float (pages ++ [data])%list.

(** The first element of [data] is deeply equal to an element of [acc]. *)
Definition firstIsAccumulated (acc data : list T) : Prop :=
  exists data0 val,
    nth_error data 0 = Some data0 /\ In val acc /\ isEqual val data0 = true.

End Runs.

End WithWeb.

End Constructor.

(** ** [lib/filter.js] *)
Module Filter.

Section WithThis.
Variable URL : UrlApi.
Variable web : Web.
Variable numberToString : float -> string.
Variable this : ProductScraper.
Context {T : Type}.

(** [vals[i] !== placeholder]; an [undefined] entry differs from every
    string. *)
Definition differsAt (vals : list string) (i : nat) (placeholder : string) : bool :=
  match nth_error vals i with
  | Some v => Js.strict_ne v placeholder
  | None => true
  end.

(** [for (let i = ...; i < vals.length; i++) exist[i] = vals[i] !== placeholder],
    with [remaining] iterations to go from [i]. *)
Fixpoint markLoop (remaining i : nat) (vals : list string)
    (placeholder : string) (exist : list bool) : list bool :=
  match remaining with
  | O => exist
  | S remaining' =>
      markLoop remaining' (S i) vals placeholder
        (Js.arraySet false exist i (differsAt vals i placeholder))
  end.

(** [data.filter((_, i) => f(_, i))], from index [i] on. *)
Fixpoint filterFrom (f : T -> nat -> bool) (i : nat) (data : list T) : list T :=
  match data with
  | [] => []
  | x :: data' =>
      if f x i then x :: filterFrom f (S i) data' else filterFrom f (S i) data'
  end.

Definition filterProductCardsFromPage (dom : CheerioAPI)
    (callback : CheerioAPI -> result (list T))
    (filterFunction : bool -> bool -> bool) : result (list T) :=
  data <~ callback dom ;;
  let imgExist := Js.arrayFill (List.length data) false in
  let desExist := Js.arrayFill (List.length data) false in
  imgExist <~
    (if Js.truthy_string (images (productListSelectors this))
        && Js.truthy_string (image (placeholders this))
     then
       imgUrls <~ Extract.extractProductImageUrlsFromList URL this dom ;;
       if negb (List.length imgUrls =? List.length data)%nat
       then Throw "Invalid selection: images number and product cards number are not equal"
       else Ok (markLoop (List.length imgUrls) 0 imgUrls
                  (image (placeholders this)) imgExist)
     else Ok imgExist) ;;
  desExist <~
    (if Js.truthy_string (descriptions (productListSelectors this))
        && Js.truthy_string (description (placeholders this))
     then
       descriptions <~ Extract.extractProductDescriptionsFromList this dom ;;
       if negb (List.length descriptions =? List.length data)%nat
       then Throw "Invalid selection: descriptions number and product cards number are not equal"
       else Ok (markLoop (List.length descriptions) 0 descriptions
                  (description (placeholders this)) desExist)
     else Ok desExist) ;;
  Ok (filterFrom
        (fun _ i => filterFunction (nth i imgExist false) (nth i desExist false))
        0%nat data).

(** *** The filter as the specification words it *)

(** The image signal is meaningful when both the image selector and the
    image placeholder are configured. *)
Definition imagesConfigured : bool :=
  Js.truthy_string (images (productListSelectors this))
  && Js.truthy_string (image (placeholders this)).

Definition descriptionsConfigured : bool :=
  Js.truthy_string (descriptions (productListSelectors this))
  && Js.truthy_string (description (placeholders this)).

(** The presence signal of each of [n] cards: [vals[i] !== placeholder]
    when configured, [false] for every card otherwise. *)
Definition presenceSignals (configured : bool) (vals : list string)
    (placeholder : string) (n : nat) : list bool :=
  if configured then map (fun v => Js.strict_ne v placeholder) vals
  else repeat false n.

(** The cards whose signal satisfies the predicate, in their order. *)
Definition cardsSatisfying (predicate : bool -> bool -> bool) (cards : list T)
    (imagePresent descriptionPresent : list bool) : list T :=
  map fst
    (filter (fun c => predicate (fst (snd c)) (snd (snd c)))
       (combine cards (combine imagePresent descriptionPresent))).

Context `{JsValue T}.

Definition filterProductCardsFromPagination (fuel : nat)
    (pagination : Constructor.Pagination)
    (callback : CheerioAPI -> result (list T))
    (filterFunction : bool -> bool -> bool) : Async (list T) :=
  Constructor.iterateOverPagination web numberToString fuel pagination
    (fun dom => filterProductCardsFromPage dom callback filterFunction).

Definition filterProductCardsFromCatalog (fuel : nat) (criteria : string)
    (callback : CheerioAPI -> result (list T))
    (filterFunction : bool -> bool -> bool) : Async (list T) :=
  let url := Js.indexForConcat (catalog (paginations this)) 0 ++ criteria
             ++ Js.indexForConcat (catalog (paginations this)) 1 in
  filterProductCardsFromPagination fuel
    {| Constructor.url := url; Constructor.first := None; Constructor.last := None |}
    callback filterFunction.

Definition filterProductCardsFromSearch (fuel : nat) (query : string)
    (callback : CheerioAPI -> result (list T))
    (filterFunction : bool -> bool -> bool) : Async (list T) :=
  let url := Js.indexForConcat (search (paginations this)) 0 ++ query
             ++ Js.indexForConcat (search (paginations this)) 1 in
  filterProductCardsFromPagination fuel
    {| Constructor.url := url; Constructor.first := None; Constructor.last := None |}
    callback filterFunction.

End WithThis.

End Filter.

(** ** [lib/fuse-product.js] *)
Module FuseProduct.

(** An entry of what [fuse.search(query)] returns (with
    [includeScore: true]). *)
Record FuseResult : Type := {
  item : string;
  refIndex : Z;
  score : float
}.

(** Fuse.js itself: [engine options names query] is
    [new Fuse(names, options).search(query)], where the constructor reads
    the options object as it is at that moment. *)
Definition FuseEngine : Type :=
  FuseOptions -> list string -> string -> list FuseResult.

Record FuseMatch : Type := {
  index : Z;
  relevance : Z
}.

(** The class [[\{\}\[\]()\.,+\-]]. *)
Definition isPunctuation (c : ascii) : bool :=
  existsb (Ascii.eqb c)
    ["{"; "}"; "["; "]"; "("; ")"; "."; ","; "+"; "-"]%char.

(** The class [[\s/|\\]]. *)
Definition isSeparator (c : ascii) : bool :=
  Js.isSpace c || existsb (Ascii.eqb c) ["/"; "|"; "\"]%char.

(** [str.replace(/[\{\}\[\]()\.,+\-]/g, "")]. *)
Fixpoint removePunctuation (str : string) : string :=
  match str with
  | String c str' =>
      if isPunctuation c then removePunctuation str'
      else String c (removePunctuation str')
  | EmptyString => EmptyString
  end.

(** [str.replace(/[\s/|\\]+/g, " ")]: [inRun] tells that the previous
    character was a separator, already replaced. *)
Fixpoint collapseSeparators (inRun : bool) (str : string) : string :=
  match str with
  | String c str' =>
      if isSeparator c
      then (if inRun then collapseSeparators true str'
            else String " " (collapseSeparators true str'))
      else String c (collapseSeparators false str')
  | EmptyString => EmptyString
  end.

Definition normalize (str : string) : string :=
  collapseSeparators false (removePunctuation str).

(** Vocabulary for the result of [normalize]: in [str] every separator is
    a space and no separator follows another one ([inRun] tells that the
    character before [str] was a separator). *)
Fixpoint separatorsCollapsed (inRun : bool) (str : string) : bool :=
  match str with
  | String c str' =>
      if isSeparator c
      then negb inRun && Ascii.eqb c " " && separatorsCollapsed true str'
      else separatorsCollapsed false str'
  | EmptyString => true
  end.

(** [a >= b] on numbers. *)
Definition geb (a b : float) : bool := PrimFloat.leb b a.

Definition assessRelevance (results : list FuseResult) (thresholds : Thresholds)
  : result Z :=
  match results with
  | [] => Throw "TypeError: Cannot read properties of undefined (reading 'score')"
  | first :: rest =>
      if geb (score first) (firstScore thresholds) then Ok 0
      else if geb (score first) (firstScoreWarning thresholds) then Ok 1
      else
        match rest with
        | second :: _ =>
            if PrimFloat.ltb (PrimFloat.sub (score second) (score first))
                 (difference thresholds)
            then Ok 2 else Ok 3
        | [] => Ok 3
        end
  end.

(** [result[0].refIndex]. *)
Definition firstRefIndex (results : list FuseResult) : result Z :=
  match results with
  | first :: _ => Ok (refIndex first)
  | [] => Throw "TypeError: Cannot read properties of undefined (reading 'refIndex')"
  end.

Section WithFuse.
Variable Fuse : FuseEngine.

(** The query of the search by name and brand. *)
Definition brandQuery (name brand : string) : string :=
  " '" ++ Js.replaceFirstSpace name " '" ++ " '" ++ Js.replaceAllSpaces brand " '".

(** The message [`Fuse.js cannot find ${basicInfo.name}`]. *)
Definition cannotFind (basicInfo : BasicInfo) : Error :=
  "Fuse.js cannot find " ++ name basicInfo.

(** [fuseSearchProduct] reads and writes the object that the constant
    [FUSE_DEFAULT_OPTIONS] refers to ([options] is an alias of it): the
    function takes its contents and returns them as the call leaves
    them. *)
Definition fuseSearchProduct (basicInfo : BasicInfo) (productNames : list string)
    (fuseOptionsBrand fuseOptionsBrandless : Thresholds)
    (options : FuseOptions) : result FuseMatch * FuseOptions :=
  let name := normalize (name basicInfo) in
  let names := map normalize productNames in
  let fuse := Fuse options names in
  (* if (basicInfo.brand) { ... }; when the branch is not taken [result]
     is the empty array and [query] and [thresholds], still undefined,
     are assigned by the next [if] before they are read. *)
  let '(query, result, thresholds) :=
    match brand basicInfo with
    | Some b =>
        if Js.truthy_string b then
          let brand := normalize b in
          let query := brandQuery name brand in
          (query, fuse query, fuseOptionsBrand)
        else ("undefined", [], fuseOptionsBrand)
    | None => ("undefined", [], fuseOptionsBrand)
    end in
  (* if (result.length === 0) { ... } *)
  let searched :=
    if (List.length result =? 0)%nat then
      let query := name in
      let result := fuse query in
      if (List.length result =? 0)%nat
      then Throw (cannotFind basicInfo)
      else Ok (query, result, fuseOptionsBrandless)
    else Ok (query, result, thresholds) in
  match searched with
  | Throw e => (Throw e, options)
  | Ok (query, result, thresholds) =>
      match assessRelevance result thresholds with
      | Throw e => (Throw e, options)
      | Ok relevance =>
          if relevance =? 2 then
            let options := set_fieldNormWeight options 0.5%float in
            let fuse := Fuse options names in
            let result := fuse query in
            (index <~ firstRefIndex result ;;
             Ok {| index := index; relevance := relevance |},
             options)
          else
            (index <~ firstRefIndex result ;;
             Ok {| index := index; relevance := relevance |},
             options)
      end
  end.

End WithFuse.

End FuseProduct.

(** ** [lib/search.js] *)
Module Search.

Section WithThis.
Variable URL : UrlApi.
Variable web : Web.
Variable numberToString : float -> string.
Variable Fuse : FuseProduct.FuseEngine.
Variable this : ProductScraper.

Definition hasSearchResult (query : string) : Async bool :=
  dom <- Constructor.fetchCheerioAPI web
           (Js.indexForConcat (search (paginations this)) 0 ++ query) ;;
  let selector :=
    Js.or_string (names (productListSelectors this))
      (Js.or_string (links (productListSelectors this))
         (Js.or_string (images (productListSelectors this))
            (descriptions (productListSelectors this)))) in
  ret (negb (List.length (dom selector) =? 0)%nat).

(** The [while (right - left > 1)] loop of
    [getOptimalForSearchSubstring]; one unit of fuel is one execution of
    its body. *)
Fixpoint narrowLoop (fuel : nat) (query : string) (left right : Z)
    {struct fuel} : Async string :=
  if 1 <? right - left then
    match fuel with
    | O => diverge
    | S fuel' =>
        let middle := (left + right) / 2 in
        let substr := Js.substring0 query (middle + 1) in
        hasResult <- hasSearchResult substr ;;
        if hasResult then narrowLoop fuel' query middle right
        else narrowLoop fuel' query left middle
    end
  else ret (Js.substring0 query (left + 1)).

(** The loop body runs fewer than [query.length] times (lemma
    [narrowLoop_terminates]), so that much fuel lets the loop run to its
    end. *)
Definition getOptimalForSearchSubstring (query : string) : Async string :=
  hasResult <- hasSearchResult query ;;
  if hasResult then ret query
  else
    let left := 1 in
    let right := Js.length query in
    narrowLoop (String.length query) query left right.

(** The probe for [query] settles with the answer [b], whatever the store
it starts from. *)
Definition searchYields (query : string) (b : bool) : Prop :=
  forall st, exists st', hasSearchResult query st = Some (Ok b, st').

(** The synchronous call of [fuseSearchProduct] on the shared options
    object. *)
Definition callFuseSearchProduct (basicInfo : BasicInfo)
    (productNames : list string) : Async FuseProduct.FuseMatch :=
  fun st =>
    let '(r, options) :=
      FuseProduct.fuseSearchProduct Fuse basicInfo productNames
        (fuseOptionsBrand this) (fuseOptionsBrandless this) (fuseDefaults st) in
    Some (r, {| fetched := fetched st; fuseDefaults := options |}).

(** [basicInfoList[index].url]. *)
Definition urlAt (basicInfoList : list ProductCardData) (index : Z)
  : result string :=
  match (if index <? 0 then None else nth_error basicInfoList (Z.to_nat index)) with
  | Some obj => Ok (card_url obj)
  | None => Throw "TypeError: Cannot read properties of undefined (reading 'url')"
  end.

(** What [searchProduct] does after [if (basicInfo.url) return basicInfo.url];
    [fuel] bounds the iterations of the pagination loop, which has no
    last page here. *)
Definition searchByName (fuel : nat) (basicInfo : BasicInfo) : Async string :=
  nameSubstr <- getOptimalForSearchSubstring (name basicInfo) ;;
  let url := Js.indexForConcat (search (paginations this)) 0 ++ nameSubstr
             ++ Js.indexForConcat (search (paginations this)) 1 in
  basicInfoList <-
    Constructor.iterateOverPagination web numberToString fuel
      {| Constructor.url := url; Constructor.first := None;
         Constructor.last := None |}
      (fun dom => Extract.extractProductsBasicInfoFromList URL this dom) ;;
  if (List.length basicInfoList =? 0)%nat
  then throw "Search engine on the website does not work"
  else
    let productNames := map card_name basicInfoList in
    found <- callFuseSearchProduct basicInfo productNames ;;
    if FuseProduct.relevance found =? 0
    then throw "No products close enough were found"
    else liftResult (urlAt basicInfoList (FuseProduct.index found)).

Definition searchProduct (fuel : nat) (basicInfo : BasicInfo) : Async string :=
  match url basicInfo with
  | Some u => if Js.truthy_string u then ret u else searchByName fuel basicInfo
  | None => searchByName fuel basicInfo
  end.

Variable productPageOptions : ProductPageOptions.

(** The object literal [{ imageUrls: ..., description: ... }]: the images
    are extracted first. *)
Definition cardContent (dom : CheerioAPI) : result ProductCardContent :=
  imageUrls <~ Extract.extractProductImageUrls URL this dom ;;
  description <~ Extract.extractProductDescription this productPageOptions dom ;;
  Ok {| content_imageUrls := imageUrls; content_description := description |}.

Definition searchProductCardData (fuel : nat) (basicInfo : BasicInfo)
  : Async ProductCardContent :=
  productPageUrl <- searchProduct fuel basicInfo ;;
  dom <- Constructor.fetchCheerioAPI web productPageUrl ;;
  liftResult (cardContent dom).

End WithThis.

End Search.

(** * Sample sites and inputs

    Concrete configurations, sites and engines on which the properties
    below are exercised. *)
Module Samples.

Definition thresholds019 : Thresholds :=
  {| firstScore := 0.19%float; firstScoreWarning := 0.11%float;
     difference := 0.03%float |}.

(** A shop whose search page lists products under the selector [.name]. *)
Definition shop : ProductScraper := {|
  baseUrl := "";
  brands := [];
  productPageSelectors :=
    {| pps_id := ""; pps_name := ""; pps_images := ""; pps_description := "" |};
  productListSelectors :=
    {| names := ".name"; links := ".name"; images := ""; descriptions := ".desc" |};
  placeholders := {| image := ""; description := "" |};
  paginations := {| catalog := ["/c/"; "?p="]; search := ["/s/"; "?p="] |};
  fuseOptionsBrand := thresholds019;
  fuseOptionsBrandless := thresholds019
|}.

Definition card (n : string) : Element :=
  {| text := n; attribs := [("href", "/p/" ++ n)] |}.

(** A [URL] class that accepts nothing; [shop] has no base URL and never
    calls it. *)
Definition noUrl : UrlApi :=
  {| origin := fun _ => None; resolve := fun _ _ => None |}.

(** A search engine that answers only queries of at least [least]
    characters: the page at [/s/<query>] lists one product then, and none
    otherwise. *)
Definition longQuerySite (least : nat) : Web :=
  fun url =>
    Some (fun selector =>
            if String.eqb selector ".name" && (3 + least <=? String.length url)%nat
            then [card "p"] else []).

(** A search engine that answers only queries of at most [most]
    characters. *)
Definition shortQuerySite (most : nat) : Web :=
  fun url =>
    Some (fun selector =>
            if String.eqb selector ".name" && (String.length url <=? 3 + most)%nat
            then [card "p"] else []).

(** A list page with one card per name, each with its description. *)
Definition listPage (cards : list (string * string)) : CheerioAPI :=
  fun selector =>
    if String.eqb selector ".name" then map (fun c => card (fst c)) cards
    else if String.eqb selector ".desc"
    then map (fun c => {| text := snd c; attribs := [] |}) cards
    else [].

(** A catalog of two pages; every other page has no product list. *)
Definition teaSite : Web :=
  fun url =>
    if String.eqb url "/c/tea?p=1"
    then Some (listPage [("Assam", "Malty"); ("Ceylon", "Brisk")])
    else if String.eqb url "/c/tea?p=2"
    then Some (listPage [("Darjeeling", "Floral")])
    else Some (listPage []).

(** A server that answers every page number with the same page. *)
Definition sameSite (cards : list (string * string)) : Web :=
  fun _ => Some (listPage cards).

(** [String(x)] for the numbers that occur as page numbers below: NaN,
    the infinities and the integers of absolute value below 2^53 are
    printed as JavaScript prints them. *)
Definition numberToString (x : float) : string :=
  match Prim2SF x with
  | S754_nan => "NaN"
  | S754_infinity false => "Infinity"
  | S754_infinity true => "-Infinity"
  | S754_zero _ => "0"
  | S754_finite negative m e =>
      let n := Z.shiftl (Z.pos m) e in
      Js.integerToString (if negative then - n else n)
  end.

Definition teaPagination (lastPage : option float) : Constructor.Pagination :=
  {| Constructor.url := "/c/tea?p="; Constructor.first := None;
     Constructor.last := lastPage |}.

(** The pagination of the tea catalog from a given first page. *)
Definition teaPaginationFrom (firstPage : float) (lastPage : option float) :
    Constructor.Pagination :=
  {| Constructor.url := "/c/tea?p="; Constructor.first := Some firstPage;
     Constructor.last := lastPage |}.

(** Past the end, this server sends its only page again; the first card of
    the page has no description. *)
Definition blankFirstSite : Web :=
  sameSite [("Plain", ""); ("Fancy", "Nice")].

(** A callback that keeps the cards with an image. *)
Definition cardsWithImage (dom : CheerioAPI) : result (list string) :=
  Filter.filterProductCardsFromPage noUrl shop dom
    (Extract.extractProductNamesFromList shop) (fun imgExist _ => imgExist).

(** A catalog whose first page is served and whose other pages cannot be
    fetched. *)
Definition brokenSite : Web :=
  fun url =>
    if String.eqb url "/c/tea?p=1"
    then Some (listPage [("Assam", "Malty"); ("Ceylon", "Brisk")])
    else None.

(** A [URL] class for absolute paths on [https://shop.example]: the origin
    of any base is that site, and a path [p] resolves to the origin followed
    by [p] when it starts with a slash; anything else is refused. *)
Definition pathUrl : UrlApi :=
  {| origin := fun _ => Some "https://shop.example";
     resolve := fun u base =>
                  if String.prefix "/" u then Some (base ++ u) else None |}.

(** A shop that sells three brands. *)
Definition brandShop : ProductScraper := {|
  baseUrl := "https://shop.example/catalog";
  brands := ["Tea"; "Green Tea"; "Oolong"];
  productPageSelectors :=
    {| pps_id := ""; pps_name := ""; pps_images := ""; pps_description := "" |};
  productListSelectors :=
    {| names := ".name"; links := ".name"; images := ""; descriptions := ".desc" |};
  placeholders := {| image := ""; description := "" |};
  paginations := {| catalog := ["/c/"; "?p="]; search := ["/s/"; "?p="] |};
  fuseOptionsBrand := thresholds019;
  fuseOptionsBrandless := thresholds019
|}.

(** A site that is down. *)
Definition deadSite : Web := fun _ => None.

(** An engine that finds nothing. *)
Definition noFuse : FuseProduct.FuseEngine := fun _ _ _ => [].

Definition scored (i : Z) (s : float) : FuseProduct.FuseResult :=
  {| FuseProduct.item := ""; FuseProduct.refIndex := i; FuseProduct.score := s |}.

(** An engine that has no hit for a query in extended-search syntax (the
    queries by name and brand start with [ ']) and two hits, far apart, for
    any other query. *)
Definition nameOnlyFuse : FuseProduct.FuseEngine :=
  fun _ _ query =>
    if String.prefix " '" query then []
    else [scored 0 0.05%float; scored 1 0.5%float].

(** An engine whose scores depend on [fieldNormWeight], as those of
    Fuse.js do through its field-length norm: with weight 0 the two
    candidates score the same; with another weight both scores are raised,
    that of the longer name, at index 0, more than that of the shorter. *)
Definition normFuse : FuseProduct.FuseEngine :=
  fun options _ _ =>
    if PrimFloat.eqb (fieldNormWeight options) 0%float
    then [scored 0 0.1%float; scored 1 0.1%float]
    else [scored 1 0.144%float; scored 0 0.174%float].

Definition foo : BasicInfo := {| name := "Foo"; brand := None; url := None |}.

(** A product name of twenty-seven words and one of two, both starting
    with the word the product [foo] is searched by. *)
Definition fooLong : string :=
  "Foo a b c d e f g h i j k l m n o p q r s t u v w x y z".

Definition fooNames : list string := [fooLong; "Foo Bar"].

(** The hits of Fuse.js for the query [Foo] over [fooNames], by its
    scoring rule: a name in which the pattern occurs scores 0.001 raised to
    the power of the field-length norm, which is
    [1 / words ^ (fieldNormWeight / 2)] rounded to three decimals; the hits
    come in the order of their scores, and of their indices when the scores
    are equal. With the weight 0 the norm is 1 and both names score 0.001.
    With the weight 0.5 the norms are 0.439 and 0.841 and the scores 0.0482
    and 0.003. The engine has no hit for any other collection, query or
    weight. *)
Definition fooFuse : FuseProduct.FuseEngine :=
  fun options names query =>
    match names with
    | [long; short] =>
        if String.eqb query "Foo" && String.eqb long fooLong
           && String.eqb short "Foo Bar"
        then
          if PrimFloat.eqb (fieldNormWeight options) 0%float
          then [ {| FuseProduct.item := long; FuseProduct.refIndex := 0;
                    FuseProduct.score := 0.001%float |};
                 {| FuseProduct.item := short; FuseProduct.refIndex := 1;
                    FuseProduct.score := 0.001%float |} ]
          else if PrimFloat.eqb (fieldNormWeight options) 0.5%float
          then [ {| FuseProduct.item := short; FuseProduct.refIndex := 1;
                    FuseProduct.score := 0.003%float |};
                 {| FuseProduct.item := long; FuseProduct.refIndex := 0;
                    FuseProduct.score := 0.0482%float |} ]
          else []
        else []
    | _ => []
    end.

Definition fooBar : BasicInfo :=
  {| name := "Foo"; brand := Some "Bar"; url := None |}.

(** The shop and the page of the example in [lib/filter.js]. *)
Definition exampleShop : ProductScraper := {|
  baseUrl := "";
  brands := [];
  productPageSelectors :=
    {| pps_id := ""; pps_name := ""; pps_images := ""; pps_description := "" |};
  productListSelectors :=
    {| names := ""; links := ".product-card a"; images := ".product-card img";
       descriptions := ".product-card p" |};
  placeholders :=
    {| image := "placeholder-image-url"; description := "Lorem ipsum..." |};
  paginations := {| catalog := [""; ""]; search := [""; ""] |};
  fuseOptionsBrand := thresholds019;
  fuseOptionsBrandless := thresholds019
|}.

Definition examplePage : CheerioAPI :=
  fun selector =>
    if String.eqb selector ".product-card a" then
      map (fun u => {| text := ""; attribs := [("href", u)] |})
        ["first-url"; "second-url"; "third-url"; "fourth-url"]
    else if String.eqb selector ".product-card img" then
      map (fun u => {| text := ""; attribs := [("src", u)] |})
        ["first-image-url"; "placeholder-image-url"; "third-image-url";
         "placeholder-image-url"]
    else if String.eqb selector ".product-card p" then
      map (fun d => {| text := d; attribs := [] |})
        ["This is the description of the first product.";
         "This is the description of the second product.";
         "Lorem ipsum..."; "Lorem ipsum..."]
    else [].

(** A page on which the selectors of [exampleShop] do not pair up: two
    links, one image and three descriptions. *)
Definition lopsidedPage : CheerioAPI :=
  fun selector =>
    if String.eqb selector ".product-card a" then
      map (fun u => {| text := ""; attribs := [("href", u)] |})
        ["first-url"; "second-url"]
    else if String.eqb selector ".product-card img" then
      [{| text := ""; attribs := [("src", "first-image-url")] |}]
    else if String.eqb selector ".product-card p" then
      map (fun d => {| text := d; attribs := [] |}) ["One"; "Two"; "Three"]
    else [].

(** The shop of the example without its image selector. *)
Definition exampleShopNoImages : ProductScraper := {|
  baseUrl := "";
  brands := [];
  productPageSelectors :=
    {| pps_id := ""; pps_name := ""; pps_images := ""; pps_description := "" |};
  productListSelectors :=
    {| names := ""; links := ".product-card a"; images := "";
       descriptions := ".product-card p" |};
  placeholders :=
    {| image := "placeholder-image-url"; description := "Lorem ipsum..." |};
  paginations := {| catalog := [""; ""]; search := [""; ""] |};
  fuseOptionsBrand := thresholds019;
  fuseOptionsBrandless := thresholds019
|}.

(** A site whose search for "Assam" has one page of results, with two
    products. *)
Definition assamSite : Web :=
  fun url =>
    if String.eqb url "/s/Assam" || String.eqb url "/s/Assam?p=1"
    then Some (listPage [("Assam", "Malty"); ("Assam Gold", "Rich")])
    else Some (listPage []).

Definition assam : BasicInfo :=
  {| name := "Assam"; brand := None; url := None |}.

(** A shop configured for product pages, and a product page with two
    images and a labelled description. *)
Definition pageShop : ProductScraper := {|
  baseUrl := "";
  brands := [];
  productPageSelectors :=
    {| pps_id := "#product-id"; pps_name := "h1"; pps_images := ".gallery img";
       pps_description := "#description" |};
  productListSelectors :=
    {| names := ".name"; links := ".name"; images := ""; descriptions := "" |};
  placeholders := {| image := ""; description := "" |};
  paginations := {| catalog := ["/c/"; "?p="]; search := ["/s/"; "?p="] |};
  fuseOptionsBrand := thresholds019;
  fuseOptionsBrandless := thresholds019
|}.

Definition labelled : ProductPageOptions :=
  {| idFormat := ""; idMatchIndex := 0; hasDescriptionLabel := true |}.

Definition unlabelled : ProductPageOptions :=
  {| idFormat := ""; idMatchIndex := 0; hasDescriptionLabel := false |}.

Definition productPage : CheerioAPI :=
  fun selector =>
    if String.eqb selector "#description" then
      [{| text := "Description: This is a description of the product.";
          attribs := [] |}]
    else if String.eqb selector ".gallery img" then
      [{| text := ""; attribs := [("src", "/img/1.png")] |};
       {| text := ""; attribs := [("src", "/img/2.png")] |}]
    else [].

Definition productSite : Web :=
  fun url => if String.eqb url "/p/Assam" then Some productPage else None.

Definition knownAssam : BasicInfo :=
  {| name := "Assam"; brand := None; url := Some "/p/Assam" |}.

(** A basic info whose [url] property is present and empty. *)
Definition emptyUrl : BasicInfo :=
  {| name := "X"; brand := None; url := Some "" |}.

End Samples.

(** * Properties *)

(** ** Comparison of binary64 numbers *)

Lemma SFcompare_swap (x y : spec_float) (c : comparison) :
  SFcompare x y = Some c -> SFcompare y x = Some (CompOpp c).
Proof.
  destruct x as [sx|sx| |sx mx ex], y as [sy|sy| |sy my ey]; simpl;
    try discriminate;
    try (intros E; injection E as <-; destruct sx; try destruct sy; reflexivity).
  intros E. injection E as <-. f_equal.
  change (PosDef.Pos.compare_cont Eq my mx) with (Pos.compare my mx).
  change (PosDef.Pos.compare_cont Eq mx my) with (Pos.compare mx my).
  rewrite (Z.compare_antisym ex ey), (Pos.compare_antisym mx my).
  destruct sx, sy, (ex ?= ey), (mx ?= my)%positive; reflexivity.
Qed.

(** [a < b] excludes [a >= b]. *)
Lemma ltb_not_geb (a b : float) :
  PrimFloat.ltb a b = true -> FuseProduct.geb a b = false.
Proof.
  unfold FuseProduct.geb. rewrite ltb_spec, leb_spec. unfold SFltb, SFleb.
  destruct (SFcompare (Prim2SF a) (Prim2SF b)) as [[]|] eqn:E; try discriminate.
  intros _. now rewrite (SFcompare_swap _ _ _ E).
Qed.

(** [a === b] gives [a >= b]. *)
Lemma eqb_geb (a b : float) :
  PrimFloat.eqb a b = true -> FuseProduct.geb a b = true.
Proof.
  unfold FuseProduct.geb. rewrite eqb_spec, leb_spec. unfold SFeqb, SFleb.
  destruct (SFcompare (Prim2SF a) (Prim2SF b)) as [[]|] eqn:E; try discriminate.
  intros _. now rewrite (SFcompare_swap _ _ _ E).
Qed.

(** ** Relevance classification *)

(** C6. For every non-empty result list and threshold triple: a top score
    greater than or equal to [firstScore] classifies as 0; in particular a
    top score equal to [firstScore] classifies as 0; and a top score below
    [firstScore] but greater than or equal to [firstScoreWarning]
    classifies as 1. *)
Theorem assessRelevance_threshold_boundary :
  forall (top : FuseProduct.FuseResult) (rest : list FuseProduct.FuseResult)
         (t : Thresholds),
    (FuseProduct.geb (FuseProduct.score top) (firstScore t) = true ->
     FuseProduct.assessRelevance (top :: rest) t = Ok 0)
    /\ (PrimFloat.eqb (FuseProduct.score top) (firstScore t) = true ->
        FuseProduct.assessRelevance (top :: rest) t = Ok 0)
    /\ (PrimFloat.ltb (FuseProduct.score top) (firstScore t) = true ->
        FuseProduct.geb (FuseProduct.score top) (firstScoreWarning t) = true ->
        FuseProduct.assessRelevance (top :: rest) t = Ok 1).
Proof.
  intros top rest t. unfold FuseProduct.assessRelevance.
  split; [|split].
  - intros ->. reflexivity.
  - intros E. now rewrite (eqb_geb _ _ E).
  - intros L W. now rewrite (ltb_not_geb _ _ L), W.
Qed.

Lemma assessRelevance_threshold_boundary_witness :
  FuseProduct.assessRelevance [Samples.scored 0 0.25%float] Samples.thresholds019 = Ok 0
  /\ FuseProduct.assessRelevance
       [Samples.scored 0 0.19%float; Samples.scored 1 0.5%float] Samples.thresholds019 = Ok 0
  /\ FuseProduct.assessRelevance [Samples.scored 0 0.11%float] Samples.thresholds019 = Ok 1.
Proof.
  split; [|split].
  - apply (proj1 (assessRelevance_threshold_boundary
                    (Samples.scored 0 0.25%float) [] Samples.thresholds019)).
    reflexivity.
  - apply (proj1 (proj2 (assessRelevance_threshold_boundary
                    (Samples.scored 0 0.19%float) [Samples.scored 1 0.5%float]
                    Samples.thresholds019))).
    reflexivity.
  - apply (proj2 (proj2 (assessRelevance_threshold_boundary
                    (Samples.scored 0 0.11%float) [] Samples.thresholds019)));
      reflexivity.
Defined.

(** ** Adaptive query narrowing *)

Section Narrowing.
Variable web : Web.
Variable this : ProductScraper.

(** A probe always settles: it is one fetch. *)
Lemma hasSearchResult_settles (query : string) (st : Store) :
  exists r st', Search.hasSearchResult web this query st = Some (r, st').
Proof.
  unfold Search.hasSearchResult, bind, Constructor.fetchCheerioAPI, ret.
  destruct (web _); eauto.
Qed.

(** The middle of an interval wider than one lies strictly inside it. *)
Lemma middle_inside (left right : Z) :
  1 < right - left ->
  left < (left + right) / 2 < right.
Proof.
  intros W.
  pose proof (Z.div_mod (left + right) 2 ltac:(lia)) as D.
  pose proof (Z.mod_pos_bound (left + right) 2 ltac:(lia)) as B.
  lia.
Qed.

(** Fuel equal to the width of the interval is enough for the loop to
    leave, whatever the probes answer. *)
Lemma narrowLoop_terminates (query : string) :
  forall (fuel : nat) (left right : Z) (st : Store),
    (Z.to_nat (right - left) <= fuel)%nat ->
    exists r st', Search.narrowLoop web this fuel query left right st = Some (r, st').
Proof.
  induction fuel as [|fuel IH]; intros left right st F; simpl.
  - destruct (1 <? right - left) eqn:W; [apply Z.ltb_lt in W; lia|].
    unfold ret. eauto.
  - destruct (1 <? right - left) eqn:W; [|unfold ret; eauto].
    apply Z.ltb_lt in W. pose proof (middle_inside left right W) as M.
    unfold bind.
    destruct (hasSearchResult_settles
                (Js.substring0 query ((left + right) / 2 + 1)) st)
      as [r [st' ->]].
    destruct r as [[|]|e]; [apply IH; lia | apply IH; lia | eauto].
Qed.

(** [getOptimalForSearchSubstring] always settles. *)
Lemma getOptimalForSearchSubstring_settles (query : string) (st : Store) :
  exists r st', Search.getOptimalForSearchSubstring web this query st = Some (r, st').
Proof.
  unfold Search.getOptimalForSearchSubstring, bind.
  destruct (hasSearchResult_settles query st) as [r [st' ->]].
  destruct r as [[|]|e]; [unfold ret; eauto | | eauto].
  apply narrowLoop_terminates. unfold Js.length. lia.
Qed.

(** The invariant of the loop when exactly the prefixes of length at most
    [L] have results: [left <= L - 1 < right]. *)
Lemma narrowLoop_cut (query : string) (L : Z) :
  (forall k, 2 <= k <= Js.length query ->
             Search.searchYields web this (Js.substring0 query k) (k <=? L)) ->
  forall (fuel : nat) (left right : Z) (st : Store),
    1 <= left -> left <= L - 1 < right -> right <= Js.length query ->
    (Z.to_nat (right - left) <= fuel)%nat ->
    exists st',
      Search.narrowLoop web this fuel query left right st
      = Some (Ok (Js.substring0 query L), st').
Proof.
  intros Y. induction fuel as [|fuel IH]; intros left right st L1 I R F; simpl.
  - destruct (1 <? right - left) eqn:W; [apply Z.ltb_lt in W; lia|].
    apply Z.ltb_ge in W. replace (left + 1) with L by lia. unfold ret. eauto.
  - destruct (1 <? right - left) eqn:W.
    + apply Z.ltb_lt in W. pose proof (middle_inside left right W) as M.
      unfold bind.
      destruct (Y ((left + right) / 2 + 1) ltac:(lia) st) as [st' ->].
      destruct ((left + right) / 2 + 1 <=? L) eqn:C.
      * apply Z.leb_le in C. apply IH; lia.
      * apply Z.leb_gt in C. apply IH; lia.
    + apply Z.ltb_ge in W. replace (left + 1) with L by lia. unfold ret. eauto.
Qed.

(** A full query that has results is returned as it is. *)
Lemma getOptimalForSearchSubstring_full_query (query : string) :
  Search.searchYields web this query true ->
  forall st, exists st',
    Search.getOptimalForSearchSubstring web this query st = Some (Ok query, st').
Proof.
  intros Full st.
  unfold Search.getOptimalForSearchSubstring, bind.
  destruct (Full st) as [st1 ->]. unfold ret. eauto.
Qed.

End Narrowing.

(** Enumeration of a small range of lengths. *)
Ltac each_length k :=
  match goal with
  | H : ?a <= k <= ?b |- _ =>
      let n := fresh "n" in
      let E := fresh "E" in
      assert (E : exists n : nat, (n <= Z.to_nat (b - a))%nat /\ k = a + Z.of_nat n)
        by (exists (Z.to_nat (k - a)); lia);
      destruct E as [n [E ->]]; clear H;
      repeat (destruct n as [|n]; [clear E | apply le_S_n in E || (exfalso; lia)]);
      try (exfalso; lia)
  end.

(** A probe on a concrete site: run it. *)
Ltac run_probe := intros ?st; eexists; cbv; reflexivity.

(** C2. If the full query has no results and exactly the prefixes of
    length at most [L] have some, for a cut length [2 <= L < query.length],
    then [getOptimalForSearchSubstring] returns the prefix of length [L];
    and a full query that has results is returned unchanged. *)
Theorem getOptimalForSearchSubstring_largest_working_prefix :
  forall (web : Web) (this : ProductScraper) (query : string),
    (forall L : Z,
        2 <= L < Js.length query ->
        Search.searchYields web this query false ->
        (forall k, 1 <= k <= Js.length query ->
                   Search.searchYields web this (Js.substring0 query k) (k <=? L)) ->
        forall st, exists st',
          Search.getOptimalForSearchSubstring web this query st
          = Some (Ok (Js.substring0 query L), st'))
    /\ (Search.searchYields web this query true ->
        forall st, exists st',
          Search.getOptimalForSearchSubstring web this query st
          = Some (Ok query, st')).
Proof.
  intros web this query. split.
  - intros L B Full Y st.
    unfold Search.getOptimalForSearchSubstring, bind.
    destruct (Full st) as [st1 ->].
    apply narrowLoop_cut; try lia.
    + intros k K. apply Y. lia.
    + unfold Js.length. lia.
  - apply getOptimalForSearchSubstring_full_query.
Qed.

Lemma getOptimalForSearchSubstring_largest_working_prefix_witness :
  (exists st',
      Search.getOptimalForSearchSubstring (Samples.shortQuerySite 3) Samples.shop
        "abcdef" initialStore = Some (Ok "abc", st'))
  /\ (exists st',
         Search.getOptimalForSearchSubstring (Samples.longQuerySite 4) Samples.shop
           "abcdef" initialStore = Some (Ok "abcdef", st')).
Proof.
  split.
  - apply (proj1 (getOptimalForSearchSubstring_largest_working_prefix
                    (Samples.shortQuerySite 3) Samples.shop "abcdef") 3).
    + unfold Js.length. simpl. lia.
    + run_probe.
    + unfold Js.length. simpl String.length. intros k K.
      each_length k; run_probe.
  - apply (proj2 (getOptimalForSearchSubstring_largest_working_prefix
                    (Samples.longQuerySite 4) Samples.shop "abcdef")).
    run_probe.
Defined.

(** C1, as the code has it. For the query "abcdef", when exactly the
    prefixes of length at least 4 have results, the full query is among
    them: it is probed first and returned unchanged. *)
Theorem getOptimalForSearchSubstring_abcdef_unchanged :
  forall (web : Web) (this : ProductScraper),
    (forall k, 0 <= k <= 6 ->
               Search.searchYields web this (Js.substring0 "abcdef" k) (4 <=? k)) ->
    forall st, exists st',
      Search.getOptimalForSearchSubstring web this "abcdef" st
      = Some (Ok "abcdef", st').
Proof.
  intros web this Y.
  apply getOptimalForSearchSubstring_full_query.
  exact (Y 6 ltac:(lia)).
Qed.

Lemma getOptimalForSearchSubstring_abcdef_unchanged_witness :
  exists st',
    Search.getOptimalForSearchSubstring (Samples.longQuerySite 4) Samples.shop
      "abcdef" initialStore = Some (Ok "abcdef", st').
Proof.
  apply (getOptimalForSearchSubstring_abcdef_unchanged
           (Samples.longQuerySite 4) Samples.shop).
  intros k K. each_length k; run_probe.
Defined.

(** C1, as stated, fails: on a site where exactly the prefixes of "abcdef"
    of length at least 4 have results, the result is not "abcd". *)
Lemma getOptimalForSearchSubstring_abcdef_not_abcd :
  (forall k, 0 <= k <= 6 ->
             Search.searchYields (Samples.longQuerySite 4) Samples.shop
               (Js.substring0 "abcdef" k) (4 <=? k))
  /\ ~ (exists st',
           Search.getOptimalForSearchSubstring (Samples.longQuerySite 4) Samples.shop
             "abcdef" initialStore = Some (Ok "abcd", st')).
Proof.
  split.
  - intros k K. each_length k; run_probe.
  - intros [st' E]. vm_compute in E. discriminate E.
Qed.

(** ** The pagination loop *)

Section PaginationRuns.
Variable web : Web.
Variable numberToString : float -> string.
Context {T : Type} `{JsValue T}.
Variable pagination : Constructor.Pagination.
Variable callback : CheerioAPI -> result (list T).

Let start : float := Constructor.startPage pagination.
Let pageUrl (pageNum : float) : string :=
  Constructor.url pagination ++ numberToString pageNum.
Let loop (fuel : nat) (pageNum : float) (acc : list T) : Async (list T) :=
  Constructor.paginationLoop web numberToString fuel
    (Constructor.url pagination) start (Constructor.last pagination)
    callback pageNum acc.

Lemma iterateOverPagination_loop (fuel : nat) :
  Constructor.iterateOverPagination web numberToString fuel pagination callback
  = loop fuel start [].
Proof. reflexivity. Qed.

(** Past the last page the loop returns the accumulator. *)
Lemma loop_exit (fuel : nat) (pageNum : float) (acc : list T) (st : Store) :
  Constructor.inRange (Constructor.last pagination) pageNum = false ->
  loop fuel pageNum acc st = Some (Ok acc, st).
Proof.
  intros R. unfold loop. destruct fuel; simpl; rewrite R; reflexivity.
Qed.

(** One execution of the body on a page that is served. *)
Lemma loop_step_served (fuel : nat) (pageNum : float) (acc data : list T)
    (st : Store) :
  Constructor.inRange (Constructor.last pagination) pageNum = true ->
  Constructor.served web numberToString pagination callback pageNum data ->
  loop (S fuel) pageNum acc st
  = if Constructor.pageReoccurs acc data
    then Some (Ok acc, Constructor.recordFetch st (pageUrl pageNum))
    else loop fuel (pageNum + 1)%float (acc ++ data)
           (Constructor.recordFetch st (pageUrl pageNum)).
Proof.
  intros R [dom [W C]]. unfold loop. simpl. rewrite R.
  unfold bind, Constructor.fetchCheerioAPI. rewrite W, C.
  destruct (Constructor.pageReoccurs acc data); reflexivity.
Qed.


(** A loop that has returned returns the same with more fuel. *)
Lemma loop_more_fuel :
  forall (fuel : nat) (pageNum : float) (acc : list T) (st : Store) r,
    loop fuel pageNum acc st = Some r ->
    forall k, loop (fuel + k) pageNum acc st = Some r.
Proof.
  induction fuel as [|fuel IH]; intros pageNum acc st r E k.
  - destruct (Constructor.inRange (Constructor.last pagination) pageNum) eqn:R.
    + unfold loop in E. simpl in E. rewrite R in E. discriminate.
    + rewrite loop_exit in E by exact R. rewrite loop_exit by exact R. exact E.
  - unfold loop in *. simpl in *.
    destruct (Constructor.inRange (Constructor.last pagination) pageNum); [|exact E].
    unfold bind in *.
    destruct (Constructor.fetchCheerioAPI web _ st) as [[[dom|e] st1]|]; auto.
    destruct (callback dom) as [data|e]; auto.
    destruct (Constructor.pageReoccurs acc data); auto.
Qed.

(** The page number the loop has reached is the first one incremented
    once for each appended page. *)
Lemma pageAfter_next (pageNum : float) (i : nat) :
  Constructor.pageAfter pageNum (S i)
  = (Constructor.pageAfter pageNum i + 1)%float.
Proof.
  revert pageNum. induction i as [|i IH]; intros pageNum; [reflexivity|].
  change (Constructor.pageAfter (pageNum + 1)%float (S i)
          = (Constructor.pageAfter (pageNum + 1)%float i + 1)%float).
  apply IH.
Qed.

Lemma Reaches_page (pageNum : float) (pages : list (list T)) :
  Constructor.Reaches web numberToString pagination callback pageNum pages ->
  pageNum = Constructor.pageAfter start (List.length pages).
Proof.
  induction 1 as [|p pages data _ IH _ _ _]; [reflexivity|].
  rewrite length_app, Nat.add_1_r, pageAfter_next, <- IH. reflexivity.
Qed.

(** A state that is reached is the state of the loop after as many
    executions of the body as pages were appended. *)
Lemma Reaches_run (pageNum : float) (pages : list (list T)) :
  Constructor.Reaches web numberToString pagination callback pageNum pages ->
  forall st, exists st',
    forall fuel,
      loop (List.length pages + fuel) start [] st
      = loop fuel pageNum (List.concat pages) st'.
Proof.
  induction 1 as [|p pages data _ IH R S D]; intros st.
  - exists st. reflexivity.
  - destruct (IH st) as [st1 E].
    exists (Constructor.recordFetch st1 (pageUrl p)). intros fuel.
    rewrite length_app, concat_app. simpl. rewrite app_nil_r.
    replace (List.length pages + 1 + fuel)%nat
      with (List.length pages + Datatypes.S fuel)%nat by lia.
    rewrite E, (loop_step_served _ _ _ data _ R S), D. reflexivity.
Qed.

(** The [if] that detects a page served again fires only when the first
    element of the page is deeply equal to an accumulated element. *)
Lemma pageReoccurs_true (acc data : list T) :
  Constructor.pageReoccurs acc data = true ->
  Constructor.firstIsAccumulated acc data.
Proof.
  unfold Constructor.pageReoccurs, Constructor.firstIsAccumulated.
  destruct (nth_error data 0) as [data0|]; [|discriminate].
  destruct (find _ acc) as [found|] eqn:F; [|discriminate].
  intros _. apply find_some in F. exists data0, found. tauto.
Qed.

(** It does fire when, besides, the accumulated elements are truthy. *)
Lemma pageReoccurs_truthy (acc data : list T) :
  (forall val, In val acc -> toBoolean val = true) ->
  Constructor.firstIsAccumulated acc data ->
  Constructor.pageReoccurs acc data = true.
Proof.
  intros Tr [data0 [val [N [I E]]]]. unfold Constructor.pageReoccurs.
  rewrite N.
  destruct (find (fun v => isEqual v data0) acc) as [found|] eqn:F.
  - apply find_some in F. apply Tr, F.
  - apply (find_none _ _ F) in I. simpl in I. congruence.
Qed.

End PaginationRuns.


(** A concrete page is served: exhibit its document. *)
Ltac served_here := eexists; split; reflexivity.



(** C4, where the code departs from it. The server sends the page
    [""; "Nice"] for page 1 and again for page 2. The first element of page
    2 is deeply equal to an accumulated element, yet the loop does not stop
    there: [find] returns the accumulated element, the empty string, which
    the [if] takes as false, and page 2 is appended. *)
Theorem iterateOverPagination_appends_reoccurring_page :
  let callback := Extract.extractProductDescriptionsFromList Samples.shop in
  Constructor.served Samples.blankFirstSite Samples.numberToString
    (Samples.teaPagination (Some 2%float))
    callback 1%float [""; "Nice"]
  /\ Constructor.served Samples.blankFirstSite Samples.numberToString
    (Samples.teaPagination (Some 2%float))
       callback 2%float [""; "Nice"]
  /\ Constructor.firstIsAccumulated [""; "Nice"] [""; "Nice"]
  /\ forall fuel, (2 <= fuel)%nat ->
       exists st',
         Constructor.iterateOverPagination Samples.blankFirstSite Samples.numberToString
           fuel
           (Samples.teaPagination (Some 2%float)) callback initialStore
         = Some (Ok [""; "Nice"; ""; "Nice"], st').
Proof.
  intros callback. repeat split.
  - served_here.
  - served_here.
  - exists "", "". repeat split. now left.
  - intros fuel F. destruct fuel as [|[|fuel]]; try lia.
    eexists. destruct fuel; reflexivity.
Qed.

(** Without a last page the same server keeps the loop running for
    ever. *)
Lemma iterateOverPagination_reoccurring_page_diverges :
  forall fuel st,
    Constructor.iterateOverPagination Samples.blankFirstSite Samples.numberToString fuel
      (Samples.teaPagination None)
      (Extract.extractProductDescriptionsFromList Samples.shop) st = None.
Proof.
  intros fuel.
  assert (G : forall acc : list string, (forall v, In v acc -> v = "" \/ v = "Nice") ->
            forall (p : float) st,
              Constructor.paginationLoop Samples.blankFirstSite Samples.numberToString
                fuel
                (Constructor.url (Samples.teaPagination None)) 1%float
                (Constructor.last (Samples.teaPagination None))
                (Extract.extractProductDescriptionsFromList Samples.shop) p acc st
              = None).
  { induction fuel as [|fuel IH]; intros acc A p st; [reflexivity|].
    rewrite (loop_step_served Samples.blankFirstSite Samples.numberToString
      (Samples.teaPagination None)
               _ fuel p acc [""; "Nice"] st eq_refl);
      [|served_here].
    assert (P : Constructor.pageReoccurs acc [""; "Nice"] = false).
    { unfold Constructor.pageReoccurs. simpl.
      destruct (find _ acc) as [found|] eqn:F; [|reflexivity].
      apply find_some in F. destruct F as [I E]. simpl in E.
      apply String.eqb_eq in E. subst found. reflexivity. }
    rewrite P. apply IH. intros v I. apply in_app_or in I.
    destruct I as [I|I]; [auto|]. simpl in I. intuition. }
  intros st. apply (G [] ltac:(intros v [])).
Qed.

(** When the accumulated elements are truthy, the loop does stop at a page
    whose first element is deeply equal to one of them, and returns the
    pages before it, whose lengths add up to the length of the result. *)
Lemma iterateOverPagination_stops_on_reoccurring_page :
  forall (web : Web) (numberToString : float -> string) (T : Type)
         (V : JsValue T)
         (pagination : Constructor.Pagination)
         (callback : CheerioAPI -> result (list T))
         (pageNum : float) (pages : list (list T)) (data : list T),
    Constructor.Reaches web numberToString pagination callback pageNum pages ->
    Constructor.inRange (Constructor.last pagination) pageNum = true ->
    Constructor.served web numberToString pagination callback pageNum data ->
    Constructor.firstIsAccumulated (List.concat pages) data ->
    (forall val, In val (List.concat pages) -> toBoolean val = true) ->
    List.length (List.concat pages) = list_sum (map (@List.length T) pages)
    /\ forall st, exists st',
         forall fuel, (List.length pages < fuel)%nat ->
           Constructor.iterateOverPagination web numberToString
             fuel pagination callback st
           = Some (Ok (List.concat pages), st').
Proof.
  intros web numberToString T V pagination callback pageNum pages data Re R S F Tr.
  split; [apply length_concat|]. intros st.
  destruct (Reaches_run web numberToString
    pagination callback pageNum pages Re st) as [st1 E].
  eexists. intros fuel L.
  replace fuel with (List.length pages + Datatypes.S (fuel - List.length pages - 1))%nat
    by lia.
  rewrite iterateOverPagination_loop, E.
  rewrite (loop_step_served web numberToString pagination callback _ _ _ data _ R S).
  rewrite (pageReoccurs_truthy _ _ Tr F). reflexivity.
Qed.

(** The objects [extractProductsBasicInfoFromList] builds are never
    falsy: on them the duplicate check fires. *)
Lemma pageReoccurs_cards (acc data : list ProductCardData) :
  Constructor.firstIsAccumulated acc data ->
  Constructor.pageReoccurs acc data = true.
Proof. apply pageReoccurs_truthy. reflexivity. Qed.

(** ** Termination of the unbounded loop *)

Section Unbounded.
Variable web : Web.
Variable numberToString : float -> string.
Context {T : Type} `{JsValue T}.
Variable pagination : Constructor.Pagination.
Variable callback : CheerioAPI -> result (list T).
Hypothesis no_last : Constructor.last pagination = None.

(** What ends the loop at the page it has reached: the fetch fails, the
    callback throws, or the first element of the page is deeply equal to
    an accumulated element. *)
Let stops (pageNum : float) (pages : list (list T)) : Prop :=
  Constructor.unreachable web numberToString pagination pageNum
  \/ (exists e, Constructor.extractorFails web numberToString
    pagination callback pageNum e)
  \/ (exists data,
         Constructor.served web numberToString pagination callback pageNum data
         /\ Constructor.firstIsAccumulated (List.concat pages) data).

Lemma paginationLoop_settles_cause :
  forall (fuel : nat) (pageNum : float) (pages : list (list T)) (st : Store) r,
    Constructor.Reaches web numberToString pagination callback pageNum pages ->
    Constructor.paginationLoop web numberToString fuel (Constructor.url pagination)
      (Constructor.startPage pagination) (Constructor.last pagination)
      callback pageNum (List.concat pages) st = Some r ->
    exists pageNum' pages',
      Constructor.Reaches web numberToString pagination callback pageNum' pages'
      /\ stops pageNum' pages'.
Proof.
  assert (R : forall p, Constructor.inRange (Constructor.last pagination) p = true)
    by (intros p; rewrite no_last; reflexivity).
  induction fuel as [|fuel IH]; intros pageNum pages st r Re; simpl;
    rewrite R; [discriminate|].
  unfold bind, Constructor.fetchCheerioAPI.
  destruct (web (Constructor.url pagination ++ numberToString pageNum))
    as [dom|] eqn:W.
  - destruct (callback dom) as [data|e] eqn:C.
    + destruct (Constructor.pageReoccurs (List.concat pages) data) eqn:D.
      * intros _. exists pageNum, pages. split; [exact Re|].
        right. right. exists data. split; [exists dom; auto|].
        now apply pageReoccurs_true.
      * intros E. eapply (IH (pageNum + 1)%float (pages ++ [data])%list).
        -- apply Constructor.Reaches_next; auto. exists dom. auto.
        -- rewrite concat_app. simpl. rewrite app_nil_r. exact E.
    + intros _. exists pageNum, pages. split; [exact Re|].
      right. left. exists e, dom. auto.
  - intros _. exists pageNum, pages. split; [exact Re|]. left. exact W.
Qed.

(** From a page on which, as on all later ones, the callback returns an
    empty array, the loop never leaves. *)
Lemma paginationLoop_empty_pages_diverge :
  forall (fuel : nat) (pageNum : float) (acc : list T) (st : Store),
    (forall i, Constructor.served web numberToString pagination callback
                 (Constructor.pageAfter pageNum i) []) ->
    Constructor.paginationLoop web numberToString fuel (Constructor.url pagination)
      (Constructor.startPage pagination) (Constructor.last pagination)
      callback pageNum acc st = None.
Proof.
  induction fuel as [|fuel IH]; intros pageNum acc st E.
  - simpl. rewrite no_last. reflexivity.
  - rewrite (loop_step_served web numberToString
    pagination callback fuel pageNum acc [] st).
    + unfold Constructor.pageReoccurs. simpl. rewrite app_nil_r.
      apply IH. intros i. apply (E (S i)).
    + rewrite no_last. reflexivity.
    + apply (E 0%nat).
Qed.

(** A state of the loop from which it never leaves keeps the whole
    iteration from returning. *)
Lemma Reaches_diverges (pageNum : float) (pages : list (list T)) :
  Constructor.Reaches web numberToString pagination callback pageNum pages ->
  (forall fuel st,
      Constructor.paginationLoop web numberToString fuel (Constructor.url pagination)
        (Constructor.startPage pagination) (Constructor.last pagination)
        callback pageNum (List.concat pages) st = None) ->
  forall fuel st,
    Constructor.iterateOverPagination web numberToString
      fuel pagination callback st = None.
Proof.
  intros Re D fuel st.
  destruct (Reaches_run web numberToString
    pagination callback pageNum pages Re st) as [st' E].
  destruct (Nat.le_gt_cases (List.length pages) fuel) as [L|L].
  - replace fuel with (List.length pages + (fuel - List.length pages))%nat by lia.
    rewrite iterateOverPagination_loop, E. apply D.
  - rewrite iterateOverPagination_loop.
    destruct (Constructor.paginationLoop web numberToString
      fuel (Constructor.url pagination)
                (Constructor.startPage pagination) (Constructor.last pagination)
                callback (Constructor.startPage pagination) [] st)
      as [r|] eqn:R; [|reflexivity].
    exfalso.
    pose proof (loop_more_fuel web numberToString
      pagination callback fuel _ _ _ _ R) as M.
    specialize (M (List.length pages - fuel)%nat).
    replace (fuel + (List.length pages - fuel))%nat
      with (List.length pages + 0)%nat in M by lia.
    rewrite (E 0%nat), D in M. discriminate.
Qed.

End Unbounded.

(** C10, as the code has it. When [pagination.last] is absent,
    [iterateOverPagination] settles only if, at some page the loop
    reaches, the fetch fails, or the callback throws, or the callback
    returns a result whose first element is deeply equal to an element
    already accumulated; and if from some page the loop reaches onward
    (that page number and the ones [pageNum++] makes of it) every page is
    fetched and the callback returns an empty array on it, the loop never
    terminates. *)
Theorem iterateOverPagination_unbounded_termination :
  forall (web : Web) (numberToString : float -> string) (T : Type)
         (V : JsValue T)
         (pagination : Constructor.Pagination)
         (callback : CheerioAPI -> result (list T)),
    Constructor.last pagination = None ->
    (forall fuel st r,
        Constructor.iterateOverPagination web numberToString
          fuel pagination callback st = Some r ->
        exists pageNum pages,
          Constructor.Reaches web numberToString pagination callback pageNum pages
          /\ (Constructor.unreachable web numberToString pagination pageNum
              \/ (exists e,
                     Constructor.extractorFails web numberToString
                       pagination callback pageNum e)
              \/ (exists data,
                     Constructor.served web numberToString
                       pagination callback pageNum data
                     /\ Constructor.firstIsAccumulated (List.concat pages) data)))
    /\ (forall pageNum pages,
           Constructor.Reaches web numberToString pagination callback pageNum pages ->
           (forall i,
               Constructor.served web numberToString pagination callback
                 (Constructor.pageAfter pageNum i) []) ->
           forall fuel st,
             Constructor.iterateOverPagination web numberToString
               fuel pagination callback st = None).
Proof.
  intros web numberToString T V pagination callback NL. split.
  - intros fuel st r E.
    apply (paginationLoop_settles_cause web numberToString pagination callback NL fuel
             (Constructor.startPage pagination) [] st r).
    + apply Constructor.Reaches_start.
    + exact E.
  - intros pageNum pages Re E.
    apply (Reaches_diverges web numberToString pagination callback pageNum pages Re).
    intros fuel st.
    now apply paginationLoop_empty_pages_diverge.
Qed.

Lemma iterateOverPagination_unbounded_termination_witness :
  (exists pageNum pages,
      Constructor.Reaches Samples.deadSite Samples.numberToString
        (Samples.teaPagination None)
        (Extract.extractProductNamesFromList Samples.shop) pageNum pages
      /\ (Constructor.unreachable Samples.deadSite Samples.numberToString
        (Samples.teaPagination None) pageNum
          \/ (exists e,
                 Constructor.extractorFails Samples.deadSite Samples.numberToString
                   (Samples.teaPagination None)
                   (Extract.extractProductNamesFromList Samples.shop) pageNum e)
          \/ (exists data,
                 Constructor.served Samples.deadSite Samples.numberToString
                   (Samples.teaPagination None)
                   (Extract.extractProductNamesFromList Samples.shop) pageNum data
                 /\ Constructor.firstIsAccumulated (List.concat pages) data)))
  /\ (forall fuel st,
         Constructor.iterateOverPagination
           (Samples.sameSite [("Assam", "Malty")]) Samples.numberToString
           fuel (Samples.teaPagination None) Samples.cardsWithImage st = None).
Proof.
  split.
  - apply (proj1 (iterateOverPagination_unbounded_termination Samples.deadSite
                    Samples.numberToString _ _
                    (Samples.teaPagination None)
                    (Extract.extractProductNamesFromList Samples.shop) eq_refl)
             1%nat initialStore
             (Throw "/c/tea?p=1 is not a valid URL or is currently unavailable",
              Constructor.recordFetch initialStore "/c/tea?p=1")).
    reflexivity.
  - apply (proj2 (iterateOverPagination_unbounded_termination
                    (Samples.sameSite [("Assam", "Malty")])
                    Samples.numberToString _ _
                    (Samples.teaPagination None) Samples.cardsWithImage eq_refl)
             1%float []).
    + apply Constructor.Reaches_start.
    + intros i. served_here.
Defined.

(** C10, as stated, fails: on a site that is down the iteration settles
    (it rejects, on the first fetch) although no callback throws and no
    page is served at all. *)
Lemma iterateOverPagination_settles_on_failed_fetch :
  (exists e st',
      Constructor.iterateOverPagination Samples.deadSite Samples.numberToString 1
        (Samples.teaPagination None)
        (Extract.extractProductNamesFromList Samples.shop) initialStore
      = Some (Throw e, st'))
  /\ (forall pageNum e,
         ~ Constructor.extractorFails Samples.deadSite Samples.numberToString
           (Samples.teaPagination None)
             (Extract.extractProductNamesFromList Samples.shop) pageNum e)
  /\ (forall pageNum data,
         ~ Constructor.served Samples.deadSite Samples.numberToString
           (Samples.teaPagination None)
             (Extract.extractProductNamesFromList Samples.shop) pageNum data).
Proof.
  split; [|split].
  - do 2 eexists. reflexivity.
  - intros pageNum e [dom [W _]]. discriminate W.
  - intros pageNum data [dom [W _]]. discriminate W.
Qed.

(** ** Fuzzy matching *)

Section Fuzzy.
Variable Fuse : FuseProduct.FuseEngine.
Variables fuseOptionsBrand fuseOptionsBrandless : Thresholds.

(** On a non-empty result list the classification is one of 0, 1, 2, 3. *)
Lemma assessRelevance_defined (top : FuseProduct.FuseResult)
    (rest : list FuseProduct.FuseResult) (t : Thresholds) :
  exists r, FuseProduct.assessRelevance (top :: rest) t = Ok r /\ 0 <= r <= 3.
Proof.
  unfold FuseProduct.assessRelevance.
  destruct (FuseProduct.geb _ (firstScore t)); [exists 0; split; [auto|lia]|].
  destruct (FuseProduct.geb _ (firstScoreWarning t)); [exists 1; split; [auto|lia]|].
  destruct rest as [|second rest]; [exists 3; split; [auto|lia]|].
  destruct (PrimFloat.ltb _ _); [exists 2|exists 3]; split; auto; lia.
Qed.

(** What [fuseSearchProduct] does once the search by name alone has been
    made and has hits. *)
Lemma fuseSearchProduct_by_name (basicInfo : BasicInfo) (productNames : list string)
    (options : FuseOptions) (top : FuseProduct.FuseResult)
    (rest : list FuseProduct.FuseResult) :
  let name := FuseProduct.normalize (name basicInfo) in
  let names := map FuseProduct.normalize productNames in
  (truthy_property (brand basicInfo) = false
   \/ exists b, brand basicInfo = Some b
                /\ Fuse options names
                     (FuseProduct.brandQuery name (FuseProduct.normalize b)) = []) ->
  Fuse options names name = top :: rest ->
  exists r,
    FuseProduct.assessRelevance (top :: rest) fuseOptionsBrandless = Ok r
    /\ FuseProduct.fuseSearchProduct Fuse basicInfo productNames
         fuseOptionsBrand fuseOptionsBrandless options
       = if r =? 2
         then (index <~ FuseProduct.firstRefIndex
                          (Fuse (set_fieldNormWeight options 0.5%float) names name) ;;
               Ok {| FuseProduct.index := index; FuseProduct.relevance := 2 |},
               set_fieldNormWeight options 0.5%float)
         else (Ok {| FuseProduct.index := FuseProduct.refIndex top;
                     FuseProduct.relevance := r |}, options).
Proof.
  intros name names B N.
  destruct (assessRelevance_defined top rest fuseOptionsBrandless) as [r [A _]].
  exists r. split; [exact A|].
  unfold FuseProduct.fuseSearchProduct. fold name names.
  assert (S : (let '(query, result, thresholds) :=
                 match brand basicInfo with
                 | Some b =>
                     if Js.truthy_string b
                     then (FuseProduct.brandQuery name (FuseProduct.normalize b),
                           Fuse options names
                             (FuseProduct.brandQuery name (FuseProduct.normalize b)),
                           fuseOptionsBrand)
                     else ("undefined", [], fuseOptionsBrand)
                 | None => ("undefined", [], fuseOptionsBrand)
                 end in List.length result) = 0%nat).
  { destruct B as [B | [b [-> B]]].
    - unfold truthy_property in B. destruct (brand basicInfo) as [b|]; [|reflexivity].
      rewrite B. reflexivity.
    - destruct (Js.truthy_string b); [rewrite B|]; reflexivity. }
  destruct (match brand basicInfo with Some _ => _ | None => _ end)
    as [[query result] thresholds].
  rewrite S, N. simpl List.length. cbv beta iota. simpl Nat.eqb. cbv iota.
  rewrite A. destruct (r =? 2) eqn:R2; [|reflexivity].
  apply Z.eqb_eq in R2. subst r. reflexivity.
Qed.

End Fuzzy.

(** C7. For every basicInfo and candidate list: if [basicInfo.brand] is
    absent (or empty), or the search by name and brand has no hit, the
    search is made by the normalized name alone; without a hit there,
    [fuseSearchProduct] throws; with hits, they are classified against the
    brandless thresholds (and a re-ranking after relevance 2 uses the same
    query). *)
Theorem fuseSearchProduct_brandless_fallback :
  forall (Fuse : FuseProduct.FuseEngine) (basicInfo : BasicInfo)
         (productNames : list string)
         (fuseOptionsBrand fuseOptionsBrandless : Thresholds)
         (options : FuseOptions),
    let name := FuseProduct.normalize (name basicInfo) in
    let names := map FuseProduct.normalize productNames in
    (truthy_property (brand basicInfo) = false
     \/ exists b, brand basicInfo = Some b
                  /\ Fuse options names
                       (FuseProduct.brandQuery name (FuseProduct.normalize b)) = []) ->
    (Fuse options names name = [] ->
     FuseProduct.fuseSearchProduct Fuse basicInfo productNames
       fuseOptionsBrand fuseOptionsBrandless options
     = (Throw (FuseProduct.cannotFind basicInfo), options))
    /\ (forall top rest,
           Fuse options names name = top :: rest ->
           exists r,
             FuseProduct.assessRelevance (top :: rest) fuseOptionsBrandless = Ok r
             /\ FuseProduct.fuseSearchProduct Fuse basicInfo productNames
                  fuseOptionsBrand fuseOptionsBrandless options
                = if r =? 2
                  then (index <~ FuseProduct.firstRefIndex
                                   (Fuse (set_fieldNormWeight options 0.5%float)
                                      names name) ;;
                        Ok {| FuseProduct.index := index;
                              FuseProduct.relevance := 2 |},
                        set_fieldNormWeight options 0.5%float)
                  else (Ok {| FuseProduct.index := FuseProduct.refIndex top;
                              FuseProduct.relevance := r |}, options)).
Proof.
  intros Fuse basicInfo productNames tB tBl options name names B. split.
  - intros N. unfold FuseProduct.fuseSearchProduct. fold name names.
    destruct B as [B | [b [Eb B]]].
    + unfold truthy_property in B. destruct (brand basicInfo) as [b|].
      * rewrite B. simpl. rewrite N. reflexivity.
      * simpl. rewrite N. reflexivity.
    + rewrite Eb. destruct (Js.truthy_string b).
      * rewrite B. simpl. rewrite N. reflexivity.
      * simpl. rewrite N. reflexivity.
  - intros top rest N. now apply fuseSearchProduct_by_name.
Qed.

Lemma fuseSearchProduct_brandless_fallback_witness :
  FuseProduct.fuseSearchProduct Samples.noFuse Samples.foo ["Foo Bar"; "Foo Baz"]
    Samples.thresholds019 Samples.thresholds019 FUSE_DEFAULT_OPTIONS
  = (Throw "Fuse.js cannot find Foo", FUSE_DEFAULT_OPTIONS)
  /\ exists r,
       FuseProduct.assessRelevance
         [Samples.scored 0 0.05%float; Samples.scored 1 0.5%float]
         Samples.thresholds019 = Ok r
       /\ FuseProduct.fuseSearchProduct Samples.nameOnlyFuse Samples.fooBar
            ["Foo Bar"; "Foo Baz"] Samples.thresholds019 Samples.thresholds019
            FUSE_DEFAULT_OPTIONS
          = if r =? 2
            then (index <~ FuseProduct.firstRefIndex
                             (Samples.nameOnlyFuse
                                (set_fieldNormWeight FUSE_DEFAULT_OPTIONS 0.5%float)
                                ["Foo Bar"; "Foo Baz"] "Foo") ;;
                  Ok {| FuseProduct.index := index; FuseProduct.relevance := 2 |},
                  set_fieldNormWeight FUSE_DEFAULT_OPTIONS 0.5%float)
            else (Ok {| FuseProduct.index := 0; FuseProduct.relevance := r |},
                  FUSE_DEFAULT_OPTIONS).
Proof.
  split.
  - apply (proj1 (fuseSearchProduct_brandless_fallback Samples.noFuse Samples.foo
                    ["Foo Bar"; "Foo Baz"] Samples.thresholds019
                    Samples.thresholds019 FUSE_DEFAULT_OPTIONS (or_introl eq_refl))).
    reflexivity.
  - apply (proj2 (fuseSearchProduct_brandless_fallback Samples.nameOnlyFuse
                    Samples.fooBar ["Foo Bar"; "Foo Baz"] Samples.thresholds019
                    Samples.thresholds019 FUSE_DEFAULT_OPTIONS
                    (or_intror (ex_intro _ "Bar" (conj eq_refl eq_refl))))
             (Samples.scored 0 0.05%float) [Samples.scored 1 0.5%float]).
    reflexivity.
Defined.

(** The options a call leaves differ from those it found exactly by the
    assignment made on the re-ranking path. *)
Lemma fuseSearchProduct_options (Fuse : FuseProduct.FuseEngine)
    (basicInfo : BasicInfo) (productNames : list string)
    (fuseOptionsBrand fuseOptionsBrandless : Thresholds) (options : FuseOptions) :
  snd (FuseProduct.fuseSearchProduct Fuse basicInfo productNames
         fuseOptionsBrand fuseOptionsBrandless options) = options
  \/ snd (FuseProduct.fuseSearchProduct Fuse basicInfo productNames
            fuseOptionsBrand fuseOptionsBrandless options)
     = set_fieldNormWeight options 0.5%float.
Proof.
  unfold FuseProduct.fuseSearchProduct.
  destruct (match brand basicInfo with Some _ => _ | None => _ end)
    as [[query result] thresholds].
  destruct (List.length result =? 0)%nat.
  - destruct (List.length _ =? 0)%nat; [left; reflexivity|].
    destruct (FuseProduct.assessRelevance _ _) as [r|e]; [|left; reflexivity].
    destruct (r =? 2); [right|left]; reflexivity.
  - destruct (FuseProduct.assessRelevance _ _) as [r|e]; [|left; reflexivity].
    destruct (r =? 2); [right|left]; reflexivity.
Qed.

(** C5, where the code departs from it. Two calls with the same
    arguments, whatever the search engine: when the search by name has hits
    that classify as relevance 2, the first call assigns
    [fieldNormWeight = 0.5] on the shared options object, searches again
    and returns the top hit of that search with relevance 2; the second
    call starts from the object as the first left it, so its first search
    is already the one under the weight 0.5, and when those hits do not
    classify as relevance 2 it returns another relevance than the first
    call did. *)
Theorem fuseSearchProduct_depends_on_earlier_call :
  forall (Fuse : FuseProduct.FuseEngine) (basicInfo : BasicInfo)
         (productNames : list string)
         (fuseOptionsBrand fuseOptionsBrandless : Thresholds)
         (options : FuseOptions)
         (top : FuseProduct.FuseResult) (rest : list FuseProduct.FuseResult)
         (top' : FuseProduct.FuseResult) (rest' : list FuseProduct.FuseResult)
         (relevance' : Z),
    let name := FuseProduct.normalize (name basicInfo) in
    let names := map FuseProduct.normalize productNames in
    let call :=
      FuseProduct.fuseSearchProduct Fuse basicInfo productNames
        fuseOptionsBrand fuseOptionsBrandless in
    truthy_property (brand basicInfo) = false ->
    Fuse options names name = top :: rest ->
    FuseProduct.assessRelevance (top :: rest) fuseOptionsBrandless = Ok 2 ->
    Fuse (set_fieldNormWeight options 0.5%float) names name = top' :: rest' ->
    FuseProduct.assessRelevance (top' :: rest') fuseOptionsBrandless
    = Ok relevance' ->
    relevance' <> 2 ->
    fst (call options)
    = Ok {| FuseProduct.index := FuseProduct.refIndex top';
            FuseProduct.relevance := 2 |}
    /\ snd (call options) = set_fieldNormWeight options 0.5%float
    /\ fst (call (snd (call options)))
       = Ok {| FuseProduct.index := FuseProduct.refIndex top';
               FuseProduct.relevance := relevance' |}
    /\ fst (call options) <> fst (call (snd (call options))).
Proof.
  intros Fuse basicInfo productNames fuseOptionsBrand fuseOptionsBrandless
         options top rest top' rest' relevance' name names call B N A N' A' D.
  assert (First : call options
                  = (Ok {| FuseProduct.index := FuseProduct.refIndex top';
                           FuseProduct.relevance := 2 |},
                     set_fieldNormWeight options 0.5%float)).
  { destruct (fuseSearchProduct_by_name Fuse fuseOptionsBrand fuseOptionsBrandless
                basicInfo productNames options top rest (or_introl B) N)
      as [r [Ar E]].
    rewrite A in Ar. injection Ar as <-.
    unfold call. rewrite E. simpl. fold name names. rewrite N'. reflexivity. }
  assert (Second : call (set_fieldNormWeight options 0.5%float)
                   = (Ok {| FuseProduct.index := FuseProduct.refIndex top';
                            FuseProduct.relevance := relevance' |},
                      set_fieldNormWeight options 0.5%float)).
  { destruct (fuseSearchProduct_by_name Fuse fuseOptionsBrand fuseOptionsBrandless
                basicInfo productNames (set_fieldNormWeight options 0.5%float)
                top' rest' (or_introl B) N')
      as [r [Ar E]].
    rewrite A' in Ar. injection Ar as <-.
    unfold call. rewrite E.
    destruct (relevance' =? 2) eqn:R2; [|reflexivity].
    apply Z.eqb_eq in R2. contradiction. }
  rewrite First. simpl. rewrite Second. simpl.
  repeat split. intros E. injection E as E. auto.
Qed.

Lemma fuseSearchProduct_depends_on_earlier_call_witness :
  let call :=
    FuseProduct.fuseSearchProduct Samples.fooFuse Samples.foo Samples.fooNames
      Samples.thresholds019 Samples.thresholds019 in
  fst (call FUSE_DEFAULT_OPTIONS)
  = Ok {| FuseProduct.index := 1; FuseProduct.relevance := 2 |}
  /\ snd (call FUSE_DEFAULT_OPTIONS)
     = set_fieldNormWeight FUSE_DEFAULT_OPTIONS 0.5%float
  /\ fst (call (snd (call FUSE_DEFAULT_OPTIONS)))
     = Ok {| FuseProduct.index := 1; FuseProduct.relevance := 3 |}
  /\ fst (call FUSE_DEFAULT_OPTIONS)
     <> fst (call (snd (call FUSE_DEFAULT_OPTIONS))).
Proof.
  apply (fuseSearchProduct_depends_on_earlier_call Samples.fooFuse Samples.foo
           Samples.fooNames Samples.thresholds019 Samples.thresholds019
           FUSE_DEFAULT_OPTIONS
           {| FuseProduct.item := Samples.fooLong;
              FuseProduct.refIndex := 0; FuseProduct.score := 0.001%float |}
           [ {| FuseProduct.item := "Foo Bar"; FuseProduct.refIndex := 1;
                FuseProduct.score := 0.001%float |} ]
           {| FuseProduct.item := "Foo Bar"; FuseProduct.refIndex := 1;
              FuseProduct.score := 0.003%float |}
           [ {| FuseProduct.item := Samples.fooLong;
                FuseProduct.refIndex := 0; FuseProduct.score := 0.0482%float |} ]
           3 eq_refl eq_refl eq_refl eq_refl eq_refl).
  discriminate.
Defined.

(** ** Product resolution *)

(** C8, as the code has it. For every basicInfo whose [url] is a non-empty
    string, [searchProduct] returns that URL and leaves the store as it
    was: no fetch is issued (and Fuse.js is not consulted); the result does
    not depend on [name] and [brand]. *)
Theorem searchProduct_known_url :
  forall (URL : UrlApi) (web : Web)
         (numberToString : float -> string) (Fuse : FuseProduct.FuseEngine)
         (this : ProductScraper) (fuel : nat)
         (name : string) (brand : option string) (u : string) (st : Store),
    Js.truthy_string u = true ->
    Search.searchProduct URL web numberToString Fuse this fuel
      {| name := name; brand := brand; url := Some u |} st
    = Some (Ok u, st)
    /\ forall name' brand',
         Search.searchProduct URL web numberToString Fuse this fuel
           {| name := name'; brand := brand'; url := Some u |} st
         = Search.searchProduct URL web numberToString Fuse this fuel
             {| name := name; brand := brand; url := Some u |} st.
Proof.
  intros URL web numberToString Fuse this fuel name brand u st U.
  unfold Search.searchProduct. simpl. rewrite U. split; reflexivity.
Qed.

Lemma searchProduct_known_url_witness :
  Search.searchProduct Samples.noUrl Samples.deadSite Samples.numberToString
    Samples.noFuse Samples.shop 0
    {| name := "X"; brand := None; url := Some "http://known" |} initialStore
  = Some (Ok "http://known", initialStore).
Proof.
  apply (proj1 (searchProduct_known_url Samples.noUrl Samples.deadSite
                  Samples.numberToString
                    Samples.noFuse Samples.shop 0 "X" None "http://known"
                  initialStore eq_refl)).
Defined.

(** C8, as stated, fails: a [url] that is present but empty does not short
    the resolution; the product is searched for by name, which issues a
    fetch, and here, the site being down, the call rejects. *)
Lemma searchProduct_empty_url_fetches :
  url Samples.emptyUrl = Some ""
  /\ forall fuel,
       Search.searchProduct Samples.noUrl Samples.deadSite Samples.numberToString
         Samples.noFuse
         Samples.shop fuel Samples.emptyUrl initialStore
       = Some (Throw "/s/X is not a valid URL or is currently unavailable",
               {| fetched := ["/s/X"]; fuseDefaults := FUSE_DEFAULT_OPTIONS |}).
Proof.
  split; [reflexivity|]. intros fuel. reflexivity.
Qed.

(** ** Card filtering *)

Section CardFilter.
Context {T : Type}.

(** An assignment at the index where a suffix starts replaces the head of
    the suffix. *)
Lemma arraySet_app (pre : list bool) (x v : bool) (rest : list bool) :
  Js.arraySet false (pre ++ x :: rest) (List.length pre) v
  = (pre ++ v :: rest)%list.
Proof.
  induction pre as [|y pre IH]; simpl; [reflexivity|]. now rewrite IH.
Qed.

Lemma differsAt_app (pre : list string) (v : string) (rest : list string)
    (placeholder : string) :
  Filter.differsAt (pre ++ v :: rest) (List.length pre) placeholder
  = Js.strict_ne v placeholder.
Proof.
  unfold Filter.differsAt.
  rewrite nth_error_app2, Nat.sub_diag by lia. reflexivity.
Qed.

(** The marking loop, started where the values [vals] remain to be looked
    at, fills the entries of [vals] and leaves the earlier ones. *)
Lemma markLoop_app (placeholder : string) (vals : list string) :
  forall (seen : list string) (marked : list bool),
    List.length marked = List.length seen ->
    Filter.markLoop (List.length vals) (List.length seen) (seen ++ vals) placeholder
      (marked ++ repeat false (List.length vals))
    = (marked ++ map (fun v => Js.strict_ne v placeholder) vals)%list.
Proof.
  induction vals as [|v vals IH]; intros seen marked L; simpl; [reflexivity|].
  rewrite <- L at 2. rewrite arraySet_app, differsAt_app.
  specialize (IH (seen ++ [v])%list (marked ++ [Js.strict_ne v placeholder])%list).
  rewrite !length_app, <- !app_assoc in IH. simpl in IH.
  rewrite !Nat.add_1_r in IH. apply IH. lia.
Qed.

Lemma markLoop_all (placeholder : string) (vals : list string) :
  Filter.markLoop (List.length vals) 0 vals placeholder
    (Js.arrayFill (List.length vals) false)
  = map (fun v => Js.strict_ne v placeholder) vals.
Proof. exact (markLoop_app placeholder vals [] [] eq_refl). Qed.

(** Filtering by index, from the index where the suffixes of the two
    signal arrays start, is filtering the cards zipped with the
    suffixes. *)
Lemma filterFrom_app (predicate : bool -> bool -> bool) :
  forall (data : list T) (imgSeen desSeen imgExist desExist : list bool),
    List.length desSeen = List.length imgSeen ->
    List.length imgExist = List.length data ->
    List.length desExist = List.length data ->
    Filter.filterFrom
      (fun _ i => predicate (nth i (imgSeen ++ imgExist) false)
                            (nth i (desSeen ++ desExist) false))
      (List.length imgSeen) data
    = Filter.cardsSatisfying predicate data imgExist desExist.
Proof.
  unfold Filter.cardsSatisfying.
  induction data as [|x data IH];
    intros imgSeen desSeen imgExist desExist L Li Ld; [reflexivity|].
  destruct imgExist as [|a imgExist]; [discriminate|].
  destruct desExist as [|b desExist]; [discriminate|].
  simpl. rewrite <- L at 2.
  rewrite !nth_middle.
  specialize (IH (imgSeen ++ [a])%list (desSeen ++ [b])%list imgExist desExist).
  rewrite !length_app, <- !app_assoc in IH. simpl in IH.
  rewrite !Nat.add_1_r in IH.
  rewrite IH by (simpl in *; lia).
  destruct (predicate a b); reflexivity.
Qed.

Lemma filterFrom_all (predicate : bool -> bool -> bool) (data : list T)
    (imgExist desExist : list bool) :
  List.length imgExist = List.length data ->
  List.length desExist = List.length data ->
  Filter.filterFrom
    (fun _ i => predicate (nth i imgExist false) (nth i desExist false)) 0%nat data
  = Filter.cardsSatisfying predicate data imgExist desExist.
Proof. exact (filterFrom_app predicate data [] [] imgExist desExist eq_refl). Qed.

Lemma presenceSignals_length (configured : bool) (vals : list string)
    (placeholder : string) (n : nat) :
  (configured = true -> List.length vals = n) ->
  List.length (Filter.presenceSignals configured vals placeholder n) = n.
Proof.
  unfold Filter.presenceSignals. destruct configured; intros L.
  - rewrite length_map. auto.
  - apply repeat_length.
Qed.

End CardFilter.

(** The signal array the code computes, under the length check it makes. *)
Lemma signals_computed (configured : bool) (extracted : result (list string))
    (vals : list string) (placeholder message : string) (n : nat) :
  (configured = true -> extracted = Ok vals /\ List.length vals = n) ->
  (if configured
   then
     vs <~ extracted ;;
     if negb (List.length vs =? n)%nat then Throw message
     else Ok (Filter.markLoop (List.length vs) 0 vs placeholder
                (Js.arrayFill n false))
   else Ok (Js.arrayFill n false))
  = Ok (Filter.presenceSignals configured vals placeholder n).
Proof.
  intros C. unfold Filter.presenceSignals. destruct configured; [|reflexivity].
  destruct (C eq_refl) as [-> <-]. simpl.
  rewrite Nat.eqb_refl. simpl. now rewrite markLoop_all.
Qed.

(** The signal of a card, index by index. *)
Lemma presenceSignals_nth (configured : bool) (vals : list string)
    (placeholder : string) (n i : nat) :
  (configured = true -> List.length vals = n) ->
  (i < n)%nat ->
  nth i (Filter.presenceSignals configured vals placeholder n) false
  = configured && Js.strict_ne (nth i vals "") placeholder.
Proof.
  intros L I. unfold Filter.presenceSignals. destruct configured; simpl.
  - rewrite (nth_indep _ false (Js.strict_ne "" placeholder))
      by (rewrite length_map, L; auto).
    apply (map_nth (fun v => Js.strict_ne v placeholder)).
  - apply nth_repeat.
Qed.

(** C9. For every extracted card list and predicate, when the configured
    image and description extractions are as long as the card list, the
    output of [filterProductCardsFromPage] is exactly the cards whose
    signal satisfies the predicate, in their order; the image signal of
    card [i] is [imageUrls[i] !== placeholder] when the image selector and
    the image placeholder are configured and [false] otherwise, and
    symmetrically for descriptions. *)
Theorem filterProductCardsFromPage_exact_filter :
  forall (URL : UrlApi) (this : ProductScraper) (T : Type) (dom : CheerioAPI)
         (callback : CheerioAPI -> result (list T))
         (predicate : bool -> bool -> bool)
         (data : list T) (imageUrls descriptions : list string),
    callback dom = Ok data ->
    (Filter.imagesConfigured this = true ->
     Extract.extractProductImageUrlsFromList URL this dom = Ok imageUrls
     /\ List.length imageUrls = List.length data) ->
    (Filter.descriptionsConfigured this = true ->
     Extract.extractProductDescriptionsFromList this dom = Ok descriptions
     /\ List.length descriptions = List.length data) ->
    let imagePresent :=
      Filter.presenceSignals (Filter.imagesConfigured this) imageUrls
        (image (placeholders this)) (List.length data) in
    let descriptionPresent :=
      Filter.presenceSignals (Filter.descriptionsConfigured this) descriptions
        (description (placeholders this)) (List.length data) in
    Filter.filterProductCardsFromPage URL this dom callback predicate
    = Ok (Filter.cardsSatisfying predicate data imagePresent descriptionPresent)
    /\ (forall i, (i < List.length data)%nat ->
          nth i imagePresent false
          = Filter.imagesConfigured this
            && Js.strict_ne (nth i imageUrls "") (image (placeholders this)))
    /\ (forall i, (i < List.length data)%nat ->
          nth i descriptionPresent false
          = Filter.descriptionsConfigured this
            && Js.strict_ne (nth i descriptions "") (description (placeholders this))).
Proof.
  intros URL this T dom callback predicate data imageUrls descriptions C I D
         imagePresent descriptionPresent.
  split; [|split].
  - unfold Filter.filterProductCardsFromPage. rewrite C. simpl andThen.
    fold (Filter.imagesConfigured this) (Filter.descriptionsConfigured this).
    rewrite (signals_computed _ _ imageUrls _ _ _ I). simpl andThen.
    rewrite (signals_computed _ _ descriptions _ _ _ D). simpl andThen.
    f_equal. apply filterFrom_all; apply presenceSignals_length.
    + intros E. apply (I E).
    + intros E. apply (D E).
  - intros i L. apply presenceSignals_nth; [|exact L]. intros E. apply (I E).
  - intros i L. apply presenceSignals_nth; [|exact L]. intros E. apply (D E).
Qed.

Lemma filterProductCardsFromPage_exact_filter_witness :
  Filter.filterProductCardsFromPage Samples.noUrl Samples.exampleShop
    Samples.examplePage
    (Extract.extractProductPageUrlsFromList Samples.noUrl Samples.exampleShop)
    (fun x y => negb x && negb y)
  = Ok ["fourth-url"].
Proof.
  apply (proj1 (filterProductCardsFromPage_exact_filter Samples.noUrl
                  Samples.exampleShop string Samples.examplePage
                  (Extract.extractProductPageUrlsFromList Samples.noUrl
                     Samples.exampleShop)
                  (fun x y => negb x && negb y)
                  ["first-url"; "second-url"; "third-url"; "fourth-url"]
                  ["first-image-url"; "placeholder-image-url"; "third-image-url";
                   "placeholder-image-url"]
                  ["This is the description of the first product.";
                   "This is the description of the second product.";
                   "Lorem ipsum..."; "Lorem ipsum..."]
                  eq_refl
                  (fun _ => conj eq_refl eq_refl)
                  (fun _ => conj eq_refl eq_refl))).
Defined.

(** The example of [lib/filter.js], run. *)
Example filterProductCardsFromPage_example :
  let run f :=
    Filter.filterProductCardsFromPage Samples.noUrl Samples.exampleShop
      Samples.examplePage
      (Extract.extractProductPageUrlsFromList Samples.noUrl Samples.exampleShop) f in
  run (fun x _ => negb x) = Ok ["second-url"; "fourth-url"]
  /\ run (fun _ y => negb y) = Ok ["third-url"; "fourth-url"]
  /\ run (fun x y => negb x && negb y) = Ok ["fourth-url"]
  /\ run (fun x y => negb x || negb y) = Ok ["second-url"; "third-url"; "fourth-url"].
Proof. repeat split. Qed.

(** * Further properties of the pagination loop *)

Section PaginationTraces.
Variable web : Web.
Variable numberToString : float -> string.
Context {T : Type} `{JsValue T}.
Variable pagination : Constructor.Pagination.
Variable callback : CheerioAPI -> result (list T).

Let start : float := Constructor.startPage pagination.
Let pageUrl (pageNum : float) : string :=
  Constructor.url pagination ++ numberToString pageNum.
Let loop (fuel : nat) (pageNum : float) (acc : list T) : Async (list T) :=
  Constructor.paginationLoop web numberToString fuel
    (Constructor.url pagination) start (Constructor.last pagination)
    callback pageNum acc.

(** The URLs of the pages [pageNum], [pageNum] incremented once, ...,
    [pageNum] incremented [k - 1] times. *)
Let pageUrls (pageNum : float) (k : nat) : list string :=
  map (fun i => pageUrl (Constructor.pageAfter pageNum i)) (seq 0 k).

Lemma pageUrls_S (pageNum : float) (k : nat) :
  pageUrls pageNum (S k) = pageUrl pageNum :: pageUrls (pageNum + 1)%float k.
Proof.
  unfold pageUrls. simpl. f_equal.
  rewrite <- seq_shift, map_map. reflexivity.
Qed.

(** One execution of the body on a page whose fetch fails. *)
Lemma loop_step_unreachable (fuel : nat) (pageNum : float) (acc : list T) (st : Store) :
  Constructor.inRange (Constructor.last pagination) pageNum = true ->
  Constructor.unreachable web numberToString pagination pageNum ->
  loop (S fuel) pageNum acc st
  = Some (Throw (pageUrl pageNum ++ " is not a valid URL or is currently unavailable"),
          Constructor.recordFetch st (pageUrl pageNum)).
Proof.
  intros R U. unfold loop. simpl. rewrite R.
  unfold bind, Constructor.fetchCheerioAPI. unfold Constructor.unreachable in U.
  rewrite U. reflexivity.
Qed.

(** Whatever the loop does from a state, it fetches the page it is at and
    the pages [pageNum++] leads to, one for each execution of its body, and
    leaves the shared Fuse.js options alone. *)
Lemma loop_trace :
  forall (fuel : nat) (pageNum : float) (acc : list T) (st : Store) r st',
    loop fuel pageNum acc st = Some (r, st') ->
    exists k,
      (k <= fuel)%nat
      /\ fetched st' = (fetched st ++ pageUrls pageNum k)%list
      /\ fuseDefaults st' = fuseDefaults st.
Proof.
  unfold loop.
  induction fuel as [|fuel IH]; intros pageNum acc st r st'; simpl.
  - destruct (Constructor.inRange _ pageNum); [discriminate|].
    intros E. injection E as _ <-. exists 0%nat.
    unfold pageUrls. simpl. rewrite app_nil_r. auto.
  - destruct (Constructor.inRange _ pageNum).
    + unfold bind, Constructor.fetchCheerioAPI.
      assert (One : forall r0 : result (list T),
                 Some (r0, Constructor.recordFetch st (pageUrl pageNum))
                 = Some (r, st') ->
                 exists k, (k <= Datatypes.S fuel)%nat
                           /\ fetched st' = (fetched st ++ pageUrls pageNum k)%list
                           /\ fuseDefaults st' = fuseDefaults st).
      { intros r0 E. injection E as _ <-. exists 1%nat.
        split; [lia|]. unfold pageUrls. simpl. auto. }
      fold (pageUrl pageNum).
      destruct (web (pageUrl pageNum)) as [dom|];
        [|intros E; exact (One _ E)].
      destruct (callback dom) as [data|e].
      * destruct (Constructor.pageReoccurs acc data);
          [intros E; exact (One _ E)|].
        intros E. apply IH in E. destruct E as [k [K [F D]]].
        exists (Datatypes.S k). split; [lia|]. rewrite pageUrls_S.
        simpl in F. rewrite <- app_assoc in F. simpl in F. auto.
      * destruct (PrimFloat.eqb pageNum start); intros E; exact (One _ E).
    + intros E. injection E as _ <-. exists 0%nat.
      unfold pageUrls. simpl. rewrite app_nil_r. split; [lia|auto].
Qed.

(** When [n] increments take the page number out of the range, the loop
    leaves within [n] executions of its body. *)
Lemma loop_bounded :
  forall (n : nat) (pageNum : float) (acc : list T) (st : Store),
    Constructor.inRange (Constructor.last pagination)
      (Constructor.pageAfter pageNum n) = false ->
    exists r st', loop n pageNum acc st = Some (r, st').
Proof.
  unfold loop.
  induction n as [|n IH]; intros pageNum acc st F; simpl in *.
  - rewrite F. unfold ret. eauto.
  - destruct (Constructor.inRange _ pageNum); [|unfold ret; eauto].
    unfold bind, Constructor.fetchCheerioAPI.
    destruct (web _) as [dom|]; [|eauto].
    destruct (callback dom) as [data|e].
    + destruct (Constructor.pageReoccurs acc data); [unfold ret; eauto|].
      apply IH. exact F.
    + destruct (PrimFloat.eqb pageNum start); unfold throw, ret; eauto.
Qed.

(** A value the loop returns is the concatenation of the results of the
    pages it went through. *)
Lemma loop_returns_reached :
  forall (fuel : nat) (pageNum : float) (pages : list (list T)) (st : Store) acc st',
    Constructor.Reaches web numberToString pagination callback pageNum pages ->
    loop fuel pageNum (List.concat pages) st = Some (Ok acc, st') ->
    exists pageNum' pages',
      Constructor.Reaches web numberToString pagination callback pageNum' pages'
      /\ acc = List.concat pages'.
Proof.
  unfold loop.
  induction fuel as [|fuel IH]; intros pageNum pages st acc st' Re; simpl.
  - destruct (Constructor.inRange _ pageNum); [discriminate|].
    intros E. injection E as <- _. eauto.
  - destruct (Constructor.inRange _ pageNum) eqn:R;
      [|intros E; injection E as <- _; eauto].
    unfold bind, Constructor.fetchCheerioAPI.
    destruct (web _) as [dom|] eqn:W; [|discriminate].
    destruct (callback dom) as [data|e] eqn:C.
    + destruct (Constructor.pageReoccurs (List.concat pages) data) eqn:D.
      * intros E. injection E as <- _. eauto.
      * intros E. eapply (IH (pageNum + 1)%float (pages ++ [data])%list).
        -- apply Constructor.Reaches_next; auto. exists dom. auto.
        -- rewrite concat_app. simpl. rewrite app_nil_r. exact E.
    + destruct (PrimFloat.eqb pageNum start); [discriminate|].
      intros E. injection E as <- _. eauto.
Qed.

End PaginationTraces.

(** The first thousand page numbers from 1 are 1, 2, ..., 1000. *)
Example pageAfter_small :
  forall i, (i < 1000)%nat ->
    Samples.numberToString (Constructor.pageAfter 1 i)
    = Js.integerToString (1 + Z.of_nat i).
Proof.
  assert (A : forallb
                (fun i => String.eqb
                            (Samples.numberToString (Constructor.pageAfter 1 i))
                            (Js.integerToString (1 + Z.of_nat i)))
                (seq 0 1000) = true) by (vm_compute; reflexivity).
  intros i I. rewrite forallb_forall in A.
  apply String.eqb_eq, A, in_seq. lia.
Qed.

(** From 2^53 on the increment of a page number is lost in rounding: the
    loop stays on the page it is at. *)
Example pageAfter_saturates :
  Constructor.pageAfter 9007199254740991 1 = 9007199254740992%float
  /\ Constructor.pageAfter 9007199254740992 1 = 9007199254740992%float
  /\ Constructor.pageAfter 9007199254740992 2 = 9007199254740992%float.
Proof. repeat split. Qed.

(** X1. Whenever [iterateOverPagination] settles, the URLs it has fetched
    are, in this order, [url + first], [url + p1], [url + p2], ..., where
    each page number is the one before it after [pageNum++], one fetch for
    each execution of the loop body; it fetches nothing else and does not
    touch the shared Fuse.js options. *)
Theorem iterateOverPagination_fetches_consecutive_pages :
  forall (web : Web) (numberToString : float -> string) (T : Type)
         (V : JsValue T)
         (pagination : Constructor.Pagination)
         (callback : CheerioAPI -> result (list T))
         (fuel : nat) (st : Store) r st',
    Constructor.iterateOverPagination web numberToString fuel pagination callback st
    = Some (r, st') ->
    exists k,
      (k <= fuel)%nat
      /\ fetched st'
         = (fetched st
            ++ map (fun i => (Constructor.url pagination
                              ++ numberToString
                                   (Constructor.pageAfter
                                      (Constructor.startPage pagination) i))%string)
                 (seq 0 k))%list
      /\ fuseDefaults st' = fuseDefaults st.
Proof.
  intros web numberToString T V pagination callback fuel st r st' E.
  rewrite iterateOverPagination_loop in E.
  exact (loop_trace web numberToString pagination callback fuel _ _ _ _ _ E).
Qed.

Lemma iterateOverPagination_fetches_consecutive_pages_witness :
  exists k,
    (k <= 5)%nat
    /\ ["/c/tea?p=1"; "/c/tea?p=2"; "/c/tea?p=3"]
       = ([] ++ map (fun i => ("/c/tea?p="
                               ++ Samples.numberToString
                                    (Constructor.pageAfter 1 i))%string)
                  (seq 0 k))%list
    /\ FUSE_DEFAULT_OPTIONS = FUSE_DEFAULT_OPTIONS.
Proof.
  exact (iterateOverPagination_fetches_consecutive_pages Samples.teaSite
           Samples.numberToString _ _
           (Samples.teaPagination None)
           (Extract.extractProductNamesFromList Samples.shop) 5 initialStore
           (Ok ["Assam"; "Ceylon"; "Darjeeling"])
           {| fetched := ["/c/tea?p=1"; "/c/tea?p=2"; "/c/tea?p=3"];
              fuseDefaults := FUSE_DEFAULT_OPTIONS |}
           eq_refl).
Defined.

(** X2. With a last page [l]: if [n] executions of [pageNum++] take the
    first page number out of the range (the number they lead to is not
    [<= l]), [iterateOverPagination] settles as soon as the fuel covers
    [n] executions of the loop body, after at most [n] fetches; when the
    first page number itself is not [<= l] ([l] is below it, or one of the
    two is NaN) it returns the empty array without fetching anything. *)
Theorem iterateOverPagination_bounded :
  forall (web : Web) (numberToString : float -> string) (T : Type)
         (V : JsValue T)
         (pagination : Constructor.Pagination)
         (callback : CheerioAPI -> result (list T)) (l : float)
         (n fuel : nat) (st : Store),
    Constructor.last pagination = Some l ->
    PrimFloat.leb
      (Constructor.pageAfter (Constructor.startPage pagination) n) l = false ->
    (n <= fuel)%nat ->
    exists r st',
      Constructor.iterateOverPagination web numberToString fuel pagination callback st
      = Some (r, st')
      /\ (List.length (fetched st') <= List.length (fetched st) + n)%nat
      /\ (PrimFloat.leb (Constructor.startPage pagination) l = false ->
          r = Ok [] /\ st' = st).
Proof.
  intros web numberToString T V pagination callback l n fuel st L B F.
  destruct (loop_bounded web numberToString pagination callback n
              (Constructor.startPage pagination) [] st)
    as [r [st' E]].
  { rewrite L. exact B. }
  exists r, st'. split; [|split].
  - rewrite iterateOverPagination_loop.
    replace fuel with (n + (fuel - n))%nat by lia.
    now apply loop_more_fuel.
  - destruct (loop_trace web numberToString pagination callback _ _ _ _ _ _ E)
      as [k [K [Fe _]]].
    rewrite Fe, length_app, length_map, length_seq. lia.
  - intros B0.
    rewrite (loop_exit web numberToString pagination callback) in E.
    + injection E as <- <-. auto.
    + rewrite L. exact B0.
Qed.

Lemma iterateOverPagination_bounded_witness :
  (exists r st',
      Constructor.iterateOverPagination Samples.blankFirstSite
        Samples.numberToString 7
        (Samples.teaPagination (Some 4%float))
        (Extract.extractProductDescriptionsFromList Samples.shop) initialStore
      = Some (r, st')
      /\ (List.length (fetched st') <= 0 + 4)%nat
      /\ (PrimFloat.leb 1 4 = false -> r = Ok [] /\ st' = initialStore))
  /\ Constructor.iterateOverPagination Samples.teaSite Samples.numberToString 3
       (Samples.teaPagination (Some 0%float))
       (Extract.extractProductNamesFromList Samples.shop) initialStore
     = Some (Ok [], initialStore)
  /\ Constructor.iterateOverPagination Samples.teaSite Samples.numberToString 3
       (Samples.teaPaginationFrom nan (Some 3%float))
       (Extract.extractProductNamesFromList Samples.shop) initialStore
     = Some (Ok [], initialStore).
Proof.
  split; [|split].
  - apply (iterateOverPagination_bounded Samples.blankFirstSite
             Samples.numberToString _ _
             (Samples.teaPagination (Some 4%float))
             (Extract.extractProductDescriptionsFromList Samples.shop)
             4%float 4 7 initialStore eq_refl eq_refl).
    lia.
  - destruct (iterateOverPagination_bounded Samples.teaSite
                Samples.numberToString _ _
                (Samples.teaPagination (Some 0%float))
                (Extract.extractProductNamesFromList Samples.shop)
                0%float 0 3 initialStore eq_refl eq_refl)
      as [r [st' [E [_ B]]]]; [lia|].
    destruct (B eq_refl) as [-> ->]. exact E.
  - destruct (iterateOverPagination_bounded Samples.teaSite
                Samples.numberToString _ _
                (Samples.teaPaginationFrom nan (Some 3%float))
                (Extract.extractProductNamesFromList Samples.shop)
                3%float 0 3 initialStore eq_refl eq_refl)
      as [r [st' [E [_ B]]]]; [lia|].
    destruct (B eq_refl) as [-> ->]. exact E.
Defined.

(** X3. A fetch that fails rejects the whole iteration, on whichever page
    it happens: the results accumulated from the pages before it are not
    returned. *)
Theorem iterateOverPagination_fetch_failure_rejects :
  forall (web : Web) (numberToString : float -> string) (T : Type)
         (V : JsValue T)
         (pagination : Constructor.Pagination)
         (callback : CheerioAPI -> result (list T))
         (pageNum : float) (pages : list (list T)),
    Constructor.Reaches web numberToString pagination callback pageNum pages ->
    Constructor.inRange (Constructor.last pagination) pageNum = true ->
    Constructor.unreachable web numberToString pagination pageNum ->
    forall st, exists st',
      forall fuel, (List.length pages < fuel)%nat ->
        Constructor.iterateOverPagination web numberToString fuel pagination callback st
        = Some (Throw ((Constructor.url pagination ++ numberToString pageNum)
                       ++ " is not a valid URL or is currently unavailable"),
                st').
Proof.
  intros web numberToString T V pagination callback pageNum pages Re R U st.
  destruct (Reaches_run web numberToString
    pagination callback pageNum pages Re st) as [st1 E].
  eexists. intros fuel L.
  replace fuel with (List.length pages + Datatypes.S (fuel - List.length pages - 1))%nat
    by lia.
  rewrite iterateOverPagination_loop, E.
  rewrite (loop_step_unreachable web numberToString pagination callback _ _ _ _ R U).
  reflexivity.
Qed.

Lemma iterateOverPagination_fetch_failure_rejects_witness :
  exists st',
    Constructor.iterateOverPagination Samples.brokenSite Samples.numberToString 3
      (Samples.teaPagination None)
      (Extract.extractProductNamesFromList Samples.shop) initialStore
    = Some (Throw "/c/tea?p=2 is not a valid URL or is currently unavailable", st').
Proof.
  destruct (iterateOverPagination_fetch_failure_rejects Samples.brokenSite
              Samples.numberToString _ _
              (Samples.teaPagination None)
              (Extract.extractProductNamesFromList Samples.shop)
              2%float [["Assam"; "Ceylon"]]) with (st := initialStore) as [st' E].
  - apply (Constructor.Reaches_next _ _ _ _ 1%float [] ["Assam"; "Ceylon"]);
      [ | reflexivity | served_here | reflexivity].
    apply Constructor.Reaches_start.
  - reflexivity.
  - reflexivity.
  - exists st'. apply E. simpl. lia.
Defined.

(** X4. A value [iterateOverPagination] returns is the concatenation, in
    page order, of the results the callback gave on the pages the loop went
    through (none of them skipped, none of them partial). *)
Theorem iterateOverPagination_returns_reached_pages :
  forall (web : Web) (numberToString : float -> string) (T : Type)
         (V : JsValue T)
         (pagination : Constructor.Pagination)
         (callback : CheerioAPI -> result (list T))
         (fuel : nat) (st : Store) (acc : list T) st',
    Constructor.iterateOverPagination web numberToString fuel pagination callback st
    = Some (Ok acc, st') ->
    exists pageNum pages,
      Constructor.Reaches web numberToString pagination callback pageNum pages
      /\ acc = List.concat pages.
Proof.
  intros web numberToString T V pagination callback fuel st acc st' E.
  rewrite iterateOverPagination_loop in E.
  apply (loop_returns_reached web numberToString pagination callback fuel
           (Constructor.startPage pagination) [] st acc st').
  - apply Constructor.Reaches_start.
  - exact E.
Qed.

Lemma iterateOverPagination_returns_reached_pages_witness :
  exists pageNum pages,
    Constructor.Reaches Samples.teaSite Samples.numberToString
      (Samples.teaPagination None)
      (Extract.extractProductNamesFromList Samples.shop) pageNum pages
    /\ ["Assam"; "Ceylon"; "Darjeeling"] = List.concat pages.
Proof.
  exact (iterateOverPagination_returns_reached_pages Samples.teaSite
           Samples.numberToString _ _
           (Samples.teaPagination None)
           (Extract.extractProductNamesFromList Samples.shop) 5 initialStore
           ["Assam"; "Ceylon"; "Darjeeling"]
           {| fetched := ["/c/tea?p=1"; "/c/tea?p=2"; "/c/tea?p=3"];
              fuseDefaults := FUSE_DEFAULT_OPTIONS |}
           eq_refl).
Defined.

(** * Further properties of the query narrowing *)

(** A prefix as long as the string, or longer, is the string. *)
Lemma substring0_all (s : string) (e : Z) :
  Js.length s <= e -> Js.substring0 s e = s.
Proof.
  unfold Js.substring0, Js.length. intros L.
  assert (N : (String.length s <= Z.to_nat e)%nat) by lia.
  clear L. revert N. generalize (Z.to_nat e). clear e.
  induction s as [|c s IH]; intros n N.
  - destruct n; reflexivity.
  - destruct n as [|n]; simpl in *; [lia|]. f_equal. apply IH. lia.
Qed.

(** Halving an interval width lowers its binary logarithm. *)
Lemma log2_up_half (w w' : Z) :
  1 < w -> w' <= (w + 1) / 2 -> Z.log2_up w' < Z.log2_up w.
Proof.
  intros W H.
  pose proof (Z.log2_up_pos w W) as P.
  destruct (Z.le_gt_cases w' 0) as [N|N].
  - rewrite (Z.log2_up_nonpos w' N). exact P.
  - pose proof (Z.log2_up_spec w W) as [_ U].
    assert (E : 2 ^ Z.log2_up w = 2 * 2 ^ (Z.log2_up w - 1)).
    { rewrite <- Z.pow_succ_r by lia. f_equal. lia. }
    assert (B : w' <= 2 ^ (Z.log2_up w - 1)).
    { pose proof (Z.div_mod (w + 1) 2 ltac:(lia)) as D.
      pose proof (Z.mod_pos_bound (w + 1) 2 ltac:(lia)) as M. lia. }
    apply (Z.log2_up_le_pow2 _ _ N) in B. lia.
Qed.

Section NarrowingTraces.
Variable web : Web.
Variable this : ProductScraper.

Let searchUrl (query : string) : string :=
  Js.indexForConcat (search (paginations this)) 0 ++ query.

(** A probe is one fetch of the search page of its query; what it answers
    depends on the query only. *)
Lemma hasSearchResult_run (query : string) :
  exists r, forall st,
    Search.hasSearchResult web this query st
    = Some (r, Constructor.recordFetch st (searchUrl query)).
Proof.
  unfold Search.hasSearchResult, bind, Constructor.fetchCheerioAPI, ret, searchUrl.
  destruct (web _) as [dom|]; eexists; intros st; reflexivity.
Qed.

Lemma hasSearchResult_pure (query : string) (b : bool) (st st1 : Store) :
  Search.hasSearchResult web this query st = Some (Ok b, st1) ->
  Search.searchYields web this query b.
Proof.
  destruct (hasSearchResult_run query) as [r R]. rewrite R.
  intros E. injection E as -> _. intros st2. rewrite R. eauto.
Qed.

(** The probes of the loop: few, and only of prefixes of three characters
    or more. *)
Lemma narrowLoop_trace (query : string) :
  forall (fuel : nat) (left right : Z) (st : Store),
    1 <= left -> right <= Js.length query ->
    (Z.to_nat (Z.log2_up (right - left)) <= fuel)%nat ->
    exists r st' probes,
      Search.narrowLoop web this fuel query left right st = Some (r, st')
      /\ fetched st' = (fetched st ++ map searchUrl probes)%list
      /\ (List.length probes <= Z.to_nat (Z.log2_up (right - left)))%nat
      /\ Forall (fun q => exists k, 3 <= k <= Js.length query
                                    /\ q = Js.substring0 query k) probes
      /\ fuseDefaults st' = fuseDefaults st.
Proof.
  induction fuel as [|fuel IH]; intros left right st L R F; simpl.
  - destruct (1 <? right - left) eqn:W.
    + apply Z.ltb_lt in W. pose proof (Z.log2_up_pos _ W). lia.
    + exists (Ok (Js.substring0 query (left + 1))), st, [].
      simpl. rewrite app_nil_r. repeat split; auto. lia.
  - destruct (1 <? right - left) eqn:W.
    + apply Z.ltb_lt in W. pose proof (middle_inside left right W) as M.
      assert (H1 : Z.log2_up ((left + right) / 2 - left) < Z.log2_up (right - left)).
      { apply log2_up_half; [exact W|].
        pose proof (Z.div_mod (left + right) 2 ltac:(lia)).
        pose proof (Z.mod_pos_bound (left + right) 2 ltac:(lia)).
        pose proof (Z.div_mod (right - left + 1) 2 ltac:(lia)).
        pose proof (Z.mod_pos_bound (right - left + 1) 2 ltac:(lia)). lia. }
      assert (H2 : Z.log2_up (right - (left + right) / 2) < Z.log2_up (right - left)).
      { apply log2_up_half; [exact W|].
        pose proof (Z.div_mod (left + right) 2 ltac:(lia)).
        pose proof (Z.mod_pos_bound (left + right) 2 ltac:(lia)).
        pose proof (Z.div_mod (right - left + 1) 2 ltac:(lia)).
        pose proof (Z.mod_pos_bound (right - left + 1) 2 ltac:(lia)). lia. }
      pose proof (Z.log2_up_nonneg ((left + right) / 2 - left)).
      pose proof (Z.log2_up_nonneg (right - (left + right) / 2)).
      set (substr := Js.substring0 query ((left + right) / 2 + 1)).
      assert (P : exists k, 3 <= k <= Js.length query
                            /\ substr = Js.substring0 query k)
        by (exists ((left + right) / 2 + 1); split; [lia|reflexivity]).
      unfold bind.
      destruct (hasSearchResult_run substr) as [r Run]. rewrite Run.
      destruct r as [[|]|e].
      * destruct (IH ((left + right) / 2) right
                    (Constructor.recordFetch st (searchUrl substr))
                    ltac:(lia) R ltac:(lia))
          as [r [st' [probes [E [Fe [Le [Fo D]]]]]]].
        exists r, st', (substr :: probes). rewrite E.
        simpl in Fe. rewrite <- app_assoc in Fe. simpl in *.
        repeat split; auto. lia.
      * destruct (IH left ((left + right) / 2)
                    (Constructor.recordFetch st (searchUrl substr))
                    L ltac:(lia) ltac:(lia))
          as [r [st' [probes [E [Fe [Le [Fo D]]]]]]].
        exists r, st', (substr :: probes). rewrite E.
        simpl in Fe. rewrite <- app_assoc in Fe. simpl in *.
        repeat split; auto. lia.
      * exists (Throw e), (Constructor.recordFetch st (searchUrl substr)), [substr].
        simpl. repeat split; auto. lia.
    + exists (Ok (Js.substring0 query (left + 1))), st, [].
      simpl. rewrite app_nil_r. repeat split; auto. lia.
Qed.

End NarrowingTraces.

(** X5. [getOptimalForSearchSubstring] always settles, after at most
    [1 + ceil(log2(query.length - 1))] fetches: one probe of the full query
    and then only probes of prefixes of at least three characters. Each
    fetch is of [search[0] + probe]; nothing else is fetched. *)
Theorem getOptimalForSearchSubstring_fetch_budget :
  forall (web : Web) (this : ProductScraper) (query : string) (st : Store),
    exists r st' probes,
      Search.getOptimalForSearchSubstring web this query st = Some (r, st')
      /\ fetched st'
         = (fetched st
            ++ map (fun q => (Js.indexForConcat (search (paginations this)) 0
                              ++ q)%string)
                 (query :: probes))%list
      /\ (List.length probes <= Z.to_nat (Z.log2_up (Js.length query - 1)))%nat
      /\ Forall (fun q => exists k, 3 <= k <= Js.length query
                                    /\ q = Js.substring0 query k) probes
      /\ fuseDefaults st' = fuseDefaults st.
Proof.
  intros web this query st.
  unfold Search.getOptimalForSearchSubstring, bind.
  destruct (hasSearchResult_run web this query) as [r Run]. rewrite Run.
  destruct r as [[|]|e].
  - exists (Ok query), (Constructor.recordFetch st
                          (Js.indexForConcat (search (paginations this)) 0 ++ query)),
      [].
    simpl. repeat split; auto. lia.
  - destruct (narrowLoop_trace web this query (String.length query) 1
                (Js.length query)
                (Constructor.recordFetch st
                   (Js.indexForConcat (search (paginations this)) 0 ++ query))
                ltac:(lia) ltac:(lia))
      as [r [st' [probes [E [Fe [Le [Fo D]]]]]]].
    + unfold Js.length.
      destruct (Z.le_gt_cases (Z.of_nat (String.length query) - 1) 0) as [N|N].
      * rewrite (Z.log2_up_nonpos _ N). lia.
      * pose proof (Z.log2_up_le_lin (Z.of_nat (String.length query) - 1)). lia.
    + exists r, st', probes. rewrite E.
      simpl in Fe. rewrite <- app_assoc in Fe. simpl in *.
      repeat split; auto.
  - exists (Throw e), (Constructor.recordFetch st
                         (Js.indexForConcat (search (paginations this)) 0 ++ query)),
      [].
    simpl. repeat split; auto. lia.
Qed.

(** The result of the loop lies on a boundary of the answers: it has
    results, unless it is the shortest prefix the loop can return, and the
    prefix one character longer has none; it is no longer than the right
    end of the interval. *)
Lemma narrowLoop_boundary (web : Web) (this : ProductScraper) (query : string) :
  forall (fuel : nat) (left right : Z) (st : Store) (r : string) (st' : Store),
    1 <= left < right ->
    (left = 1 \/ Search.searchYields web this (Js.substring0 query (left + 1)) true) ->
    Search.searchYields web this (Js.substring0 query (right + 1)) false ->
    Search.narrowLoop web this fuel query left right st = Some (Ok r, st') ->
    exists k,
      2 <= k <= right
      /\ r = Js.substring0 query k
      /\ (k = 2 \/ Search.searchYields web this (Js.substring0 query k) true)
      /\ Search.searchYields web this (Js.substring0 query (k + 1)) false.
Proof.
  induction fuel as [|fuel IH]; intros left right st r st' B Lo Hi; simpl.
  - destruct (1 <? right - left) eqn:W; [discriminate|].
    apply Z.ltb_ge in W. intros E. injection E as <- _.
    exists (left + 1). replace (left + 1 + 1) with (right + 1) by lia.
    repeat split; auto; try lia. destruct Lo as [->|Lo]; auto.
  - destruct (1 <? right - left) eqn:W.
    + apply Z.ltb_lt in W. pose proof (middle_inside left right W) as M.
      unfold bind.
      destruct (Search.hasSearchResult web this
                  (Js.substring0 query ((left + right) / 2 + 1)) st)
        as [[[[|]|e] st1]|] eqn:P; try discriminate.
      * apply hasSearchResult_pure in P. apply IH; auto. lia.
      * apply hasSearchResult_pure in P. intros E.
        apply IH in E; auto; try lia.
        destruct E as [k [K E]]. exists k. split; [lia|exact E].
    + apply Z.ltb_ge in W. intros E. injection E as <- _.
      exists (left + 1). replace (left + 1 + 1) with (right + 1) by lia.
      repeat split; auto; try lia. destruct Lo as [->|Lo]; auto.
Qed.

(** A probe has one answer. *)
Lemma searchYields_one_answer (web : Web) (this : ProductScraper)
    (query : string) :
  Search.searchYields web this query true ->
  Search.searchYields web this query false ->
  False.
Proof.
  intros Y N. destruct (Y initialStore) as [st1 E1].
  destruct (N initialStore) as [st2 E2]. congruence.
Qed.

(** X6. What [getOptimalForSearchSubstring] returns, whatever the site
    answers: either the full query, which then has results, or, the full
    query having none, [query.substring(0, k)] for some [k] with
    [2 <= k <= max(2, query.length - 1)]: a proper prefix of at least two
    characters when the query has three characters or more, and the whole
    query when it has two, one or none. The prefix one character longer
    has no results and the prefix itself has some, except that for [k = 2]
    it is returned untested (so the result may have no results). *)
Theorem getOptimalForSearchSubstring_boundary :
  forall (web : Web) (this : ProductScraper) (query : string)
         (st : Store) (r : string) (st' : Store),
    Search.getOptimalForSearchSubstring web this query st = Some (Ok r, st') ->
    (r = query /\ Search.searchYields web this query true)
    \/ (Search.searchYields web this query false
        /\ exists k,
             2 <= k <= Z.max 2 (Js.length query - 1)
             /\ r = Js.substring0 query k
             /\ (Js.length query <= 2 -> r = query)
             /\ (k = 2 \/ Search.searchYields web this (Js.substring0 query k) true)
             /\ Search.searchYields web this (Js.substring0 query (k + 1)) false).
Proof.
  intros web this query st r st'.
  unfold Search.getOptimalForSearchSubstring, bind.
  destruct (Search.hasSearchResult web this query st)
    as [[[[|]|e] st1]|] eqn:P; try discriminate.
  - apply hasSearchResult_pure in P. intros E. injection E as <- _. auto.
  - apply hasSearchResult_pure in P. intros E. right. split; [exact P|].
    destruct (Z.le_gt_cases (Js.length query) 2) as [N|N].
    + assert (W : (1 <? Js.length query - 1) = false) by (apply Z.ltb_ge; lia).
      destruct (String.length query) as [|fuel] eqn:Len; simpl in E;
        rewrite W in E; injection E as <- _;
        (exists 2; repeat split; auto; try lia;
         rewrite substring0_all by lia; auto).
    + apply narrowLoop_boundary in E; auto; try lia.
      * destruct E as [k [K [R [Lo Hi]]]]. exists k.
        assert (k <> Js.length query).
        { intros ->. destruct Lo as [Lo|Lo]; [lia|].
          rewrite substring0_all in Lo by lia.
          exact (searchYields_one_answer web this query Lo P). }
        repeat split; auto; lia.
      * rewrite substring0_all by lia. exact P.
Qed.

Lemma getOptimalForSearchSubstring_boundary_witness :
  (("abc" = "abcdef"
    /\ Search.searchYields (Samples.shortQuerySite 3) Samples.shop "abcdef" true)
   \/ (Search.searchYields (Samples.shortQuerySite 3) Samples.shop "abcdef" false
       /\ exists k,
            2 <= k <= Z.max 2 (Js.length "abcdef" - 1)
            /\ "abc" = Js.substring0 "abcdef" k
            /\ (Js.length "abcdef" <= 2 -> "abc" = "abcdef")
            /\ (k = 2
                \/ Search.searchYields (Samples.shortQuerySite 3) Samples.shop
                     (Js.substring0 "abcdef" k) true)
            /\ Search.searchYields (Samples.shortQuerySite 3) Samples.shop
                 (Js.substring0 "abcdef" (k + 1)) false))
  /\ (("a" = "a"
       /\ Search.searchYields (Samples.longQuerySite 5) Samples.shop "a" true)
      \/ (Search.searchYields (Samples.longQuerySite 5) Samples.shop "a" false
          /\ exists k,
               2 <= k <= Z.max 2 (Js.length "a" - 1)
               /\ "a" = Js.substring0 "a" k
               /\ (Js.length "a" <= 2 -> "a" = "a")
               /\ (k = 2
                   \/ Search.searchYields (Samples.longQuerySite 5) Samples.shop
                        (Js.substring0 "a" k) true)
               /\ Search.searchYields (Samples.longQuerySite 5) Samples.shop
                    (Js.substring0 "a" (k + 1)) false)).
Proof.
  split.
  - exact (getOptimalForSearchSubstring_boundary (Samples.shortQuerySite 3)
             Samples.shop "abcdef" initialStore "abc"
             {| fetched := ["/s/abcdef"; "/s/abcd"; "/s/abc"];
                fuseDefaults := FUSE_DEFAULT_OPTIONS |}
             eq_refl).
  - exact (getOptimalForSearchSubstring_boundary (Samples.longQuerySite 5)
             Samples.shop "a" initialStore "a"
             {| fetched := ["/s/a"]; fuseDefaults := FUSE_DEFAULT_OPTIONS |}
             eq_refl).
Defined.

(** * Further properties of the extraction helpers *)







Lemma attrValues_Ok (els : list Element) (selector attrName : string)
    (vals : list string) :
  Extract.attrValues els selector attrName = Ok vals
  <-> map (fun el => attr (attribs el) attrName) els = map Some vals.
Proof.
  revert vals. induction els as [|el els IH]; intros vals; simpl.
  - split.
    + intros E. injection E as <-. reflexivity.
    + destruct vals; [reflexivity|discriminate].
  - destruct (attr (attribs el) attrName) as [v|].
    + destruct (Extract.attrValues els selector attrName) as [vs|e].
      * split.
        -- intros E. injection E as <-. simpl. f_equal. now apply IH.
        -- destruct vals as [|v' vals]; [discriminate|]. simpl.
           intros E. injection E as -> E. apply IH in E. injection E as ->.
           reflexivity.
      * split; [discriminate|].
        destruct vals as [|v' vals]; [discriminate|]. simpl.
        intros E. injection E as _ E. apply IH in E. discriminate.
    + split; [discriminate|]. destruct vals; discriminate.
Qed.

(** X8. [extractAttrValues] returns values exactly when the selector
    matches something and every selected element has the attribute; the
    values are then the attributes of the elements, in order. One element
    without the attribute makes the whole extraction throw. *)
Theorem extractAttrValues_all_or_nothing :
  forall (dom : CheerioAPI) (selector attrName : string) (vals : list string),
    Extract.extractAttrValues dom selector attrName = Ok vals
    <-> dom selector <> []
        /\ map (fun el => attr (attribs el) attrName) (dom selector)
           = map Some vals.
Proof.
  intros dom selector attrName vals.
  unfold Extract.extractAttrValues, Extract.emptySelection.
  destruct (dom selector) as [|el els] eqn:S.
  - simpl. split; [discriminate|]. intros [N _]. congruence.
  - change (Extract.attrValues (el :: els) selector attrName = Ok vals
            <-> el :: els <> []
                /\ map (fun el => attr (attribs el) attrName) (el :: els)
                   = map Some vals).
    rewrite attrValues_Ok. split; [intros E; split; [discriminate|exact E]|tauto].
Qed.

Lemma extractAttrValues_all_or_nothing_witness :
  Extract.extractAttrValues Samples.examplePage ".product-card img" "src"
  = Ok ["first-image-url"; "placeholder-image-url"; "third-image-url";
        "placeholder-image-url"].
Proof.
  apply (proj2 (extractAttrValues_all_or_nothing Samples.examplePage
                  ".product-card img" "src"
                  ["first-image-url"; "placeholder-image-url"; "third-image-url";
                   "placeholder-image-url"])).
  split; [discriminate|reflexivity].
Defined.

Lemma resolveAll_Ok (URL : UrlApi) (urls : list string)
    (validatedBaseUrl baseUrl : string) (abs : list string) :
  Extract.resolveAll URL urls validatedBaseUrl baseUrl = Ok abs
  <-> map (fun u => resolve URL u validatedBaseUrl) urls = map Some abs.
Proof.
  revert abs. induction urls as [|u urls IH]; intros abs; simpl.
  - split.
    + intros E. injection E as <-. reflexivity.
    + destruct abs; [reflexivity|discriminate].
  - destruct (resolve URL u validatedBaseUrl) as [a|].
    + destruct (Extract.resolveAll URL urls validatedBaseUrl baseUrl) as [rest|e].
      * split.
        -- intros E. injection E as <-. simpl. f_equal. now apply IH.
        -- destruct abs as [|a' abs]; [discriminate|]. simpl.
           intros E. injection E as -> E. apply IH in E. injection E as ->.
           reflexivity.
      * split; [discriminate|].
        destruct abs as [|a' abs]; [discriminate|]. simpl.
        intros E. injection E as _ E. apply IH in E. discriminate.
    + split; [discriminate|]. destruct abs; discriminate.
Qed.

(** X9. [convertToAbsolute] succeeds exactly when the base parses and every
    URL resolves; each URL is resolved against the origin
    ([protocol//host]) of the base, not against the base itself, and the
    result has one absolute URL per input, in order. One URL that does not
    resolve makes the whole conversion throw. *)
Theorem convertToAbsolute_all_or_nothing :
  forall (URL : UrlApi) (urls : list string) (baseUrl : string)
         (abs : list string),
    Extract.convertToAbsolute URL urls baseUrl = Ok abs
    <-> exists validatedBaseUrl,
          origin URL baseUrl = Some validatedBaseUrl
          /\ map (fun u => resolve URL u validatedBaseUrl) urls = map Some abs.
Proof.
  intros URL urls baseUrl abs.
  unfold Extract.convertToAbsolute, Extract.getBaseUrl.
  destruct (origin URL baseUrl) as [b|].
  - rewrite resolveAll_Ok. split.
    + intros E. exists b. auto.
    + intros [b' [E M]]. injection E as <-. exact M.
  - split; [discriminate|]. intros [b' [E _]]. discriminate.
Qed.

Lemma convertToAbsolute_all_or_nothing_witness :
  Extract.convertToAbsolute Samples.pathUrl ["/p/1"; "/p/2"]
    "https://shop.example/catalog"
  = Ok ["https://shop.example/p/1"; "https://shop.example/p/2"].
Proof.
  apply (proj2 (convertToAbsolute_all_or_nothing Samples.pathUrl ["/p/1"; "/p/2"]
                  "https://shop.example/catalog"
                  ["https://shop.example/p/1"; "https://shop.example/p/2"])).
  exists "https://shop.example". split; reflexivity.
Defined.

(** ** [recognizeBrand] *)

(** A string that starts with another includes it. *)
Lemma startsWith_includes (s p : string) :
  Js.startsWith s p = true -> Js.includes s p = true.
Proof.
  unfold Js.startsWith, Js.includes. intros P.
  apply prefix_correct in P.
  destruct (String.index 0 p s) eqn:I; [reflexivity|].
  destruct p as [|c p].
  - apply index_correct4 in I. lia.
  - exfalso. apply (index_correct3 0 0 _ _ I); [discriminate|lia|exact P].
Qed.

Section Brands.
Variable this : ProductScraper.

(** The first brand that passes a test is in the list and passes it. *)
Lemma firstBrand_Some (test : string -> string -> bool) (lower : string)
    (bs : list string) (b : string) :
  Extract.firstBrand test lower bs = Some b ->
  In b bs /\ test lower (Js.toLowerCase b) = true.
Proof.
  induction bs as [|x bs IH]; simpl; [discriminate|].
  destruct (test lower (Js.toLowerCase x)) eqn:E.
  - intros S. injection S as <-. auto.
  - intros S. destruct (IH S). auto.
Qed.

Lemma firstBrand_first (test : string -> string -> bool) (lower : string)
    (pre post : list string) (b : string) :
  (forall x, In x pre -> test lower (Js.toLowerCase x) = false) ->
  test lower (Js.toLowerCase b) = true ->
  Extract.firstBrand test lower (pre ++ b :: post) = Some b.
Proof.
  intros N Y. induction pre as [|x pre IH]; simpl.
  - now rewrite Y.
  - rewrite (N x (or_introl eq_refl)). apply IH. intros y I. apply N. now right.
Qed.

Lemma firstBrand_None (test : string -> string -> bool) (lower : string)
    (bs : list string) :
  (forall x, In x bs -> test lower (Js.toLowerCase x) = false) ->
  Extract.firstBrand test lower bs = None.
Proof.
  induction bs as [|x bs IH]; intros N; simpl; [reflexivity|].
  rewrite (N x (or_introl eq_refl)). apply IH. intros y I. apply N. now right.
Qed.

End Brands.

(** X10. [recognizeBrand] returns either the empty string or one of the
    configured brands, and a brand it returns occurs in the product name,
    letter case apart. *)
Theorem recognizeBrand_sound :
  forall (this : ProductScraper) (productName : string),
    Extract.recognizeBrand this productName = ""
    \/ (In (Extract.recognizeBrand this productName) (brands this)
        /\ Js.includes (Js.toLowerCase productName)
             (Js.toLowerCase (Extract.recognizeBrand this productName)) = true).
Proof.
  intros this productName. unfold Extract.recognizeBrand.
  destruct (Extract.firstBrand Js.startsWith _ (brands this)) as [b|] eqn:P.
  - right. apply firstBrand_Some in P. destruct P as [I S].
    split; [exact I|]. now apply startsWith_includes.
  - destruct (Extract.firstBrand Js.includes _ (brands this)) as [b|] eqn:I.
    + right. now apply firstBrand_Some in I.
    + now left.
Qed.

(** X11. The order of recognition: a brand the name starts with (letter
    case apart) wins over every brand that merely occurs in the name, also
    over one listed earlier; among the brands the name starts with, and,
    failing those, among the brands that occur in it, the first listed is
    returned; when no brand occurs in the name the result is the empty
    string. *)
Theorem recognizeBrand_priority :
  forall (this : ProductScraper) (productName : string)
         (pre post : list string) (b : string),
    brands this = (pre ++ b :: post)%list ->
    let lower := Js.toLowerCase productName in
    ((forall x, In x pre -> Js.startsWith lower (Js.toLowerCase x) = false) ->
     Js.startsWith lower (Js.toLowerCase b) = true ->
     Extract.recognizeBrand this productName = b)
    /\ ((forall x, In x (brands this) ->
                   Js.startsWith lower (Js.toLowerCase x) = false) ->
        (forall x, In x pre -> Js.includes lower (Js.toLowerCase x) = false) ->
        Js.includes lower (Js.toLowerCase b) = true ->
        Extract.recognizeBrand this productName = b)
    /\ ((forall x, In x (brands this) ->
                   Js.includes lower (Js.toLowerCase x) = false) ->
        Extract.recognizeBrand this productName = "").
Proof.
  intros this productName pre post b B lower. unfold Extract.recognizeBrand.
  fold lower. split; [|split].
  - intros N Y. rewrite B. now rewrite (firstBrand_first _ _ _ _ _ N Y).
  - intros NS N Y. rewrite (firstBrand_None _ _ _ NS).
    rewrite B. now rewrite (firstBrand_first _ _ _ _ _ N Y).
  - intros N.
    rewrite (firstBrand_None Js.startsWith).
    + now rewrite (firstBrand_None _ _ _ N).
    + intros x I. specialize (N x I).
      destruct (Js.startsWith lower (Js.toLowerCase x)) eqn:S; [|reflexivity].
      apply startsWith_includes in S. congruence.
Qed.

Lemma recognizeBrand_priority_witness :
  Extract.recognizeBrand Samples.brandShop "GREEN TEA Sencha" = "Green Tea"
  /\ Extract.recognizeBrand Samples.brandShop "Milk oolong" = "Oolong"
  /\ Extract.recognizeBrand Samples.brandShop "Coffee" = "".
Proof.
  split; [|split].
  - apply (proj1 (recognizeBrand_priority Samples.brandShop "GREEN TEA Sencha"
                    ["Tea"] ["Oolong"] "Green Tea" eq_refl)).
    + intros x [<-|[]]. reflexivity.
    + reflexivity.
  - apply (proj1 (proj2 (recognizeBrand_priority Samples.brandShop "Milk oolong"
                           ["Tea"; "Green Tea"] [] "Oolong" eq_refl))).
    + intros x [<-|[<-|[<-|[]]]]; reflexivity.
    + intros x [<-|[<-|[]]]; reflexivity.
    + reflexivity.
  - apply (proj2 (proj2 (recognizeBrand_priority Samples.brandShop "Coffee"
                           ["Tea"; "Green Tea"] [] "Oolong" eq_refl))).
    intros x [<-|[<-|[<-|[]]]]; reflexivity.
Defined.

(** ** [extractProductsBasicInfoFromList] *)

Section BasicInfoList.
Variable URL : UrlApi.
Variable this : ProductScraper.

Lemma zipBasicInfo_fields (names urls : list string) :
  List.length names = List.length urls ->
  map card_name (Extract.zipBasicInfo this names urls) = names
  /\ map card_url (Extract.zipBasicInfo this names urls) = urls
  /\ map card_brand (Extract.zipBasicInfo this names urls)
     = map (Extract.recognizeBrand this) names.
Proof.
  revert urls. induction names as [|n names IH]; intros [|u urls] L;
    try discriminate; simpl; [auto|].
  injection L as L. destruct (IH urls L) as [A [B C]].
  rewrite A, B, C. auto.
Qed.

(** The names a successful extraction returns are not empty. *)
Lemma extractProductNamesFromList_nonempty (dom : CheerioAPI) (names : list string) :
  Extract.extractProductNamesFromList this dom = Ok names -> names <> [].
Proof.
  unfold Extract.extractProductNamesFromList. intros E.
  unfold Extract.extractTextContents, Extract.emptySelection in E.
  destruct (dom _) as [|el els]; [discriminate|].
  injection E as <-. discriminate.
Qed.

End BasicInfoList.

(** X12. [extractProductsBasicInfoFromList] pairs the names and the links
    position by position: when both extractions succeed with as many links
    as names, the result has one object per name, in order, with that name,
    the link at the same position and the brand recognized in the name;
    with different numbers of names and links it throws. *)
Theorem extractProductsBasicInfoFromList_aligned :
  forall (URL : UrlApi) (this : ProductScraper) (dom : CheerioAPI)
         (names urls : list string),
    Extract.extractProductNamesFromList this dom = Ok names ->
    Extract.extractProductPageUrlsFromList URL this dom = Ok urls ->
    (List.length names = List.length urls ->
     exists cards,
       Extract.extractProductsBasicInfoFromList URL this dom = Ok cards
       /\ map card_name cards = names
       /\ map card_url cards = urls
       /\ map card_brand cards = map (Extract.recognizeBrand this) names)
    /\ (List.length names <> List.length urls ->
        Extract.extractProductsBasicInfoFromList URL this dom
        = Throw "Invalid selection: links number and names number are not equal").
Proof.
  intros URL this dom names urls N U.
  unfold Extract.extractProductsBasicInfoFromList. rewrite N, U. simpl andThen.
  split; intros L.
  - rewrite L, Nat.eqb_refl. simpl. eexists. split; [reflexivity|].
    now apply zipBasicInfo_fields.
  - apply Nat.eqb_neq in L. rewrite L. reflexivity.
Qed.

Lemma extractProductsBasicInfoFromList_aligned_witness :
  exists cards,
    Extract.extractProductsBasicInfoFromList Samples.pathUrl Samples.brandShop
      (Samples.listPage [("Green Tea Sencha", "Fresh"); ("Milk oolong", "Soft")])
    = Ok cards
    /\ map card_name cards = ["Green Tea Sencha"; "Milk oolong"]
    /\ map card_url cards
       = ["https://shop.example/p/Green Tea Sencha";
          "https://shop.example/p/Milk oolong"]
    /\ map card_brand cards
       = map (Extract.recognizeBrand Samples.brandShop)
           ["Green Tea Sencha"; "Milk oolong"].
Proof.
  apply (proj1 (extractProductsBasicInfoFromList_aligned Samples.pathUrl
                  Samples.brandShop
                  (Samples.listPage
                     [("Green Tea Sencha", "Fresh"); ("Milk oolong", "Soft")])
                  ["Green Tea Sencha"; "Milk oolong"]
                  ["https://shop.example/p/Green Tea Sencha";
                   "https://shop.example/p/Milk oolong"]
                  eq_refl eq_refl)).
  reflexivity.
Defined.

(** What the candidate gathering of [searchProduct] rests on: the callback
    never returns an empty array. *)
Lemma extractProductsBasicInfoFromList_nonempty (URL : UrlApi)
    (this : ProductScraper) (dom : CheerioAPI) (cards : list ProductCardData) :
  Extract.extractProductsBasicInfoFromList URL this dom = Ok cards -> cards <> [].
Proof.
  unfold Extract.extractProductsBasicInfoFromList.
  destruct (Extract.extractProductNamesFromList this dom) as [names|e] eqn:N;
    [|discriminate].
  apply extractProductNamesFromList_nonempty in N.
  destruct (Extract.extractProductPageUrlsFromList URL this dom) as [urls|e];
    [|discriminate].
  simpl. destruct (List.length names =? List.length urls)%nat eqn:L;
    [|discriminate].
  apply Nat.eqb_eq in L. simpl. intros E. injection E as <-.
  destruct names as [|n names]; [congruence|].
  destruct urls as [|u urls]; discriminate.
Qed.

(** A loop whose callback never returns an empty array returns, from a
    first page whose number is not NaN, a non-empty accumulator. *)
Lemma paginationLoop_nonempty (web : Web) (numberToString : float -> string)
    (T : Type) (V : JsValue T)
    (url : string) (start : float) (last : option float)
    (callback : CheerioAPI -> result (list T)) :
  (forall dom data, callback dom = Ok data -> data <> []) ->
  PrimFloat.eqb start start = true ->
  forall (fuel : nat) (pageNum : float) (acc : list T) (st : Store) out st',
    (acc <> [] \/ (pageNum = start /\ Constructor.inRange last pageNum = true)) ->
    Constructor.paginationLoop web numberToString
      fuel url start last callback pageNum acc st
    = Some (Ok out, st') ->
    out <> [].
Proof.
  intros NE NaN.
  induction fuel as [|fuel IH]; intros pageNum acc st out st' A; simpl.
  - destruct (Constructor.inRange last pageNum) eqn:R; [discriminate|].
    intros E. injection E as <- _. destruct A as [A|[_ A]]; congruence.
  - destruct (Constructor.inRange last pageNum) eqn:R.
    + unfold bind, Constructor.fetchCheerioAPI.
      destruct (web _) as [dom|]; [|discriminate].
      destruct (callback dom) as [data|e] eqn:C.
      * destruct (Constructor.pageReoccurs acc data) eqn:D.
        -- intros E. injection E as <- _. destruct A as [A|[_ _]]; [exact A|].
           intros ->. unfold Constructor.pageReoccurs in D.
           destruct (nth_error data 0); discriminate.
        -- apply IH. left. apply NE in C. destruct acc; [exact C|discriminate].
      * destruct (PrimFloat.eqb pageNum start) eqn:S; [discriminate|].
        intros E. injection E as <- _. destruct A as [A|[A _]]; [exact A|].
        subst pageNum. congruence.
    + intros E. injection E as <- _. destruct A as [A|[_ A]]; congruence.
Qed.

(** X13. The candidates [searchProduct] gathers are never an empty array:
    when the unbounded iteration with [extractProductsBasicInfoFromList] as
    callback returns, it returns at least one product (so the test
    [basicInfoList.length === 0] of [searchProduct] never holds). *)
Theorem gathered_candidates_nonempty :
  forall (URL : UrlApi) (web : Web)
         (numberToString : float -> string) (this : ProductScraper) (fuel : nat)
         (url : string) (st : Store) (basicInfoList : list ProductCardData) st',
    Constructor.iterateOverPagination web numberToString fuel
      {| Constructor.url := url; Constructor.first := None;
         Constructor.last := None |}
      (fun dom => Extract.extractProductsBasicInfoFromList URL this dom) st
    = Some (Ok basicInfoList, st') ->
    basicInfoList <> [].
Proof.
  intros URL web numberToString this fuel url st basicInfoList st'.
  unfold Constructor.iterateOverPagination. simpl.
  apply paginationLoop_nonempty.
  - intros dom data. apply extractProductsBasicInfoFromList_nonempty.
  - reflexivity.
  - right. split; reflexivity.
Qed.

Lemma gathered_candidates_nonempty_witness :
  [ {| card_name := "Assam"; card_brand := ""; card_url := "/p/Assam" |};
    {| card_name := "Ceylon"; card_brand := ""; card_url := "/p/Ceylon" |};
    {| card_name := "Darjeeling"; card_brand := ""; card_url := "/p/Darjeeling" |} ]
  <> [].
Proof.
  exact (gathered_candidates_nonempty Samples.noUrl Samples.teaSite
           Samples.numberToString Samples.shop 5
           "/c/tea?p=" initialStore _
           {| fetched := ["/c/tea?p=1"; "/c/tea?p=2"; "/c/tea?p=3"];
              fuseDefaults := FUSE_DEFAULT_OPTIONS |}
           eq_refl).
Defined.

(** * Further properties of the fuzzy matching *)

(** ** [normalize] *)

Lemma removePunctuation_chars (str : string) (c : ascii) :
  In c (list_ascii_of_string (FuseProduct.removePunctuation str)) ->
  In c (list_ascii_of_string str) /\ FuseProduct.isPunctuation c = false.
Proof.
  induction str as [|d str IH]; simpl; [tauto|].
  destruct (FuseProduct.isPunctuation d) eqn:P.
  - intros I. destruct (IH I). auto.
  - simpl. intros [<-|I]; [auto|]. destruct (IH I). auto.
Qed.

Lemma removePunctuation_clean (str : string) :
  (forall c, In c (list_ascii_of_string str) ->
             FuseProduct.isPunctuation c = false) ->
  FuseProduct.removePunctuation str = str.
Proof.
  induction str as [|d str IH]; intros N; simpl; [reflexivity|].
  rewrite (N d (or_introl eq_refl)). f_equal. apply IH.
  intros c I. apply N. now right.
Qed.

Lemma collapseSeparators_chars (str : string) (c : ascii) :
  forall inRun,
    In c (list_ascii_of_string (FuseProduct.collapseSeparators inRun str)) ->
    c = " "%char
    \/ (In c (list_ascii_of_string str) /\ FuseProduct.isSeparator c = false).
Proof.
  induction str as [|d str IH]; intros inRun; simpl; [tauto|].
  destruct (FuseProduct.isSeparator d) eqn:S.
  - destruct inRun; simpl.
    + intros I. destruct (IH _ I) as [E|[I' N]]; auto.
    + intros [<-|I]; [auto|]. destruct (IH _ I) as [E|[I' N]]; auto.
  - simpl. intros [<-|I]; [auto|]. destruct (IH _ I) as [E|[I' N]]; auto.
Qed.

Lemma collapseSeparators_collapsed (str : string) :
  forall inRun,
    FuseProduct.separatorsCollapsed inRun
      (FuseProduct.collapseSeparators inRun str) = true.
Proof.
  induction str as [|d str IH]; intros inRun; simpl; [reflexivity|].
  destruct (FuseProduct.isSeparator d) eqn:S.
  - destruct inRun; simpl; [apply IH|]. apply IH.
  - simpl. rewrite S. apply IH.
Qed.

Lemma collapseSeparators_fixed (str : string) :
  forall inRun,
    FuseProduct.separatorsCollapsed inRun str = true ->
    FuseProduct.collapseSeparators inRun str = str.
Proof.
  induction str as [|d str IH]; intros inRun; simpl; [reflexivity|].
  destruct (FuseProduct.isSeparator d) eqn:S.
  - intros C. apply andb_prop in C. destruct C as [C C3].
    apply andb_prop in C. destruct C as [C1 C2].
    destruct inRun; [discriminate|]. apply Ascii.eqb_eq in C2. subst d.
    f_equal. now apply IH.
  - intros C. f_equal. now apply IH.
Qed.

Lemma separatorsCollapsed_no_run (a b : string) :
  forall inRun,
    FuseProduct.separatorsCollapsed inRun (a ++ "  " ++ b) = false.
Proof.
  induction a as [|d a IH]; intros inRun; simpl.
  - destruct inRun; reflexivity.
  - destruct (FuseProduct.isSeparator d); rewrite IH;
      [apply andb_false_r|reflexivity].
Qed.

(** X14. What [normalize] returns contains none of the punctuation
    characters it strips, no separator other than the space and no two
    spaces in a row; and normalizing it again changes nothing. *)
Theorem normalize_normal_form :
  forall str : string,
    (forall c, In c (list_ascii_of_string (FuseProduct.normalize str)) ->
               FuseProduct.isPunctuation c = false
               /\ (FuseProduct.isSeparator c = true -> c = " "%char))
    /\ (forall a b, FuseProduct.normalize str <> a ++ "  " ++ b)
    /\ FuseProduct.normalize (FuseProduct.normalize str)
       = FuseProduct.normalize str.
Proof.
  intros str.
  assert (Ch : forall c,
             In c (list_ascii_of_string (FuseProduct.normalize str)) ->
             FuseProduct.isPunctuation c = false
             /\ (FuseProduct.isSeparator c = true -> c = " "%char)).
  { intros c I. unfold FuseProduct.normalize in I.
    apply collapseSeparators_chars in I. destruct I as [->|[I N]].
    - split; [reflexivity|auto].
    - apply removePunctuation_chars in I. split; [tauto|congruence]. }
  split; [exact Ch|]. split.
  - intros a b E.
    pose proof (collapseSeparators_collapsed
                  (FuseProduct.removePunctuation str) false) as C.
    fold (FuseProduct.normalize str) in C.
    rewrite E, separatorsCollapsed_no_run in C. discriminate.
  - unfold FuseProduct.normalize at 1.
    rewrite removePunctuation_clean by (intros c I; apply Ch, I).
    apply collapseSeparators_fixed. apply collapseSeparators_collapsed.
Qed.

Lemma normalize_normal_form_witness :
  FuseProduct.isPunctuation " " = false
  /\ (FuseProduct.isSeparator " " = true -> " "%char = " "%char).
Proof.
  apply (proj1 (normalize_normal_form "Foo-Bar /  (Baz)") " "%char).
  simpl. tauto.
Defined.

(** ** [fuseSearchProduct] *)

(** X15. The search by name and brand: when [basicInfo.brand] is a
    non-empty string and the query built from name and brand has hits,
    these hits are classified against the thresholds [fuseOptionsBrand];
    the search by name alone is not made, and a re-ranking after relevance
    2 uses the same query. *)
Theorem fuseSearchProduct_brand_search :
  forall (Fuse : FuseProduct.FuseEngine) (basicInfo : BasicInfo)
         (productNames : list string)
         (fuseOptionsBrand fuseOptionsBrandless : Thresholds)
         (options : FuseOptions) (b : string)
         (top : FuseProduct.FuseResult) (rest : list FuseProduct.FuseResult),
    let names := map FuseProduct.normalize productNames in
    let query :=
      FuseProduct.brandQuery (FuseProduct.normalize (name basicInfo))
        (FuseProduct.normalize b) in
    brand basicInfo = Some b ->
    Js.truthy_string b = true ->
    Fuse options names query = top :: rest ->
    exists r,
      FuseProduct.assessRelevance (top :: rest) fuseOptionsBrand = Ok r
      /\ FuseProduct.fuseSearchProduct Fuse basicInfo productNames
           fuseOptionsBrand fuseOptionsBrandless options
         = if r =? 2
           then (index <~ FuseProduct.firstRefIndex
                            (Fuse (set_fieldNormWeight options 0.5%float)
                               names query) ;;
                 Ok {| FuseProduct.index := index; FuseProduct.relevance := 2 |},
                 set_fieldNormWeight options 0.5%float)
           else (Ok {| FuseProduct.index := FuseProduct.refIndex top;
                       FuseProduct.relevance := r |}, options).
Proof.
  intros Fuse basicInfo productNames tB tBl options b top rest names query B T N.
  destruct (assessRelevance_defined top rest tB) as [r [A _]].
  exists r. split; [exact A|].
  unfold FuseProduct.fuseSearchProduct. fold names. rewrite B, T. fold query.
  rewrite N. simpl List.length. cbv beta iota. simpl Nat.eqb. cbv iota.
  rewrite A. destruct (r =? 2) eqn:R2; [|reflexivity].
  apply Z.eqb_eq in R2. subst r. reflexivity.
Qed.

Lemma fuseSearchProduct_brand_search_witness :
  exists r,
    FuseProduct.assessRelevance
      [Samples.scored 0 0.1%float; Samples.scored 1 0.1%float]
      Samples.thresholds019 = Ok r
    /\ FuseProduct.fuseSearchProduct Samples.normFuse Samples.fooBar
         ["Foo Bar Baz"; "Foo Bar"] Samples.thresholds019 Samples.thresholds019
         FUSE_DEFAULT_OPTIONS
       = if r =? 2
         then (index <~ FuseProduct.firstRefIndex
                          (Samples.normFuse
                             (set_fieldNormWeight FUSE_DEFAULT_OPTIONS 0.5%float)
                             ["Foo Bar Baz"; "Foo Bar"] " 'Foo 'Bar") ;;
               Ok {| FuseProduct.index := index; FuseProduct.relevance := 2 |},
               set_fieldNormWeight FUSE_DEFAULT_OPTIONS 0.5%float)
         else (Ok {| FuseProduct.index := 0; FuseProduct.relevance := r |},
               FUSE_DEFAULT_OPTIONS).
Proof.
  exact (fuseSearchProduct_brand_search Samples.normFuse Samples.fooBar
           ["Foo Bar Baz"; "Foo Bar"] Samples.thresholds019 Samples.thresholds019
           FUSE_DEFAULT_OPTIONS "Bar"
           (Samples.scored 0 0.1%float) [Samples.scored 1 0.1%float]
           eq_refl eq_refl eq_refl).
Defined.

(** X16. What a call of [fuseSearchProduct] that returns leaves behind:
    the relevance is one of 0, 1, 2, 3; the index is the [refIndex] of the
    first hit of a search over the normalized names; and the shared options
    object is left as found unless the relevance is 2, in which case its
    [fieldNormWeight] is now 0.5. *)
Theorem fuseSearchProduct_result :
  forall (Fuse : FuseProduct.FuseEngine) (basicInfo : BasicInfo)
         (productNames : list string)
         (fuseOptionsBrand fuseOptionsBrandless : Thresholds)
         (options options' : FuseOptions) (found : FuseProduct.FuseMatch),
    FuseProduct.fuseSearchProduct Fuse basicInfo productNames
      fuseOptionsBrand fuseOptionsBrandless options
    = (Ok found, options') ->
    0 <= FuseProduct.relevance found <= 3
    /\ (exists o query top rest,
           Fuse o (map FuseProduct.normalize productNames) query = top :: rest
           /\ FuseProduct.index found = FuseProduct.refIndex top)
    /\ options'
       = if FuseProduct.relevance found =? 2
         then set_fieldNormWeight options 0.5%float
         else options.
Proof.
  intros Fuse basicInfo productNames tB tBl options options' found.
  unfold FuseProduct.fuseSearchProduct.
  set (names := map FuseProduct.normalize productNames).
  assert (Tail : forall (q : string) (res : list FuseProduct.FuseResult)
                        (t : Thresholds),
             (exists o, Fuse o names q = res) ->
             match FuseProduct.assessRelevance res t with
             | Ok relevance =>
                 if relevance =? 2
                 then (index <~ FuseProduct.firstRefIndex
                                  (Fuse (set_fieldNormWeight options 0.5%float)
                                     names q) ;;
                       Ok {| FuseProduct.index := index;
                             FuseProduct.relevance := relevance |},
                       set_fieldNormWeight options 0.5%float)
                 else (index <~ FuseProduct.firstRefIndex res ;;
                       Ok {| FuseProduct.index := index;
                             FuseProduct.relevance := relevance |}, options)
             | Throw e => (Throw e, options)
             end = (Ok found, options') ->
             0 <= FuseProduct.relevance found <= 3
             /\ (exists o query top rest,
                    Fuse o names query = top :: rest
                    /\ FuseProduct.index found = FuseProduct.refIndex top)
             /\ options'
                = if FuseProduct.relevance found =? 2
                  then set_fieldNormWeight options 0.5%float
                  else options).
  { intros q res t [o Eo].
    destruct res as [|top rest]; [discriminate|].
    destruct (assessRelevance_defined top rest t) as [r [A B]]. rewrite A.
    destruct (r =? 2) eqn:R2.
    - destruct (Fuse (set_fieldNormWeight options 0.5%float) names q)
        as [|top' rest'] eqn:Re; [discriminate|].
      simpl. intros E. injection E as <- <-. simpl. rewrite R2.
      split; [lia|]. split; [|reflexivity]. eauto 6.
    - simpl. intros E. injection E as <- <-. simpl. rewrite R2.
      split; [lia|]. split; [|reflexivity]. eauto 6. }
  assert (ByName :
            (if (List.length
                   (Fuse options names (FuseProduct.normalize (name basicInfo)))
                 =? 0)%nat
             then Throw (FuseProduct.cannotFind basicInfo)
             else Ok (FuseProduct.normalize (name basicInfo),
                      Fuse options names (FuseProduct.normalize (name basicInfo)),
                      tBl))
            = Throw (FuseProduct.cannotFind basicInfo)
            \/ (if (List.length
                      (Fuse options names (FuseProduct.normalize (name basicInfo)))
                    =? 0)%nat
                then Throw (FuseProduct.cannotFind basicInfo)
                else Ok (FuseProduct.normalize (name basicInfo),
                         Fuse options names
                           (FuseProduct.normalize (name basicInfo)),
                         tBl))
               = Ok (FuseProduct.normalize (name basicInfo),
                     Fuse options names (FuseProduct.normalize (name basicInfo)),
                     tBl))
    by (destruct (List.length _ =? 0)%nat; auto).
  destruct (brand basicInfo) as [b|]; [destruct (Js.truthy_string b)|].
  - cbv beta iota zeta.
    destruct (List.length (Fuse options names
                             (FuseProduct.brandQuery
                                (FuseProduct.normalize (name basicInfo))
                                (FuseProduct.normalize b))) =? 0)%nat.
    + destruct ByName as [-> | ->]; [discriminate|]. apply Tail. eauto.
    + apply Tail. eauto.
  - cbv beta iota zeta. simpl List.length. simpl Nat.eqb. cbv iota.
    destruct ByName as [-> | ->]; [discriminate|]. apply Tail. eauto.
  - cbv beta iota zeta. simpl List.length. simpl Nat.eqb. cbv iota.
    destruct ByName as [-> | ->]; [discriminate|]. apply Tail. eauto.
Qed.

Lemma fuseSearchProduct_result_witness :
  0 <= 2 <= 3
  /\ (exists o query top rest,
         Samples.normFuse o (map FuseProduct.normalize ["Foo Bar Baz"; "Foo Bar"])
           query = top :: rest
         /\ 1 = FuseProduct.refIndex top)
  /\ set_fieldNormWeight FUSE_DEFAULT_OPTIONS 0.5%float
     = if 2 =? 2
       then set_fieldNormWeight FUSE_DEFAULT_OPTIONS 0.5%float
       else FUSE_DEFAULT_OPTIONS.
Proof.
  exact (fuseSearchProduct_result Samples.normFuse Samples.foo
           ["Foo Bar Baz"; "Foo Bar"] Samples.thresholds019 Samples.thresholds019
           FUSE_DEFAULT_OPTIONS (set_fieldNormWeight FUSE_DEFAULT_OPTIONS 0.5%float)
           {| FuseProduct.index := 1; FuseProduct.relevance := 2 |}
           eq_refl).
Defined.

(** * Further properties of the card filter *)

Section CardFilterMore.
Context {T : Type}.

(** A filter by index keeps a subsequence: the cards at the positions of a
    mask. *)
Lemma filterFrom_mask (f : T -> nat -> bool) (data : list T) :
  forall i, exists keep : list bool,
    List.length keep = List.length data
    /\ Filter.filterFrom f i data = map fst (filter snd (combine data keep)).
Proof.
  induction data as [|x data IH]; intros i; simpl.
  - exists []. auto.
  - destruct (IH (S i)) as [keep [L E]].
    exists (f x i :: keep). simpl. rewrite L. split; [reflexivity|].
    destruct (f x i); simpl; now rewrite E.
Qed.

(** A filter whose test has the same answer at every index keeps all the
    cards or none. *)
Lemma filterFrom_constant (f : T -> nat -> bool) (b : bool) (data : list T) :
  (forall x i, f x i = b) ->
  forall i, Filter.filterFrom f i data = if b then data else [].
Proof.
  intros C. induction data as [|x data IH]; intros i; simpl.
  - destruct b; reflexivity.
  - rewrite C, IH. destruct b; reflexivity.
Qed.

End CardFilterMore.

(** X17. Without placeholders (or selectors) for both images and
    descriptions, every card has the signal (false, false):
    [filterProductCardsFromPage] then returns all the cards the callback
    extracted when the predicate accepts (false, false), and none
    otherwise; no image or description is extracted. *)
Theorem filterProductCardsFromPage_unconfigured :
  forall (URL : UrlApi) (this : ProductScraper) (T : Type) (dom : CheerioAPI)
         (callback : CheerioAPI -> result (list T))
         (filterFunction : bool -> bool -> bool) (data : list T),
    Filter.imagesConfigured this = false ->
    Filter.descriptionsConfigured this = false ->
    callback dom = Ok data ->
    Filter.filterProductCardsFromPage URL this dom callback filterFunction
    = Ok (if filterFunction false false then data else []).
Proof.
  intros URL this T dom callback filterFunction data I D C.
  unfold Filter.filterProductCardsFromPage. rewrite C. simpl andThen.
  fold (Filter.imagesConfigured this) (Filter.descriptionsConfigured this).
  rewrite I, D. simpl andThen. f_equal.
  apply filterFrom_constant. intros x i.
  unfold Js.arrayFill. now rewrite nth_repeat.
Qed.

Lemma filterProductCardsFromPage_unconfigured_witness :
  Filter.filterProductCardsFromPage Samples.noUrl Samples.shop
    (Samples.listPage [("Assam", "Malty"); ("Ceylon", "Brisk")])
    (Extract.extractProductNamesFromList Samples.shop)
    (fun imgExist _ => negb imgExist)
  = Ok ["Assam"; "Ceylon"].
Proof.
  exact (filterProductCardsFromPage_unconfigured Samples.noUrl Samples.shop string
           (Samples.listPage [("Assam", "Malty"); ("Ceylon", "Brisk")])
           (Extract.extractProductNamesFromList Samples.shop)
           (fun imgExist _ => negb imgExist) ["Assam"; "Ceylon"]
           eq_refl eq_refl eq_refl).
Defined.

(** X18. The pairing check. When images are configured and as many image
    URLs are not extracted as there are cards, [filterProductCardsFromPage]
    throws, whatever the predicate; and when the images pass (or are not
    configured), the same holds for the descriptions. *)
Theorem filterProductCardsFromPage_length_mismatch :
  forall (URL : UrlApi) (this : ProductScraper) (T : Type) (dom : CheerioAPI)
         (callback : CheerioAPI -> result (list T))
         (filterFunction : bool -> bool -> bool)
         (data : list T) (vals : list string),
    callback dom = Ok data ->
    List.length vals <> List.length data ->
    (Filter.imagesConfigured this = true ->
     Extract.extractProductImageUrlsFromList URL this dom = Ok vals ->
     Filter.filterProductCardsFromPage URL this dom callback filterFunction
     = Throw "Invalid selection: images number and product cards number are not equal")
    /\ (Filter.descriptionsConfigured this = true ->
        Extract.extractProductDescriptionsFromList this dom = Ok vals ->
        (Filter.imagesConfigured this = false
         \/ exists imageUrls,
              Extract.extractProductImageUrlsFromList URL this dom = Ok imageUrls
              /\ List.length imageUrls = List.length data) ->
        Filter.filterProductCardsFromPage URL this dom callback filterFunction
        = Throw "Invalid selection: descriptions number and product cards number are not equal").
Proof.
  intros URL this T dom callback filterFunction data vals C L.
  apply Nat.eqb_neq in L.
  unfold Filter.filterProductCardsFromPage. rewrite C. simpl andThen.
  fold (Filter.imagesConfigured this) (Filter.descriptionsConfigured this).
  split.
  - intros I E. rewrite I, E. simpl andThen. rewrite L. reflexivity.
  - intros D E Im. rewrite D, E.
    destruct Im as [I | [imageUrls [Ei Li]]].
    + rewrite I. simpl andThen. rewrite L. reflexivity.
    + rewrite Ei. destruct (Filter.imagesConfigured this); simpl andThen.
      * rewrite Li, Nat.eqb_refl. simpl. rewrite L. reflexivity.
      * rewrite L. reflexivity.
Qed.

(** X19. [filterProductCardsFromPage] never invents, repeats or reorders
    cards: what it returns is what the callback extracted, restricted to
    the positions of a mask. *)
Theorem filterProductCardsFromPage_subsequence :
  forall (URL : UrlApi) (this : ProductScraper) (T : Type) (dom : CheerioAPI)
         (callback : CheerioAPI -> result (list T))
         (filterFunction : bool -> bool -> bool) (cards : list T),
    Filter.filterProductCardsFromPage URL this dom callback filterFunction
    = Ok cards ->
    exists (data : list T) (keep : list bool),
      callback dom = Ok data
      /\ List.length keep = List.length data
      /\ cards = map fst (filter snd (combine data keep)).
Proof.
  intros URL this T dom callback filterFunction cards.
  unfold Filter.filterProductCardsFromPage.
  destruct (callback dom) as [data|e]; [|discriminate]. simpl andThen.
  destruct (if _ && _ then _ else _) as [imgExist|e]; [|discriminate].
  simpl andThen.
  destruct (if _ && _ then _ else _) as [desExist|e]; [|discriminate].
  simpl andThen. intros E. injection E as <-.
  destruct (filterFrom_mask
              (fun (_ : T) i => filterFunction (nth i imgExist false)
                                               (nth i desExist false))
              data 0%nat) as [keep [L E]].
  exists data, keep. auto.
Qed.

Lemma filterProductCardsFromPage_length_mismatch_witness :
  Filter.filterProductCardsFromPage Samples.noUrl Samples.exampleShop
    Samples.lopsidedPage
    (Extract.extractProductPageUrlsFromList Samples.noUrl Samples.exampleShop)
    (fun _ _ => true)
  = Throw "Invalid selection: images number and product cards number are not equal"
  /\ Filter.filterProductCardsFromPage Samples.noUrl Samples.exampleShopNoImages
       Samples.lopsidedPage
       (Extract.extractProductPageUrlsFromList Samples.noUrl
          Samples.exampleShopNoImages)
       (fun _ _ => true)
     = Throw "Invalid selection: descriptions number and product cards number are not equal".
Proof.
  split.
  - apply (proj1 (filterProductCardsFromPage_length_mismatch Samples.noUrl
                    Samples.exampleShop string Samples.lopsidedPage
                    (Extract.extractProductPageUrlsFromList Samples.noUrl
                       Samples.exampleShop)
                    (fun _ _ => true) ["first-url"; "second-url"]
                    ["first-image-url"] eq_refl ltac:(discriminate)));
      reflexivity.
  - apply (proj2 (filterProductCardsFromPage_length_mismatch Samples.noUrl
                    Samples.exampleShopNoImages string Samples.lopsidedPage
                    (Extract.extractProductPageUrlsFromList Samples.noUrl
                       Samples.exampleShopNoImages)
                    (fun _ _ => true) ["first-url"; "second-url"]
                    ["One"; "Two"; "Three"] eq_refl ltac:(discriminate)));
      [reflexivity | reflexivity | left; reflexivity].
Defined.

Lemma filterProductCardsFromPage_subsequence_witness :
  exists (data : list string) (keep : list bool),
    Extract.extractProductPageUrlsFromList Samples.noUrl Samples.exampleShop
      Samples.examplePage = Ok data
    /\ List.length keep = List.length data
    /\ ["second-url"; "fourth-url"] = map fst (filter snd (combine data keep)).
Proof.
  exact (filterProductCardsFromPage_subsequence Samples.noUrl Samples.exampleShop
           string Samples.examplePage
           (Extract.extractProductPageUrlsFromList Samples.noUrl
              Samples.exampleShop)
           (fun x _ => negb x) ["second-url"; "fourth-url"] eq_refl).
Defined.

(** X20. The pages [filterProductCardsFromCatalog] and
    [filterProductCardsFromSearch] fetch: consecutive pages from page 1
    (page 1, then the page numbers [pageNum++] makes of it, in this order)
    of [catalog[0] + criteria + catalog[1]], respectively
    [search[0] + query + search[1]], and nothing else. *)
Theorem filterProductCardsFrom_pages :
  forall (URL : UrlApi) (web : Web)
         (numberToString : float -> string) (this : ProductScraper) (T : Type)
         (V : JsValue T) (fuel : nat) (criteria : string)
         (callback : CheerioAPI -> result (list T))
         (filterFunction : bool -> bool -> bool) (st : Store) r st',
    (Filter.filterProductCardsFromCatalog URL web numberToString
      this fuel criteria callback
       filterFunction st = Some (r, st') ->
     exists k,
       fetched st'
       = (fetched st
          ++ map (fun i => ((Js.indexForConcat (catalog (paginations this)) 0
                             ++ criteria
                             ++ Js.indexForConcat (catalog (paginations this)) 1)
                            ++ numberToString (Constructor.pageAfter 1 i))%string)
               (seq 0 k))%list)
    /\ (Filter.filterProductCardsFromSearch URL web numberToString
      this fuel criteria callback
          filterFunction st = Some (r, st') ->
        exists k,
          fetched st'
          = (fetched st
             ++ map (fun i => ((Js.indexForConcat (search (paginations this)) 0
                                ++ criteria
                                ++ Js.indexForConcat (search (paginations this)) 1)
                               ++ numberToString
                                    (Constructor.pageAfter 1 i))%string)
                  (seq 0 k))%list).
Proof.
  intros URL web numberToString this T V fuel criteria callback filterFunction st r st'.
  unfold Filter.filterProductCardsFromCatalog, Filter.filterProductCardsFromSearch,
    Filter.filterProductCardsFromPagination.
  split; intros E; rewrite iterateOverPagination_loop in E;
    apply loop_trace in E; destruct E as [k [_ [F _]]]; exists k; exact F.
Qed.

Lemma filterProductCardsFrom_pages_witness :
  exists k,
    ["/c/tea?p=1"; "/c/tea?p=2"; "/c/tea?p=3"]
    = ([] ++ map (fun i => (("/c/" ++ "tea" ++ "?p=")
                            ++ Samples.numberToString
                                 (Constructor.pageAfter 1 i))%string)
               (seq 0 k))%list.
Proof.
  exact (proj1 (filterProductCardsFrom_pages Samples.noUrl Samples.teaSite
                  Samples.numberToString Samples.shop string _ 5 "tea"
                  (Extract.extractProductNamesFromList Samples.shop)
                  (fun _ _ => true) initialStore
                  (Ok ["Assam"; "Ceylon"; "Darjeeling"])
                  {| fetched := ["/c/tea?p=1"; "/c/tea?p=2"; "/c/tea?p=3"];
                     fuseDefaults := FUSE_DEFAULT_OPTIONS |})
           eq_refl).
Defined.

(** * Further properties of the product resolution *)

Section Resolution.
Variable URL : UrlApi.
Variable web : Web.
Variable numberToString : float -> string.
Variable Fuse : FuseProduct.FuseEngine.
Variable this : ProductScraper.

Let searchPagination (nameSubstr : string) : Constructor.Pagination :=
  {| Constructor.url :=
       Js.indexForConcat (search (paginations this)) 0 ++ nameSubstr
       ++ Js.indexForConcat (search (paginations this)) 1;
     Constructor.first := None; Constructor.last := None |}.

(** The stages of [searchByName], once the narrowing and the gathering
    have returned. *)
Lemma searchByName_stages (fuel : nat) (basicInfo : BasicInfo) (st st1 st2 : Store)
    (nameSubstr : string) (basicInfoList : list ProductCardData) :
  Search.getOptimalForSearchSubstring web this (name basicInfo) st
  = Some (Ok nameSubstr, st1) ->
  Constructor.iterateOverPagination web numberToString
    fuel (searchPagination nameSubstr)
    (fun dom => Extract.extractProductsBasicInfoFromList URL this dom) st1
  = Some (Ok basicInfoList, st2) ->
  Search.searchByName URL web numberToString Fuse this fuel basicInfo st
  = Some (match fst (FuseProduct.fuseSearchProduct Fuse basicInfo
                       (map card_name basicInfoList) (fuseOptionsBrand this)
                       (fuseOptionsBrandless this) (fuseDefaults st2)) with
          | Throw e => Throw e
          | Ok found =>
              if FuseProduct.relevance found =? 0
              then Throw "No products close enough were found"
              else Search.urlAt basicInfoList (FuseProduct.index found)
          end,
          {| fetched := fetched st2;
             fuseDefaults :=
               snd (FuseProduct.fuseSearchProduct Fuse basicInfo
                      (map card_name basicInfoList) (fuseOptionsBrand this)
                      (fuseOptionsBrandless this) (fuseDefaults st2)) |}).
Proof.
  intros N G. unfold Search.searchByName, bind. rewrite N.
  fold (searchPagination nameSubstr). rewrite G.
  assert (NE : basicInfoList <> []).
  { revert G. unfold Constructor.iterateOverPagination. simpl.
    apply paginationLoop_nonempty.
    - intros dom data. apply extractProductsBasicInfoFromList_nonempty.
    - reflexivity.
    - right. split; reflexivity. }
  assert (L : (List.length basicInfoList =? 0)%nat = false)
    by (destruct basicInfoList; [congruence|reflexivity]).
  rewrite L. unfold Search.callFuseSearchProduct.
  destruct (FuseProduct.fuseSearchProduct Fuse basicInfo _ _ _ _) as [[found|e] o];
    simpl; [|reflexivity].
  destruct (FuseProduct.relevance found =? 0); reflexivity.
Qed.

End Resolution.

(** X21. Where a resolved URL comes from: when [searchProduct] returns a
    URL, it is either the non-empty [basicInfo.url], and then nothing was
    fetched, or the link of the product, among those gathered from the
    search result pages of the narrowed name, at the index Fuse.js chose,
    its relevance not being 0. *)
Theorem searchProduct_resolved_url :
  forall (URL : UrlApi) (web : Web)
         (numberToString : float -> string) (Fuse : FuseProduct.FuseEngine)
         (this : ProductScraper) (fuel : nat) (basicInfo : BasicInfo)
         (st : Store) (u : string) (st' : Store),
    Search.searchProduct URL web numberToString
      Fuse this fuel basicInfo st = Some (Ok u, st') ->
    (url basicInfo = Some u /\ Js.truthy_string u = true /\ st' = st)
    \/ (truthy_property (url basicInfo) = false
        /\ exists nameSubstr st1 basicInfoList st2 found card,
             Search.getOptimalForSearchSubstring web this (name basicInfo) st
             = Some (Ok nameSubstr, st1)
             /\ Constructor.iterateOverPagination web numberToString fuel
                  {| Constructor.url :=
                       Js.indexForConcat (search (paginations this)) 0
                       ++ nameSubstr
                       ++ Js.indexForConcat (search (paginations this)) 1;
                     Constructor.first := None; Constructor.last := None |}
                  (fun dom => Extract.extractProductsBasicInfoFromList URL this dom)
                  st1
                = Some (Ok basicInfoList, st2)
             /\ fst (FuseProduct.fuseSearchProduct Fuse basicInfo
                       (map card_name basicInfoList) (fuseOptionsBrand this)
                       (fuseOptionsBrandless this) (fuseDefaults st2))
                = Ok found
             /\ FuseProduct.relevance found <> 0
             /\ nth_error basicInfoList (Z.to_nat (FuseProduct.index found))
                = Some card
             /\ card_url card = u
             /\ fetched st' = fetched st2).
Proof.
  intros URL web numberToString Fuse this fuel basicInfo st u st'.
  unfold Search.searchProduct.
  assert (ByName :
            truthy_property (url basicInfo) = false ->
            Search.searchByName URL web numberToString Fuse this fuel basicInfo st
            = Some (Ok u, st') ->
            exists nameSubstr st1 basicInfoList st2 found card,
              Search.getOptimalForSearchSubstring web this (name basicInfo) st
              = Some (Ok nameSubstr, st1)
              /\ Constructor.iterateOverPagination web numberToString fuel
                   {| Constructor.url :=
                        Js.indexForConcat (search (paginations this)) 0
                        ++ nameSubstr
                        ++ Js.indexForConcat (search (paginations this)) 1;
                      Constructor.first := None; Constructor.last := None |}
                   (fun dom =>
                      Extract.extractProductsBasicInfoFromList URL this dom)
                   st1
                 = Some (Ok basicInfoList, st2)
              /\ fst (FuseProduct.fuseSearchProduct Fuse basicInfo
                        (map card_name basicInfoList) (fuseOptionsBrand this)
                        (fuseOptionsBrandless this) (fuseDefaults st2))
                 = Ok found
              /\ FuseProduct.relevance found <> 0
              /\ nth_error basicInfoList (Z.to_nat (FuseProduct.index found))
                 = Some card
              /\ card_url card = u
              /\ fetched st' = fetched st2).
  { intros _ E.
    destruct (Search.getOptimalForSearchSubstring web this (name basicInfo) st)
      as [[[nameSubstr|e] st1]|] eqn:N;
      try (unfold Search.searchByName, bind in E; rewrite N in E; discriminate).
    destruct (Constructor.iterateOverPagination web numberToString fuel
                {| Constructor.url :=
                     Js.indexForConcat (search (paginations this)) 0
                     ++ nameSubstr
                     ++ Js.indexForConcat (search (paginations this)) 1;
                   Constructor.first := None; Constructor.last := None |}
                (fun dom => Extract.extractProductsBasicInfoFromList URL this dom)
                st1)
      as [[[basicInfoList|e] st2]|] eqn:G;
      try (unfold Search.searchByName, bind in E; rewrite N, G in E; discriminate).
    rewrite (searchByName_stages URL web numberToString
      Fuse this fuel basicInfo st st1 st2
               nameSubstr basicInfoList N G) in E.
    destruct (fst (FuseProduct.fuseSearchProduct Fuse basicInfo _ _ _ _))
      as [found|e] eqn:F; [|discriminate].
    destruct (FuseProduct.relevance found =? 0) eqn:R0; [discriminate|].
    apply Z.eqb_neq in R0. unfold Search.urlAt in E.
    destruct (FuseProduct.index found <? 0); [discriminate|].
    destruct (nth_error basicInfoList (Z.to_nat (FuseProduct.index found)))
      as [card|] eqn:Nth; [|discriminate].
    injection E as <- <-.
    exists nameSubstr, st1, basicInfoList, st2, found, card. auto 10. }
  destruct (url basicInfo) as [u'|] eqn:U.
  - destruct (Js.truthy_string u') eqn:Tr.
    + intros E. injection E as <- <-. left. auto.
    + intros E. right. split; [exact Tr|]. apply ByName; auto.
  - intros E. right. split; [reflexivity|]. apply ByName; auto.
Qed.

Lemma searchProduct_resolved_url_witness :
  (url Samples.assam = Some "/p/Assam" /\ Js.truthy_string "/p/Assam" = true
   /\ {| fetched := ["/s/Assam"; "/s/Assam?p=1"; "/s/Assam?p=2"];
         fuseDefaults := FUSE_DEFAULT_OPTIONS |} = initialStore)
  \/ (truthy_property (url Samples.assam) = false
      /\ exists nameSubstr st1 basicInfoList st2 found card,
           Search.getOptimalForSearchSubstring Samples.assamSite Samples.shop
             (name Samples.assam) initialStore
           = Some (Ok nameSubstr, st1)
           /\ Constructor.iterateOverPagination Samples.assamSite Samples.numberToString
             5
                {| Constructor.url :=
                     Js.indexForConcat (search (paginations Samples.shop)) 0
                     ++ nameSubstr
                     ++ Js.indexForConcat (search (paginations Samples.shop)) 1;
                   Constructor.first := None; Constructor.last := None |}
                (fun dom =>
                   Extract.extractProductsBasicInfoFromList Samples.noUrl
                     Samples.shop dom)
                st1
              = Some (Ok basicInfoList, st2)
           /\ fst (FuseProduct.fuseSearchProduct Samples.nameOnlyFuse Samples.assam
                     (map card_name basicInfoList) (fuseOptionsBrand Samples.shop)
                     (fuseOptionsBrandless Samples.shop) (fuseDefaults st2))
              = Ok found
           /\ FuseProduct.relevance found <> 0
           /\ nth_error basicInfoList (Z.to_nat (FuseProduct.index found))
              = Some card
           /\ card_url card = "/p/Assam"
           /\ ["/s/Assam"; "/s/Assam?p=1"; "/s/Assam?p=2"] = fetched st2).
Proof.
  exact (searchProduct_resolved_url Samples.noUrl Samples.assamSite
           Samples.numberToString
             Samples.nameOnlyFuse Samples.shop 5 Samples.assam initialStore
           "/p/Assam"
           {| fetched := ["/s/Assam"; "/s/Assam?p=1"; "/s/Assam?p=2"];
              fuseDefaults := FUSE_DEFAULT_OPTIONS |}
           eq_refl).
Defined.

(** X22. Once the candidates are gathered (the name narrowed, the result
    pages iterated), the outcome of [searchProduct] is decided by Fuse.js:
    an exception of [fuseSearchProduct] is rethrown, relevance 0 rejects
    with "No products close enough were found", and any other relevance
    returns the link at the chosen index (a [TypeError] if there is none).
    The rejection "Search engine on the website does not work" does not
    arise. The shared options are left as [fuseSearchProduct] left them. *)
Theorem searchProduct_outcome :
  forall (URL : UrlApi) (web : Web)
         (numberToString : float -> string) (Fuse : FuseProduct.FuseEngine)
         (this : ProductScraper) (fuel : nat) (basicInfo : BasicInfo)
         (st st1 st2 : Store) (nameSubstr : string)
         (basicInfoList : list ProductCardData),
    truthy_property (url basicInfo) = false ->
    Search.getOptimalForSearchSubstring web this (name basicInfo) st
    = Some (Ok nameSubstr, st1) ->
    Constructor.iterateOverPagination web numberToString fuel
      {| Constructor.url :=
           Js.indexForConcat (search (paginations this)) 0 ++ nameSubstr
           ++ Js.indexForConcat (search (paginations this)) 1;
         Constructor.first := None; Constructor.last := None |}
      (fun dom => Extract.extractProductsBasicInfoFromList URL this dom) st1
    = Some (Ok basicInfoList, st2) ->
    Search.searchProduct URL web numberToString Fuse this fuel basicInfo st
    = Some (match fst (FuseProduct.fuseSearchProduct Fuse basicInfo
                         (map card_name basicInfoList) (fuseOptionsBrand this)
                         (fuseOptionsBrandless this) (fuseDefaults st2)) with
            | Throw e => Throw e
            | Ok found =>
                if FuseProduct.relevance found =? 0
                then Throw "No products close enough were found"
                else Search.urlAt basicInfoList (FuseProduct.index found)
            end,
            {| fetched := fetched st2;
               fuseDefaults :=
                 snd (FuseProduct.fuseSearchProduct Fuse basicInfo
                        (map card_name basicInfoList) (fuseOptionsBrand this)
                        (fuseOptionsBrandless this) (fuseDefaults st2)) |}).
Proof.
  intros URL web numberToString
    Fuse this fuel basicInfo st st1 st2 nameSubstr basicInfoList
         U N G.
  unfold Search.searchProduct.
  rewrite <- (searchByName_stages URL web numberToString
    Fuse this fuel basicInfo st st1 st2
                nameSubstr basicInfoList N G).
  unfold truthy_property in U. destruct (url basicInfo) as [u|]; [|reflexivity].
  now rewrite U.
Qed.

Lemma searchProduct_outcome_witness :
  Search.searchProduct Samples.noUrl Samples.assamSite Samples.numberToString
    Samples.noFuse Samples.shop 5
    Samples.assam initialStore
  = Some (Throw "Fuse.js cannot find Assam",
          {| fetched := ["/s/Assam"; "/s/Assam?p=1"; "/s/Assam?p=2"];
             fuseDefaults := FUSE_DEFAULT_OPTIONS |}).
Proof.
  exact (searchProduct_outcome Samples.noUrl Samples.assamSite
           Samples.numberToString Samples.noFuse
           Samples.shop 5 Samples.assam initialStore
           {| fetched := ["/s/Assam"]; fuseDefaults := FUSE_DEFAULT_OPTIONS |}
           {| fetched := ["/s/Assam"; "/s/Assam?p=1"; "/s/Assam?p=2"];
              fuseDefaults := FUSE_DEFAULT_OPTIONS |}
           "Assam"
           [ {| card_name := "Assam"; card_brand := ""; card_url := "/p/Assam" |};
             {| card_name := "Assam Gold"; card_brand := "";
                card_url := "/p/Assam Gold" |} ]
           eq_refl eq_refl eq_refl).
Defined.

(** * Product pages *)

Lemma append_assoc (a b c : string) : (a ++ b) ++ c = a ++ b ++ c.
Proof. induction a as [|x a IH]; simpl; [reflexivity|]. now rewrite IH. Qed.

Lemma append_nil_r (a : string) : a ++ "" = a.
Proof. induction a as [|x a IH]; simpl; [reflexivity|]. now rewrite IH. Qed.

(** A run of characters that satisfy [p] is taken whole. *)
Lemma span_run (p : ascii -> bool) (run rest : string) :
  Forall (fun c => p c = true) (list_ascii_of_string run) ->
  Extract.span p (run ++ rest)
  = (run ++ fst (Extract.span p rest), snd (Extract.span p rest)).
Proof.
  induction run as [|c run IH]; simpl; intros F.
  - now destruct (Extract.span p rest).
  - inversion F as [|? ? Pc F']; subst. rewrite Pc, (IH F'). reflexivity.
Qed.

(** A string that does not start with a character satisfying [p] has an
    empty run. *)
Lemma span_stop (p : ascii -> bool) (s : string) :
  match s with String c _ => p c = false | EmptyString => True end ->
  Extract.span p s = (EmptyString, s).
Proof.
  destruct s as [|c s]; simpl; [reflexivity|]. now intros ->.
Qed.

Lemma removeFirstWord_word (leading word gap tail : string) :
  Forall (fun c => Js.isSpace c = true) (list_ascii_of_string leading) ->
  word <> "" ->
  Forall (fun c => Js.isSpace c = false) (list_ascii_of_string word) ->
  gap <> "" ->
  Forall (fun c => Js.isSpace c = true) (list_ascii_of_string gap) ->
  match tail with String c _ => Js.isSpace c = false | EmptyString => True end ->
  Extract.removeFirstWord (leading ++ word ++ gap ++ tail) = leading ++ tail.
Proof.
  intros Fl Nw Fw Ng Fg Ht. unfold Extract.removeFirstWord.
  rewrite (span_run _ _ _ Fl).
  assert (Sw : Extract.span Js.isSpace (word ++ gap ++ tail)
               = (EmptyString, word ++ gap ++ tail)).
  { apply span_stop. destruct word as [|c word]; [congruence|].
    simpl. now inversion Fw. }
  rewrite Sw. simpl fst. simpl snd. rewrite append_nil_r.
  assert (Fw' : Forall (fun c => negb (Js.isSpace c) = true)
                  (list_ascii_of_string word)).
  { eapply Forall_impl; [|exact Fw]. intros c E. simpl in E. now rewrite E. }
  rewrite (span_run _ _ _ Fw').
  assert (Sg : Extract.span (fun c => negb (Js.isSpace c)) (gap ++ tail)
               = (EmptyString, gap ++ tail)).
  { apply span_stop. destruct gap as [|c gap]; [congruence|].
    simpl. inversion Fg as [|? ? E _]; subst. now rewrite E. }
  rewrite Sg. simpl fst. simpl snd. rewrite append_nil_r.
  rewrite (span_run _ _ _ Fg), (span_stop Js.isSpace tail Ht).
  simpl fst. simpl snd. rewrite append_nil_r.
  destruct word; [congruence|]. destruct gap; [congruence|]. reflexivity.
Qed.

Lemma removeFirstWord_single (leading word : string) :
  Forall (fun c => Js.isSpace c = true) (list_ascii_of_string leading) ->
  Forall (fun c => Js.isSpace c = false) (list_ascii_of_string word) ->
  Extract.removeFirstWord (leading ++ word) = leading ++ word.
Proof.
  intros Fl Fw. unfold Extract.removeFirstWord.
  rewrite (span_run _ _ _ Fl).
  assert (Sw : Extract.span Js.isSpace word = (EmptyString, word)).
  { apply span_stop. destruct word as [|c word]; [exact I|].
    simpl. now inversion Fw. }
  rewrite Sw. simpl fst. simpl snd. rewrite append_nil_r.
  assert (Fw' : Forall (fun c => negb (Js.isSpace c) = true)
                  (list_ascii_of_string word)).
  { eapply Forall_impl; [|exact Fw]. intros c E. simpl in E. now rewrite E. }
  pose proof (span_run _ word "" Fw') as R. rewrite append_nil_r in R.
  rewrite R. simpl. destruct (word ++ "") as [|c w]; reflexivity.
Qed.

(** X23. [extractProductDescription] joins the trimmed texts of the
    selected elements with line feeds. Without [hasDescriptionLabel] that
    is the result. With it, the first word and the white space after it
    are removed, and only those (white space before the word stays); a
    description of a single word is returned whole. *)
Theorem extractProductDescription_label :
  forall (this : ProductScraper) (productPageOptions : ProductPageOptions)
         (dom : CheerioAPI) (texts : list string),
    Extract.extractTextContents dom (pps_description (productPageSelectors this))
    = Ok texts ->
    let description := String.concat Extract.lineFeed texts in
    (hasDescriptionLabel productPageOptions = false ->
     Extract.extractProductDescription this productPageOptions dom
     = Ok description)
    /\ (hasDescriptionLabel productPageOptions = true ->
        forall leading word gap tail,
          description = leading ++ word ++ gap ++ tail ->
          Forall (fun c => Js.isSpace c = true) (list_ascii_of_string leading) ->
          word <> "" ->
          Forall (fun c => Js.isSpace c = false) (list_ascii_of_string word) ->
          gap <> "" ->
          Forall (fun c => Js.isSpace c = true) (list_ascii_of_string gap) ->
          match tail with
          | String c _ => Js.isSpace c = false
          | EmptyString => True
          end ->
          Extract.extractProductDescription this productPageOptions dom
          = Ok (leading ++ tail))
    /\ (hasDescriptionLabel productPageOptions = true ->
        forall leading word,
          description = leading ++ word ->
          Forall (fun c => Js.isSpace c = true) (list_ascii_of_string leading) ->
          Forall (fun c => Js.isSpace c = false) (list_ascii_of_string word) ->
          Extract.extractProductDescription this productPageOptions dom
          = Ok description).
Proof.
  intros this productPageOptions dom texts E description.
  unfold Extract.extractProductDescription. rewrite E. simpl andThen.
  fold description. split; [|split].
  - intros ->. reflexivity.
  - intros -> leading word gap tail D Fl Nw Fw Ng Fg Ht.
    rewrite D. now rewrite removeFirstWord_word.
  - intros -> leading word D Fl Fw.
    rewrite D. now rewrite removeFirstWord_single.
Qed.

Ltac all_chars := repeat (constructor; [reflexivity|]); constructor.

Lemma extractProductDescription_label_witness :
  Extract.extractProductDescription Samples.pageShop Samples.unlabelled
    Samples.productPage
  = Ok "Description: This is a description of the product."
  /\ Extract.extractProductDescription Samples.pageShop Samples.labelled
       Samples.productPage
     = Ok "This is a description of the product."
  /\ Extract.extractProductDescription Samples.pageShop Samples.labelled
       (fun _ => [{| text := " Tea "; attribs := [] |}])
     = Ok "Tea".
Proof.
  split; [|split].
  - apply (proj1 (extractProductDescription_label Samples.pageShop
                    Samples.unlabelled Samples.productPage
                    ["Description: This is a description of the product."]
                    eq_refl)).
    reflexivity.
  - apply (proj1 (proj2 (extractProductDescription_label Samples.pageShop
                           Samples.labelled Samples.productPage
                           ["Description: This is a description of the product."]
                           eq_refl))
             eq_refl "" "Description:" " " "This is a description of the product.");
      try reflexivity; try discriminate; all_chars.
  - apply (proj2 (proj2 (extractProductDescription_label Samples.pageShop
                           Samples.labelled
                           (fun _ => [{| text := " Tea "; attribs := [] |}])
                           ["Tea"] eq_refl))
             eq_refl "" "Tea");
      try reflexivity; all_chars.
Defined.

(** X24. For a basicInfo with a non-empty [url], [searchProductCardData]
    issues exactly one fetch, that of the URL, and gives the images and the
    description extracted from that page (images first), or the error of
    the fetch; and whenever [searchProduct] rejects,
    [searchProductCardData] rejects with the same error without fetching a
    product page. *)
Theorem searchProductCardData_fetches :
  forall (URL : UrlApi) (web : Web)
         (numberToString : float -> string) (Fuse : FuseProduct.FuseEngine)
         (this : ProductScraper) (productPageOptions : ProductPageOptions)
         (fuel : nat) (basicInfo : BasicInfo) (st : Store),
    (forall u,
        url basicInfo = Some u -> Js.truthy_string u = true ->
        Search.searchProductCardData URL web numberToString
          Fuse this productPageOptions fuel
          basicInfo st
        = Some (match web u with
                | Some dom => Search.cardContent URL this productPageOptions dom
                | None =>
                    Throw (u ++ " is not a valid URL or is currently unavailable")
                end,
                Constructor.recordFetch st u))
    /\ (forall e st1,
           Search.searchProduct URL web numberToString Fuse this fuel basicInfo st
           = Some (Throw e, st1) ->
           Search.searchProductCardData URL web numberToString
             Fuse this productPageOptions fuel
             basicInfo st
           = Some (Throw e, st1)).
Proof.
  intros URL web numberToString Fuse this productPageOptions fuel basicInfo st. split.
  - intros u U Tr. unfold Search.searchProductCardData, bind, Search.searchProduct.
    rewrite U, Tr. unfold ret, Constructor.fetchCheerioAPI.
    destruct (web u); reflexivity.
  - intros e st1 E. unfold Search.searchProductCardData, bind. now rewrite E.
Qed.

Lemma searchProductCardData_fetches_witness :
  Search.searchProductCardData Samples.noUrl Samples.productSite Samples.numberToString
    Samples.noFuse
    Samples.pageShop Samples.labelled 0 Samples.knownAssam initialStore
  = Some (Ok {| content_imageUrls := ["/img/1.png"; "/img/2.png"];
                content_description := "This is a description of the product." |},
          {| fetched := ["/p/Assam"]; fuseDefaults := FUSE_DEFAULT_OPTIONS |})
  /\ Search.searchProductCardData Samples.noUrl Samples.deadSite Samples.numberToString
    Samples.noFuse
       Samples.pageShop Samples.labelled 0 Samples.assam initialStore
     = Some (Throw "/s/Assam is not a valid URL or is currently unavailable",
             {| fetched := ["/s/Assam"]; fuseDefaults := FUSE_DEFAULT_OPTIONS |}).
Proof.
  split.
  - exact (proj1 (searchProductCardData_fetches Samples.noUrl Samples.productSite
                    Samples.numberToString
                      Samples.noFuse Samples.pageShop Samples.labelled 0
                    Samples.knownAssam initialStore)
             "/p/Assam" eq_refl eq_refl).
  - exact (proj2 (searchProductCardData_fetches Samples.noUrl Samples.deadSite
                    Samples.numberToString
                      Samples.noFuse Samples.pageShop Samples.labelled 0
                    Samples.assam initialStore)
             _ _ eq_refl).
Defined.

(** * Run-time type checks *)

(** [undefined] and [null] have none of the checked types. *)
Lemma typeChecker_absent (typeName : string) (check : Is.JsAny -> bool)
    (val : Is.JsAny) :
  Is.typeChecker typeName = Ok check -> Is.defined val = false -> check val = false.
Proof.
  unfold Is.typeChecker. intros E D.
  assert (V : val = Is.JsUndefined \/ val = Is.JsNull)
    by (destruct val; try discriminate; auto).
  repeat match type of E with
         | (if ?c then _ else _) = _ => destruct c
         end;
    try discriminate; injection E as <-; destruct V as [-> | ->]; reflexivity.
Qed.

(** X25. How [invalidType] treats an absent value: [undefined] and [null]
    pass every optional check, whatever the type name (even a name that is
    no type), and pass no required check. *)
Theorem invalidType_absent :
  forall (display : Is.JsAny -> string) (valName typeName : string)
         (val : Is.JsAny),
    Is.defined val = false ->
    Is.invalidType display valName typeName val true = Ok tt
    /\ Is.invalidType display valName typeName val false <> Ok tt.
Proof.
  intros display valName typeName val D. unfold Is.invalidType. rewrite D.
  split; [reflexivity|]. simpl.
  destruct (Is.typeChecker typeName) as [check|e] eqn:C; [|discriminate].
  simpl. rewrite (typeChecker_absent _ _ _ C D). discriminate.
Qed.

Lemma invalidType_absent_witness :
  Is.invalidType (fun _ => "null") "config.baseUrl" "string" Is.JsNull true = Ok tt
  /\ Is.invalidType (fun _ => "null") "config.baseUrl" "string" Is.JsNull false
     <> Ok tt.
Proof.
  exact (invalidType_absent (fun _ => "null") "config.baseUrl" "string" Is.JsNull
           eq_refl).
Defined.

(** X26. For a value that is checked (the check is required, or the value
    is neither [undefined] nor [null]): every array passes as an "object";
    "fn" and "function" accept the same values; and a type name other than
    the seven known ones throws "Type ... does not exist", whatever the
    value. *)
Theorem invalidType_checked :
  forall (display : Is.JsAny -> string) (valName : string) (val : Is.JsAny)
         (isOptional : bool),
    isOptional = false \/ Is.defined val = true ->
    (forall items,
        Is.invalidType display valName "object" (Is.JsArray items) isOptional
        = Ok tt)
    /\ (Is.invalidType display valName "fn" val isOptional = Ok tt
        <-> Is.invalidType display valName "function" val isOptional = Ok tt)
    /\ (forall typeName,
           ~ In typeName
               ["string"; "number"; "object"; "boolean"; "array"; "fn"; "function"] ->
           Is.invalidType display valName typeName val isOptional
           = Throw ("Type " ++ typeName ++ " does not exist")).
Proof.
  intros display valName val isOptional Ch.
  assert (G : isOptional && negb (Is.defined val) = false)
    by (destruct Ch as [-> | ->]; [reflexivity|apply andb_false_r]).
  split; [|split].
  - intros items. unfold Is.invalidType. simpl. now rewrite andb_false_r.
  - unfold Is.invalidType. rewrite G. simpl.
    destruct (Is.fn val); simpl; split; auto; discriminate.
  - intros typeName N. unfold Is.invalidType. rewrite G.
    unfold Is.typeChecker.
    repeat match goal with
           | |- context [String.eqb typeName ?s] =>
               destruct (String.eqb_spec typeName s) as [->|_];
               [exfalso; apply N; simpl; tauto|]
           end.
    reflexivity.
Qed.

Lemma invalidType_checked_witness :
  Is.invalidType (fun _ => "1,2") "config.brands" "object"
    (Is.JsArray [Is.JsNumber 1%float; Is.JsNumber 2%float]) true = Ok tt
  /\ Is.invalidType (fun _ => "x") "callback" "symbol" (Is.JsString "x") false
     = Throw "Type symbol does not exist".
Proof.
  split.
  - exact (proj1 (invalidType_checked (fun _ => "1,2") "config.brands"
                    (Is.JsArray [Is.JsNumber 1%float; Is.JsNumber 2%float]) true
                    (or_intror eq_refl)) _).
  - apply (proj2 (proj2 (invalidType_checked (fun _ => "x") "callback"
                           (Is.JsString "x") false (or_introl eq_refl)))).
    simpl. intros [E|[E|[E|[E|[E|[E|[E|[]]]]]]]]; discriminate E.
Defined.

(** * Duplicate pages of product objects *)

(** X27. For callbacks that return the objects [{ name, brand, url }] (as
    the candidate gathering of [searchProduct] does), the end-of-pagination
    check works: at a page whose first object is deeply equal to one
    already accumulated, the iteration stops and returns exactly the
    results of the pages before it. *)
Theorem iterateOverPagination_stops_on_repeated_cards :
  forall (web : Web) (numberToString : float -> string)
         (pagination : Constructor.Pagination)
         (callback : CheerioAPI -> result (list ProductCardData))
         (pageNum : float) (pages : list (list ProductCardData))
         (data : list ProductCardData),
    Constructor.Reaches web numberToString pagination callback pageNum pages ->
    Constructor.inRange (Constructor.last pagination) pageNum = true ->
    Constructor.served web numberToString pagination callback pageNum data ->
    Constructor.firstIsAccumulated (List.concat pages) data ->
    forall st, exists st',
      forall fuel, (List.length pages < fuel)%nat ->
        Constructor.iterateOverPagination web numberToString fuel pagination callback st
        = Some (Ok (List.concat pages), st').
Proof.
  intros web numberToString pagination callback pageNum pages data Re R S F.
  apply (iterateOverPagination_stops_on_reoccurring_page web numberToString
           _ _ pagination
           callback pageNum pages data Re R S F).
  reflexivity.
Qed.

Lemma iterateOverPagination_stops_on_repeated_cards_witness :
  exists st',
    Constructor.iterateOverPagination
      (Samples.sameSite [("Assam", "Malty")]) Samples.numberToString 4
      (Samples.teaPagination None)
      (fun dom =>
         Extract.extractProductsBasicInfoFromList Samples.noUrl Samples.shop dom)
      initialStore
    = Some (Ok [ {| card_name := "Assam"; card_brand := "";
                    card_url := "/p/Assam" |} ], st').
Proof.
  destruct (iterateOverPagination_stops_on_repeated_cards
              (Samples.sameSite [("Assam", "Malty")]) Samples.numberToString
              (Samples.teaPagination None)
              (fun dom =>
                 Extract.extractProductsBasicInfoFromList Samples.noUrl
                   Samples.shop dom)
              2%float
              [[ {| card_name := "Assam"; card_brand := "";
                    card_url := "/p/Assam" |} ]]
              [ {| card_name := "Assam"; card_brand := "";
                   card_url := "/p/Assam" |} ])
    with (st := initialStore) as [st' E].
  - apply (Constructor.Reaches_next _ _ _ _ 1%float []
             [ {| card_name := "Assam"; card_brand := "";
                  card_url := "/p/Assam" |} ]);
      [ | reflexivity | served_here | reflexivity].
    apply Constructor.Reaches_start.
  - reflexivity.
  - served_here.
  - exists {| card_name := "Assam"; card_brand := ""; card_url := "/p/Assam" |},
      {| card_name := "Assam"; card_brand := ""; card_url := "/p/Assam" |}.
    repeat split. now left.
  - exists st'. apply E. simpl. lia.
Defined.
